(** * InterviewMate: the interview back end, verified against its specification

    A shallow embedding of [backend/interview_brain.py] and [backend/app.py]:
    the text utilities the code relies on (CPython's [str] methods and
    [int]), the JD chunker, the hesitation detector, the confidence scorer,
    the parser of the two-line LLM answer, the question budget, and the
    session state machine behind the HTTP endpoints.

    Conventions of the model.
    - A Python [str] is a [string]; a character is a code point below 256
      (type [ascii]).  The character classes below are CPython's tables cut to
      that range.
    - A Python [int] is a [Z]; a Python [float] is an IEEE 754 binary64 value
      of [SpecFloat.spec_float].
    - A Python [dict] is a [gmap] keyed by strings.
    - The external services (speech recognition, embeddings, vector search,
      chat completion, [uuid4], [random.choice]) are not code of the
      repository: what they answer is an input of the model, one value per
      call, and a call that raises is an answer of its own. *)

From Stdlib Require Import ZArith Ascii String List Bool Lia SpecFloat.
From Stdlib Require Import DecimalString DecimalN DecimalPos DecimalFacts.
From stdpp Require Import base option list strings gmap.

Local Open Scope string_scope.
Local Open Scope Z_scope.

(** ** Characters *)

Definition code (c : ascii) : N := N_of_ascii c.

(** [str.isspace] on one character: also what [str.strip()] removes and what
    [str.split()] splits on. *)
Definition isspace (c : ascii) : bool :=
  let n := code c in
  ((9 <=? n) && (n <=? 13) || (28 <=? n) && (n <=? 32)
   || (n =? 133) || (n =? 160))%N.

(** The line boundaries of [str.splitlines]. *)
Definition is_linebreak (c : ascii) : bool :=
  let n := code c in
  ((10 <=? n) && (n <=? 13) || (28 <=? n) && (n <=? 30) || (n =? 133))%N.

Definition LF : ascii := "010"%char.
Definition CR : ascii := "013"%char.
Definition SP : ascii := " "%char.

(** ** [str] methods *)

(** Truth value of a string: [if text], [if not text]. *)
Definition nonempty (s : string) : bool :=
  match s with EmptyString => false | String _ _ => true end.

Fixpoint lstrip (s : string) : string :=
  match s with
  | EmptyString => EmptyString
  | String c r => if isspace c then lstrip r else s
  end.

Fixpoint rstrip (s : string) : string :=
  match s with
  | EmptyString => EmptyString
  | String c r =>
      let r' := rstrip r in
      if isspace c && negb (nonempty r') then EmptyString else String c r'
  end.

(** [s.strip()] *)
Definition strip (s : string) : string := rstrip (lstrip s).

(** [s.split()]: the maximal runs of characters that are not whitespace.
    [cur] is the word being read. *)
Fixpoint split_ws (cur s : string) : list string :=
  match s with
  | EmptyString => if nonempty cur then [cur] else []
  | String c r =>
      if isspace c
      then (if nonempty cur then cur :: split_ws EmptyString r
            else split_ws EmptyString r)
      else split_ws (cur +:+ String c EmptyString) r
  end.

Definition split (s : string) : list string := split_ws EmptyString s.

(** [sep.join(l)] *)
Fixpoint join (sep : string) (l : list string) : string :=
  match l with
  | [] => EmptyString
  | [x] => x
  | x :: rest => x +:+ sep +:+ join sep rest
  end.

(** [s.splitlines()]: a line ends at a line boundary, CR LF counts as one
    boundary, and no empty line follows the last boundary. *)
Fixpoint splitlines_from (cur s : string) : list string :=
  match s with
  | EmptyString => if nonempty cur then [cur] else []
  | String c r =>
      if is_linebreak c then
        cur :: match r with
               | String c' r' =>
                   if Ascii.eqb c CR && Ascii.eqb c' LF
                   then splitlines_from EmptyString r'
                   else splitlines_from EmptyString r
               | EmptyString => splitlines_from EmptyString r
               end
      else splitlines_from (cur +:+ String c EmptyString) r
  end.

Definition splitlines (s : string) : list string :=
  splitlines_from EmptyString s.

(** [s.startswith(p)] *)
Fixpoint startswith (p s : string) : bool :=
  match p, s with
  | EmptyString, _ => true
  | String a p', String b s' => Ascii.eqb a b && startswith p' s'
  | String _ _, EmptyString => false
  end.

(** [sub in s] *)
Fixpoint contains (sub s : string) : bool :=
  startswith sub s ||
  match s with
  | EmptyString => false
  | String _ r => contains sub r
  end.

(** [s.split(sep)] for a separator of one character: never an empty list. *)
Fixpoint split_on (sep : ascii) (s : string) : list string :=
  match s with
  | EmptyString => [EmptyString]
  | String c r =>
      if Ascii.eqb c sep then EmptyString :: split_on sep r
      else match split_on sep r with
           | h :: t => String c h :: t
           | [] => [String c EmptyString]
           end
  end.

(** [s.replace(old, "")]: the occurrences of [old] are removed from left to
    right, without overlap.  [skip] counts the characters of the occurrence
    being removed that are still to come. *)
Fixpoint remove_from (old : string) (skip : nat) (s : string) : string :=
  match s with
  | EmptyString => EmptyString
  | String c r =>
      match skip with
      | S k => remove_from old k r
      | O =>
          if nonempty old && startswith old s
          then remove_from old (Nat.pred (String.length old)) r
          else String c (remove_from old O r)
      end
  end.

Definition remove_all (old s : string) : string := remove_from old O s.

(** ** Lists and integers *)

(** [len(l)] as a Python integer. *)
Definition len {A} (l : list A) : Z := Z.of_nat (length l).

(** A slice bound as CPython adjusts it: a negative bound counts from the
    end, and the result is clipped to [0 .. len]. *)
Definition clip_index (n i : Z) : Z :=
  if i <? 0 then Z.max (i + n) 0 else Z.min i n.

(** [l[i:j]] *)
Definition py_slice {A} (l : list A) (i j : Z) : list A :=
  let n := len l in
  let a := clip_index n i in
  let b := clip_index n j in
  take (Z.to_nat (b - a)) (drop (Z.to_nat a) l).

(** ** The chunker: [_chunk_text] *)

(** The [while i < len(words)] loop.  Each unit of [fuel] pays for one test of
    the loop condition; [None] means the loop is still running when the fuel
    is spent. *)
Fixpoint chunk_loop (fuel : nat) (words : list string)
    (chunk_size_words overlap_words : Z) (i : Z) (chunks : list string)
    : option (list string) :=
  match fuel with
  | O => None
  | S fuel' =>
      if i <? len words then
        let chunk := py_slice words i (i + chunk_size_words) in
        chunk_loop fuel' words chunk_size_words overlap_words
          (i + (chunk_size_words - overlap_words))
          (chunks ++ [join " " chunk])
      else Some chunks
  end.

(** The closing comprehension [[c.strip() for c in chunks if len(c.split()) > 10]]. *)
Definition filter_tiny (chunks : list string) : list string :=
  map strip (List.filter (fun c => 10 <? len (split c)) chunks).

(** [_chunk_text(text, chunk_size_words, overlap_words)].  The source has no
    [raise] and calls nothing that raises, so a run either returns a list or
    never leaves the loop. *)
Definition _chunk_text (fuel : nat) (text : string)
    (chunk_size_words overlap_words : Z) : option (list string) :=
  if negb (nonempty text) then Some []
  else
    let words := split (strip text) in
    if len words <=? chunk_size_words then Some [join " " words]
    else
      match chunk_loop fuel words chunk_size_words overlap_words 0 [] with
      | Some chunks => Some (filter_tiny chunks)
      | None => None
      end.

(** ** The two-line protocol parser: [parse_llm_two_line_response] *)

Definition QMARK : ascii := "?"%char.

Fixpoint has_char (c : ascii) (s : string) : bool :=
  match s with
  | EmptyString => false
  | String a r => Ascii.eqb a c || has_char c r
  end.

(** [s.endswith("?")] *)
Fixpoint ends_with_qmark (s : string) : bool :=
  match s with
  | EmptyString => false
  | String a EmptyString => Ascii.eqb a QMARK
  | String _ r => ends_with_qmark r
  end.

(** The test of the loop, [ln.endswith("?") or "?" in ln]. *)
Definition question_like (ln : string) : bool :=
  ends_with_qmark ln || has_char QMARK ln.

(** [[ln.strip() for ln in text.strip().splitlines() if ln.strip()]] *)
Definition response_lines (text : string) : list string :=
  map strip (List.filter (fun ln => nonempty (strip ln)) (splitlines (strip text))).

(** [for ln in reversed(lines[1:]): if ...: follow = ln; break]: the first
    question-like line met from the end, [None] when the loop ends without
    a [break]. *)
Definition last_question (rest : list string) : option string :=
  List.find question_like (rev rest).

Definition parse_llm_two_line_response (text : string) : string * string :=
  if negb (nonempty text) then (EmptyString, EmptyString)
  else
    match response_lines text with
    | [] => (EmptyString, EmptyString)
    | [only] => (EmptyString, only)
    | eval_line :: ((second :: _) as rest) =>
        match last_question rest with
        | Some follow => (eval_line, follow)
        | None => (eval_line, second)
        end
    end.

(** ** The question budget: [compute_max_questions] *)

(** The blanks [int] accepts around a numeral. *)
Definition int_space (c : ascii) : bool :=
  let n := code c in
  ((9 <=? n) && (n <=? 13) || (n =? 32) || (n =? 133) || (n =? 160))%N.

Definition digit_value (c : ascii) : option Z :=
  let n := code c in
  if ((48 <=? n) && (n <=? 57))%N then Some (Z.of_N n - 48) else None.

Definition UNDERSCORE : ascii := "_"%char.
Definition PLUS : ascii := "+"%char.
Definition MINUS : ascii := "-"%char.
Definition PIPE : ascii := "|"%char.

Fixpoint skip_int_space (s : string) : string :=
  match s with
  | String c r => if int_space c then skip_int_space r else s
  | EmptyString => EmptyString
  end.

(** The digits of a numeral, single underscores allowed between two digits:
    the value read, the number of digits, and what follows. *)
Fixpoint scan_digits (s : string) (after_underscore : bool) (acc : Z) (ndigits : nat)
    : option (Z * nat * string) :=
  match s with
  | EmptyString => if after_underscore then None else Some (acc, ndigits, s)
  | String c r =>
      match digit_value c with
      | Some d => scan_digits r false (10 * acc + d) (S ndigits)
      | None =>
          if Ascii.eqb c UNDERSCORE then
            if after_underscore then None else scan_digits r true acc ndigits
          else if after_underscore then None else Some (acc, ndigits, s)
      end
  end.

(** [sys.get_int_max_str_digits()] as CPython ships it: a numeral of more
    digits is refused with [ValueError]. *)
Definition int_max_str_digits : nat := 4300.

(** [int(s)] in base ten; [None] stands for [ValueError]. *)
Definition py_int (s : string) : option Z :=
  let s := skip_int_space s in
  let '(negative, s) :=
    match s with
    | String c r =>
        if Ascii.eqb c PLUS then (false, r)
        else if Ascii.eqb c MINUS then (true, r)
        else (false, s)
    | EmptyString => (false, s)
    end in
  if startswith "_" s then None
  else
    match scan_digits s false 0 O with
    | None => None
    | Some (v, ndigits, rest) =>
        if Nat.eqb ndigits O then None
        else if Nat.ltb int_max_str_digits ndigits then None
        else if nonempty (skip_int_space rest) then None
        else Some (if negative then - v else v)
    end.

Definition compute_max_questions (mode : string) : Z :=
  if negb (nonempty mode) then 12
  else if contains "Quick" mode then 6
  else if contains "Detailed" mode then 12
  else if contains "Long" mode then 20
  else
    match split_on PIPE mode with
    | _ :: second :: _ =>
        match py_int second with
        | Some n => n
        | None => 12
        end
    | _ => 12
    end.

(** ** The hesitation detector: [detect_hesitation] *)

(** The fragment of [re] that [_HESITATION_PATTERNS] uses.  A literal is
    compared ignoring case, as under [re.IGNORECASE]. *)
Inductive regex : Type :=
  | RChar (c : ascii)
  | RDigits
  | RBoundary
  | RSeq (r1 r2 : regex)
  | RAlt (r1 r2 : regex)
  | ROpt (r : regex).

(** [\d] *)
Definition is_digit (c : ascii) : bool :=
  let n := code c in ((48 <=? n) && (n <=? 57))%N.

(** [\w] *)
Definition is_word (c : ascii) : bool :=
  let n := code c in
  ((48 <=? n) && (n <=? 57) || (65 <=? n) && (n <=? 90) || (n =? 95)
   || (97 <=? n) && (n <=? 122)
   || (n =? 170) || (n =? 178) || (n =? 179) || (n =? 181) || (n =? 185)
   || (n =? 186) || (188 <=? n) && (n <=? 190)
   || (192 <=? n) && (n <=? 214) || (216 <=? n) && (n <=? 246)
   || (248 <=? n))%N.

Definition lower (c : ascii) : ascii :=
  let n := code c in
  if ((65 <=? n) && (n <=? 90))%N then ascii_of_N (n + 32) else c.

Definition eqb_nocase (a b : ascii) : bool := Ascii.eqb (lower a) (lower b).

Definition word_before (prev : option ascii) : bool :=
  match prev with Some c => is_word c | None => false end.

Definition word_after (s : string) : bool :=
  match s with String c _ => is_word c | EmptyString => false end.

(** [\d+] at the head of [s], then the rest of the pattern [k]. *)
Fixpoint match_digits (s : string) (k : option ascii -> string -> bool) : bool :=
  match s with
  | String c r => is_digit c && (match_digits r k || k (Some c) r)
  | EmptyString => false
  end.

(** [r] matches at the head of [s], [prev] being the character before it, and
    the rest of the pattern [k] matches what follows. *)
Fixpoint match_here (r : regex) (prev : option ascii) (s : string)
    (k : option ascii -> string -> bool) : bool :=
  match r with
  | RChar c =>
      match s with
      | String a s' => eqb_nocase a c && k (Some a) s'
      | EmptyString => false
      end
  | RDigits => match_digits s k
  | RBoundary => xorb (word_before prev) (word_after s) && k prev s
  | RSeq r1 r2 => match_here r1 prev s (fun p s' => match_here r2 p s' k)
  | RAlt r1 r2 => match_here r1 prev s k || match_here r2 prev s k
  | ROpt r1 => match_here r1 prev s k || k prev s
  end.

(** [bool(r.search(s))] *)
Fixpoint search_from (r : regex) (prev : option ascii) (s : string) : bool :=
  match_here r prev s (fun _ _ => true) ||
  match s with
  | String c s' => search_from r (Some c) s'
  | EmptyString => false
  end.

Definition re_search (r : regex) (s : string) : bool := search_from r None s.

Fixpoint literal (s : string) (tail : regex) : regex :=
  match s with
  | EmptyString => tail
  | String c s' => RSeq (RChar c) (literal s' tail)
  end.

(** [\bphrase\b] *)
Definition whole (phrase : string) : regex :=
  RSeq RBoundary (literal phrase RBoundary).

Definition _HESITATION_PATTERNS : list regex :=
  [ whole "um"; whole "uh";
    RSeq RBoundary (literal "um" (RSeq (ROpt (RChar "m")) RBoundary));
    whole "well"; whole "maybe"; whole "i think"; whole "not sure";
    whole "kind of"; whole "sort of"; whole "I guess"; whole "perhaps";
    RSeq RBoundary (RSeq RDigits (literal "..." RBoundary)) ].

(** ["|".join(_HESITATION_PATTERNS)] *)
Fixpoint alternation (l : list regex) : regex :=
  match l with
  | [] => RAlt RBoundary (RSeq RBoundary RBoundary)
  | [r] => r
  | r :: rest => RAlt r (alternation rest)
  end.

Definition _hes_re : regex := alternation _HESITATION_PATTERNS.

Definition detect_hesitation (text : string) : bool :=
  if negb (nonempty text) || (String.length (strip text) =? 0)%nat then true
  else re_search _hes_re text.

(** ** Python floats *)

(** IEEE 754 binary64, with the operations of [SpecFloat] at precision 53. *)
Abbreviation float := spec_float.

Definition fadd : float -> float -> float := SFadd 53 1024.
Definition fmul : float -> float -> float := SFmul 53 1024.
Definition fdiv : float -> float -> float := SFdiv 53 1024.
Definition flt : float -> float -> bool := SFltb.
Definition fle : float -> float -> bool := SFleb.
Definition feq : float -> float -> bool := SFeqb.

Definition f0 : float := S754_zero false.
Definition f1 : float := S754_finite false 4503599627370496 (-52).
Definition f2 : float := S754_finite false 4503599627370496 (-51).
(** The literals [0.6] and [0.7]: the doubles nearest to 6/10 and 7/10. *)
Definition f0_6 : float := S754_finite false 5404319552844595 (-53).
Definition f0_7 : float := S754_finite false 6305039478318694 (-53).

(** The built-ins [min(a, b)] and [max(a, b)]: the first argument is kept
    unless the second compares strictly below (above) it. *)
Definition py_min (a b : float) : float := if flt b a then b else a.
Definition py_max (a b : float) : float := if flt a b then b else a.

(** [max(0.0, min(1.0, x))] *)
Definition clamp01 (x : float) : float := py_max f0 (py_min f1 x).

(** ** The confidence scorer: [compute_confidence_score] *)

(** What the embedding service returns for one text, numpy's arrays, and the
    four numpy operations the scorer uses.  They are libraries behind an
    interface; the model is stated for every implementation of it.
    [np.array(user_emb)] of one embedding, a flat list of floats, and
    [np.linalg.norm] always return.  [np_mean] is
    [np.mean(np.array(emb, dtype="float32"), axis=0)], and [None] when
    [np.array] raises [ValueError], as it does on a batch of embeddings of
    different lengths; [np_dot] is [np.dot], and [None] when it raises
    [ValueError], as it does on two arrays of different lengths. *)
Class Numpy : Type := {
  embedding : Type;
  ndarray : Type;
  np_array : embedding -> ndarray;
  np_mean : list embedding -> option ndarray;
  np_norm : ndarray -> float;
  np_dot : ndarray -> ndarray -> option float
}.

(** The answers of the embedding service to the two requests one scoring
    makes, for the answer text and for the JD chunks; [None] is a request
    that raises. *)
Record embed_calls `{Numpy} : Type := {
  user_call : option (list embedding);
  jd_call : option (list embedding)
}.

(** [_mean_embedding_of_chunks(chunks)]; the outer [None] is an exception,
    of the embedding request or of [np.array], which the function lets
    through. *)
Definition _mean_embedding_of_chunks `{Numpy} (chunks : list string)
    (call : option (list embedding)) : option (option ndarray) :=
  match chunks with
  | [] => Some None
  | _ :: _ =>
      match call with
      | None => None
      | Some [] => Some None
      | Some (e :: es) =>
          match np_mean (e :: es) with
          | Some mean => Some (Some mean)
          | None => None
          end
      end
  end.

(** [_cosine_sim(a, b)]; [None] is the exception of [np.dot], which is
    called only when the product of the norms is not zero. *)
Definition _cosine_sim `{Numpy} (a b : option ndarray) : option float :=
  match a, b with
  | Some a, Some b =>
      let denom := fmul (np_norm a) (np_norm b) in
      if feq denom f0 then Some f0
      else
        match np_dot a b with
        | Some d => Some (fdiv d denom)
        | None => None
        end
  | _, _ => Some f0
  end.

(** The two penalties, in the order the code applies them. *)
Definition penalised (hesitant short : bool) (conf : float) : float :=
  let conf := if hesitant then fmul conf f0_6 else conf in
  if short then fmul conf f0_7 else conf.

(** [compute_confidence_score(user_text, session_id, jd_chunks)]; [None] is
    an exception leaving the function.  [session_id] is not used by the body. *)
Definition compute_confidence_score `{Numpy} (user_text session_id : string)
    (jd_chunks : list string) (calls : embed_calls) : option float :=
  if negb (nonempty user_text) then Some f0
  else
    (* try: user_emb = _embed_texts([user_text])[0]  except Exception: user_emb = None *)
    let user_emb :=
      match user_call calls with
      | Some (e :: _) => Some e
      | _ => None
      end in
    (* outside the try: the request for the JD chunks, np.array and np.dot *)
    match _mean_embedding_of_chunks jd_chunks (jd_call calls) with
    | None => None
    | Some mean_jd_emb =>
        match (match user_emb with
               | Some e => _cosine_sim (Some (np_array e)) mean_jd_emb
               | None => Some f0
               end) with
        | None => None
        | Some sim =>
            let sim_norm := clamp01 (fdiv (fadd sim f1) f2) in
            let conf :=
              penalised (detect_hesitation user_text)
                        (len (split user_text) <? 8) sim_norm in
            Some (clamp01 conf)
        end
    end.

(** ** Sessions *)

(** One entry of a session's history, [{"speaker": ..., "text": ...}]. *)
Record turn : Type := { speaker : string; text : string }.

(** The values the code stores in a session: [None], integers, strings and
    the history list. *)
Inductive pyval : Type :=
  | PNone
  | PInt (n : Z)
  | PStr (s : string)
  | PTurns (h : list turn).

#[global] Instance turn_eq_dec : EqDecision turn.
Proof. solve_decision. Defined.

#[global] Instance float_eq_dec : EqDecision float.
Proof. solve_decision. Defined.

#[global] Instance pyval_eq_dec : EqDecision pyval.
Proof. solve_decision. Defined.

(** An [InterviewSession] is a [dict]; [SESSIONS] maps a session id to it.
    The endpoints fetch the session object from [SESSIONS] and change it in
    place, so every change below is a change of the stored session. *)
Abbreviation session := (gmap string pyval).
Abbreviation sessions := (gmap string (gmap string pyval)).

(** Truth value of a stored value: [if session.get("feedback")]. *)
Definition truthy (v : option pyval) : bool :=
  match v with
  | None | Some PNone => false
  | Some (PInt n) => negb (n =? 0)
  | Some (PStr s) => nonempty s
  | Some (PTurns h) => match h with [] => false | _ => true end
  end.

(** The content of a [JSONResponse]. *)
Inductive jval : Type :=
  | JNull
  | JBool (b : bool)
  | JInt (n : Z)
  | JFloat (x : float)
  | JStr (s : string)
  | JTurns (h : list turn).

#[global] Instance jval_eq_dec : EqDecision jval.
Proof. solve_decision. Defined.

Definition to_json (v : pyval) : jval :=
  match v with
  | PNone => JNull
  | PInt n => JInt n
  | PStr s => JStr s
  | PTurns h => JTurns h
  end.

Definition json_opt (v : option string) : jval :=
  match v with Some s => JStr s | None => JNull end.

Abbreviation json := (list (string * jval)).

(** The value of a key of a JSON object, when it has the key. *)
Fixpoint field (k : string) (content : json) : option jval :=
  match content with
  | [] => None
  | (k', v) :: rest => if String.eqb k' k then Some v else field k rest
  end.

(** How a request ends: a JSON body, an [HTTPException] raised by the
    endpoint, or another exception that escapes it. *)
Inductive reply : Type :=
  | JSONResponse (content : json)
  | HTTPException (status_code : Z) (detail : string)
  | Unhandled (exc : string).

(** *** Endpoint bodies: a state and exception monad over the session *)

(** A computation on the session being served: it may change the session and
    either goes on with a value or ends the request with a reply.  A change
    made before an exception stays, as the session is changed in place. *)
Definition handler (A : Type) : Type := session -> session * (A + reply).

#[global] Instance handler_ret : MRet handler := fun A a s => (s, inl a).

#[global] Instance handler_bind : MBind handler := fun A B k m s =>
  match m s with
  | (s', inl a) => k a s'
  | (s', inr r) => (s', inr r)
  end.

(** [return JSONResponse(content=...)] and [raise]. *)
Definition respond {A} (content : json) : handler A :=
  fun s => (s, inr (JSONResponse content)).
Definition throw {A} (r : reply) : handler A := fun s => (s, inr r).

(** [session.get(k)] *)
Definition get_ (k : string) : handler (option pyval) := fun s => (s, inl (s !! k)).

(** [session[k]] *)
Definition getitem (k : string) : handler pyval :=
  fun s => match s !! k with
           | Some v => (s, inl v)
           | None => (s, inr (Unhandled "KeyError"))
           end.

(** [session[k] = v] *)
Definition setitem (k : string) (v : pyval) : handler unit :=
  fun s => (<[k := v]> s, inl tt).

(** [session["history"].append(t)] *)
Definition append_history (t : turn) : handler unit :=
  h ← getitem "history";
  match h with
  | PTurns l => setitem "history" (PTurns (l ++ [t]))
  | _ => throw (Unhandled "AttributeError")
  end.

(** The answer of an external call that may raise. *)
Definition call {A} (answer : option A) : handler A :=
  match answer with
  | Some a => mret a
  | None => throw (Unhandled "Exception")
  end.

Definition run (m : handler reply) (s : session) : session * reply :=
  match m s with
  | (s', inl r) => (s', r)
  | (s', inr r) => (s', r)
  end.

(** *** The helpers of [app.py] *)

(** [call_openai_llm(messages)]: the content of the completion, stripped;
    [None] is the [HTTPException] it raises when the request fails. *)
Definition call_openai_llm (answer : option string) : option string :=
  strip <$> answer.

Definition NL : string := String LF EmptyString.

Definition FALLBACKS : list string :=
  [ "Can you provide a concrete example related to this job requirement?";
    "Can you briefly quantify the impact of your action?";
    "Could you explain one technical decision in more detail?" ].

(** [random.choice(FALLBACKS)], [pick] being the draw. *)
Definition choose_fallback_followup (pick : nat) : string :=
  nth (pick mod 3) FALLBACKS EmptyString.

(** [build_transcript(session_history)] on a list of turns. *)
Definition build_transcript (session_history : list turn) : string :=
  join NL (map (fun t => "(" +:+ speaker t +:+ "): " +:+ strip (text t)) session_history).

(** [build_transcript(session.get("history", []))] on whatever the key holds:
    the transcript, or the exception that iterating the value raises. *)
Definition transcript_of (history : option pyval) : string + string :=
  match history with
  | None => inl (build_transcript [])
  | Some (PTurns h) => inl (build_transcript h)
  | Some (PStr EmptyString) => inl EmptyString
  | Some (PStr _) => inr "AttributeError"
  | Some _ => inr "TypeError"
  end.

(** [generate_feedback_for_session(session)]: the transcript goes to the
    completion service, whose answer [answer] is the feedback; a failed
    request gives the fixed text. *)
Definition generate_feedback_for_session (answer : option string) : handler string :=
  history ← get_ "history";
  match transcript_of history with
  | inr exc => throw (Unhandled exc)
  | inl _ =>
      mret (match call_openai_llm answer with
            | Some fb => fb
            | None => "Feedback generation failed. Try again later."
            end)
  end.

(** [compute_max_questions(session.get("mode", ""))] on whatever the key
    holds; [None] is the [TypeError] of ["Quick" in mode] on an integer. *)
Definition max_questions_of (mode : option pyval) : option Z :=
  match mode with
  | None => Some (compute_max_questions EmptyString)
  | Some (PStr m) => Some (compute_max_questions m)
  | Some PNone => Some 12
  | Some (PInt n) => if n =? 0 then Some 12 else None
  | Some (PTurns _) => Some 12
  end.

Definition of_opt (v : option string) : pyval :=
  match v with Some s => PStr s | None => PNone end.

(** *** The endpoints *)

(** What the outside world answers during one [start_session]. *)
Record start_env : Type := {
  uuid : string;                        (* str(uuid.uuid4()) *)
  start_rag : option (list string);     (* query_rag(...), None when it raises *)
  start_llm : option string             (* the completion, None when it fails *)
}.

(** What the outside world answers during one [submit_response]. *)
Record submit_env `{Numpy} : Type := {
  asr : option string;                  (* the transcription, None when it raises *)
  rag : option (list string);           (* query_rag(...), None when it raises *)
  llm : option string;                  (* the completion, None when it fails *)
  pick : nat;                           (* the draw of random.choice *)
  embeds : embed_calls;                 (* the embedding requests of the scorer *)
  feedback_llm : option string          (* the completion asked for feedback *)
}.

(** [start_session(role, level, focus, mode, jd_text)].  The index built from
    [jd_text] lives in [RAG_STORE], which the model leaves out. *)
Definition start_session (SESSIONS : sessions) (role level focus mode jd_text : string)
    (env : start_env) : sessions * reply :=
  let session_id := uuid env in
  let session : session :=
    <["feedback" := PNone]> (<["status" := PStr "in_progress"]>
    (<["questions_asked" := PInt 0]> (<["history" := PTurns []]>
    (<["jd_text" := PStr jd_text]> (<["mode" := PStr mode]>
    (<["focus" := PStr focus]> (<["level" := PStr level]>
    (<["role" := PStr role]> (<["session_id" := PStr session_id]> ∅))))))))) in
  match start_rag env with
  | None => (<[session_id := session]> SESSIONS, Unhandled "Exception")
  | Some jd_chunks =>
      match call_openai_llm (start_llm env) with
      | None =>
          (<[session_id := session]> SESSIONS,
           HTTPException 500 "Failed to get first question from OpenAI API.")
      | Some first_question =>
          let session :=
            <["current_question" := PStr first_question]>
            (<["questions_asked" := PInt 1]>
            (<["history" := PTurns [ {| speaker := "Interviewer"; text := first_question |} ]]>
             session)) in
          (<[session_id := session]> SESSIONS,
           JSONResponse [ ("session_id", JStr session_id);
                          ("first_question", JStr first_question);
                          ("status", JStr "in_progress");
                          ("current_q_count", JInt 1) ])
      end
  end.

(** Steps 4 to 8 of [submit_response]: what the endpoint works out from the
    answer and from the services, before it touches the session again. *)
Record verdict : Type := {
  hesitation_flag : bool;
  full_response : string;
  evaluation : string;
  followup_question : option string;
  confidence_score : float;
  offtopic : bool
}.

Definition assess `{Numpy} (session_id user_text : string) (jd_chunks : list string)
    (env : submit_env) : verdict :=
  (* 4) the hesitation flag that comes back with the prompt *)
  let hesitation_flag := detect_hesitation user_text in
  (* 5) the completion, or the fallback when it fails *)
  let full_response :=
    match call_openai_llm (llm env) with
    | Some r => r
    | None =>
        "Short evaluation not available due to model error." +:+ NL
          +:+ choose_fallback_followup (pick env)
    end in
  (* 6) parse *)
  let '(evaluation, followup_question) :=
    if nonempty full_response
    then (let '(eval_line, follow_line) := parse_llm_two_line_response full_response in
          (eval_line, Some follow_line))
    else (EmptyString, None) in
  (* 7) confidence, 0.0 when the scorer raises *)
  let confidence_score :=
    match compute_confidence_score user_text session_id jd_chunks (embeds env) with
    | Some c => c
    | None => f0
    end in
  (* 8) the off-topic marker, removed from what is displayed *)
  let offtopic := startswith "[OFFTOPIC]" (strip evaluation) in
  let evaluation :=
    if offtopic then strip (remove_all "[OFFTOPIC]" evaluation) else evaluation in
  {| hesitation_flag := hesitation_flag; full_response := full_response;
     evaluation := evaluation; followup_question := followup_question;
     confidence_score := confidence_score; offtopic := offtopic |}.

(** The JSON body of a turn that leaves the interview in progress. *)
Definition turn_payload (user_text : string) (v : verdict) (current_q_count : Z) : json :=
  [ ("user_text", JStr user_text);
    ("evaluation", JStr (evaluation v));
    ("followup_question", json_opt (followup_question v));
    ("new_question", json_opt (followup_question v));
    ("full_response", JStr (full_response v));
    ("current_q_count", JInt current_q_count);
    ("feedback_ready", JBool false);
    ("confidence", JFloat (confidence_score v));
    ("offtopic", JBool (offtopic v));
    ("hesitation_flag", JBool (hesitation_flag v)) ].

(** The JSON body of the turn that finishes the interview. *)
Definition final_payload (user_text : string) (v : verdict) (current_q_count : Z)
    (feedback_text : string) : json :=
  [ ("user_text", JStr user_text);
    ("evaluation", JStr (evaluation v));
    ("followup_question", json_opt (followup_question v));
    ("new_question", JNull);
    ("full_response", JStr (full_response v));
    ("current_q_count", JInt current_q_count);
    ("feedback_ready", JBool true);
    ("feedback", JStr feedback_text);
    ("confidence", JFloat (confidence_score v));
    ("offtopic", JBool (offtopic v));
    ("hesitation_flag", JBool (hesitation_flag v)) ].

(** The JSON body that asks for the answer again; [cq] and [qa] are
    [session.get("current_question", "")] and [session.get("questions_asked", 0)]
    before their defaults. *)
Definition repeat_payload (cq qa : option pyval) : json :=
  [ ("user_text", JStr EmptyString);
    ("evaluation", JStr EmptyString);
    ("followup_question",
      JStr "I didn't catch that — could you please repeat your answer?");
    ("new_question", to_json (default (PStr EmptyString) cq));
    ("full_response", JStr EmptyString);
    ("current_q_count", to_json (default (PInt 0) qa));
    ("feedback_ready", JBool false);
    ("confidence", JFloat f0);
    ("offtopic", JBool false);
    ("hesitation_flag", JBool true) ].

(** The body of [submit_response] once the session is found. *)
Definition submit_response_body `{Numpy} (session_id : string) (env : submit_env)
    : handler reply :=
  status ← get_ "status";
  if decide (status = Some (PStr "finished")) then
    fb ← get_ "feedback";
    respond [ ("feedback_ready", JBool true);
              ("feedback", to_json (default (PStr "Feedback is being generated.") fb)) ]
  else
    (* 1) transcribe *)
    transcription ← call (asr env);
    let user_text := strip transcription in
    if negb (nonempty user_text) then
      (* nothing was heard: ask again, the session is left as it is *)
      cq ← get_ "current_question";
      qa ← get_ "questions_asked";
      respond (repeat_payload cq qa)
    else
      (* 2) the answer enters the history *)
      append_history {| speaker := "User"; text := user_text |};;
      (* 3) retrieval *)
      jd_chunks ← call (rag env);
      (* 4) the keys the prompt reads *)
      _ ← getitem "history";
      _ ← getitem "role";
      _ ← getitem "level";
      _ ← getitem "focus";
      _ ← getitem "mode";
      (* 4) to 8) *)
      let v := assess session_id user_text jd_chunks env in
      let new_question := followup_question v in
      (* 9) update the session: the counter only when the answer is on topic *)
      append_history {| speaker := "Interviewer"; text := full_response v |};;
      (if offtopic v then mret tt
       else
         qa ← get_ "questions_asked";
         match default (PInt 0) qa with
         | PInt n => setitem "questions_asked" (PInt (n + 1))
         | _ => throw (Unhandled "TypeError")
         end);;
      setitem "current_question" (of_opt new_question);;
      (* 10) the budget *)
      mode ← get_ "mode";
      match max_questions_of mode with
      | None => throw (Unhandled "TypeError")
      | Some max_q =>
          (* 11) finished? *)
          qa ← getitem "questions_asked";
          match qa with
          | PInt n =>
              if max_q <=? n then
                setitem "status" (PStr "finished");;
                feedback_text ← generate_feedback_for_session (feedback_llm env);
                setitem "feedback" (PStr feedback_text);;
                respond (final_payload user_text v n feedback_text)
              else
                (* 13) still in progress *)
                respond (turn_payload user_text v n)
          | _ => throw (Unhandled "TypeError")
          end
      end.

(** The body of [end_interview] once the session is found. *)
Definition end_interview_body (session_id : string) (feedback_answer : option string)
    : handler reply :=
  status ← get_ "status";
  fb ← get_ "feedback";
  if bool_decide (status = Some (PStr "finished")) && truthy fb then
    respond [ ("status", JStr "finished");
              ("message", JStr "Feedback already generated.");
              ("session_id", JStr session_id) ]
  else
    setitem "status" (PStr "finished");;
    feedback_text ← generate_feedback_for_session feedback_answer;
    setitem "feedback" (PStr feedback_text);;
    respond [ ("status", JStr "finished");
              ("message", JStr "Feedback generated.");
              ("session_id", JStr session_id);
              ("feedback", JStr feedback_text) ].

(** An endpoint looks the session up, answers 404 when there is none, and
    otherwise runs its body on the stored session. *)
Definition on_session (SESSIONS : sessions) (session_id : string) (detail : string)
    (body : handler reply) : sessions * reply :=
  match SESSIONS !! session_id with
  | None => (SESSIONS, HTTPException 404 detail)
  | Some s => let '(s', r) := run body s in (<[session_id := s']> SESSIONS, r)
  end.

Definition submit_response `{Numpy} (SESSIONS : sessions) (session_id : string)
    (env : submit_env) : sessions * reply :=
  on_session SESSIONS session_id "Session not found." (submit_response_body session_id env).

Definition end_interview (SESSIONS : sessions) (session_id : string)
    (feedback_answer : option string) : sessions * reply :=
  on_session SESSIONS session_id "Interview session not found."
    (end_interview_body session_id feedback_answer).

Definition get_feedback (SESSIONS : sessions) (session_id : string) : sessions * reply :=
  on_session SESSIONS session_id "Not found."
    (fb ← get_ "feedback";
     if truthy fb
     then respond [ ("feedback", to_json (default PNone fb)) ]
     else respond [ ("feedback", JStr "Generating... Please check back.") ]).

(** *** The server as a transition system *)

Inductive request `{Numpy} : Type :=
  | StartSession (role level focus mode jd_text : string) (env : start_env)
  | SubmitResponse (session_id : string) (env : submit_env)
  | EndInterview (session_id : string) (feedback_answer : option string)
  | GetFeedback (session_id : string).

Definition step `{Numpy} (SESSIONS : sessions) (r : request) : sessions * reply :=
  match r with
  | StartSession role level focus mode jd_text env =>
      start_session SESSIONS role level focus mode jd_text env
  | SubmitResponse session_id env => submit_response SESSIONS session_id env
  | EndInterview session_id feedback_answer =>
      end_interview SESSIONS session_id feedback_answer
  | GetFeedback session_id => get_feedback SESSIONS session_id
  end.

(** [uuid4] hands out an identifier that no stored session has. *)
Definition fresh `{Numpy} (SESSIONS : sessions) (r : request) : Prop :=
  match r with
  | StartSession _ _ _ _ _ env => SESSIONS !! uuid env = None
  | _ => True
  end.

(** The tables of sessions the server can hold, from the empty table it
    starts with. *)
Inductive reachable `{Numpy} : sessions -> Prop :=
  | reachable_init : reachable ∅
  | reachable_step SESSIONS r :
      reachable SESSIONS -> fresh SESSIONS r -> reachable (step SESSIONS r).1.

(** Running a sequence of requests, and the identifiers drawn along it
    being fresh. *)
Fixpoint execute `{Numpy} (SESSIONS : sessions) (rs : list request) : sessions :=
  match rs with
  | [] => SESSIONS
  | r :: rs' => execute (step SESSIONS r).1 rs'
  end.

Fixpoint fresh_along `{Numpy} (SESSIONS : sessions) (rs : list request) : Prop :=
  match rs with
  | [] => True
  | r :: rs' => fresh SESSIONS r /\ fresh_along (step SESSIONS r).1 rs'
  end.

(** The counter and the status of a session, when they hold what the code
    stores there. *)
Definition questions_asked (s : session) : option Z :=
  match s !! "questions_asked" with
  | Some (PInt n) => Some n
  | _ => None
  end.

Definition status (s : session) : option string :=
  match s !! "status" with
  | Some (PStr st) => Some st
  | _ => None
  end.

(** ** Vocabulary of the statements *)

(** A word: not empty, and free of whitespace. *)
Fixpoint no_space (s : string) : bool :=
  match s with
  | EmptyString => true
  | String a r => negb (isspace a) && no_space r
  end.

Definition is_word_str (w : string) : Prop := nonempty w = true /\ no_space w = true.

(** [f] is the follow-up the specification asks for among the lines [rest]
    that come after the first: the last of them that contains a question
    mark, or the first of them when none does. *)
Definition has_qmark (ln : string) : bool := has_char QMARK ln.

Definition follow_up_of (rest : list string) (f : string) : Prop :=
  (exists before after,
      rest = (before ++ f :: after)%list /\ has_qmark f = true /\
      Forall (fun ln => has_qmark ln = false) after)
  \/ (Forall (fun ln => has_qmark ln = false) rest /\ head rest = Some f).

(** The non-empty trimmed lines of a text, as the specification words
    them: the lines of the text, without the blank ones, each trimmed. *)
Definition kept (l : list string) : list string :=
  map strip (List.filter (fun ln => nonempty (strip ln)) l).

Definition trimmed_lines (text : string) : list string := kept (splitlines text).

(** A string of whitespace only. *)
Fixpoint all_space (s : string) : bool :=
  match s with
  | EmptyString => true
  | String a r => isspace a && all_space r
  end.

(** The number of words of a chunk. *)
Definition word_count (c : string) : Z := len (split c).

(** A text of twenty-six words. *)
Definition alphabet_text : string :=
  "a b c d e f g h i j k l m n o p q r s t u v w x y z".


(** The decimal numeral of a natural number: [0], [7], [120]. *)
Definition decimal (n : N) : string := NilZero.string_of_uint (N.to_uint n).

(** The mode names none of the three tiers. *)
Definition no_tier_name (mode : string) : Prop :=
  contains "Quick" mode = false /\ contains "Detailed" mode = false
  /\ contains "Long" mode = false.

(** An implementation of the numpy interface with one embedding and one
    array, on which every norm and every dot product is 1: for the closed
    examples. *)
Definition numpy_stub : Numpy :=
  {| embedding := unit; ndarray := unit;
     np_array := fun _ => tt; np_mean := fun _ => Some tt;
     np_norm := fun _ => f1; np_dot := fun _ _ => Some f1 |}.

(** The answers of the embedding service, over [numpy_stub]. *)
Definition stub_calls (user jd : option (list unit)) : @embed_calls numpy_stub :=
  @Build_embed_calls numpy_stub user jd.

(** A session as [start_session] builds it and the endpoints keep it: the
    keys the endpoints read hold values of the expected kinds; while the
    interview is in progress the counter is below the budget of the mode
    (or still at most 1, the count [start_session] sets without looking at the
    budget); and a finished session holds its feedback. *)
Definition well_formed (s : session) : Prop :=
  exists (h : list turn) (n : Z) (m : string),
    s !! "history" = Some (PTurns h)
    /\ s !! "questions_asked" = Some (PInt n)
    /\ s !! "mode" = Some (PStr m)
    /\ is_Some (s !! "role") /\ is_Some (s !! "level") /\ is_Some (s !! "focus")
    /\ ((s !! "status" = Some (PStr "in_progress")
         /\ (n <= 1 \/ n < compute_max_questions m))
        \/ (s !! "status" = Some (PStr "finished")
            /\ exists fb, s !! "feedback" = Some (PStr fb))).

(** A field of the JSON body of a reply. *)
Definition reply_field (k : string) (r : reply) : option jval :=
  match r with
  | JSONResponse content => field k content
  | _ => None
  end.

(** *** Concrete runs, over [numpy_stub] *)

Definition demo_start_env : start_env :=
  {| uuid := "s1"; start_rag := Some [];
     start_llm := Some "Tell me about your last project?" |}.

(** The table after one [start_session] with the given mode. *)
Definition demo_table (mode : string) : sessions :=
  (start_session ∅ "Engineer" "Senior" "Backend" mode EmptyString demo_start_env).1.

Definition stub_submit_env (asr rag_answer : option string) (llm : option string)
    (feedback : option string) : @submit_env numpy_stub :=
  @Build_submit_env numpy_stub asr (Some []) llm O (stub_calls None None) feedback.

(** An answer that the model marks as off topic. *)
Definition offtopic_env : @submit_env numpy_stub :=
  stub_submit_env (Some "I like cats") None
    (Some ("[OFFTOPIC] Irrelevant." +:+ NL +:+ "Back to the role: which stack?"))
    (Some "Overall Score: 3/10").

(** An answer on topic. *)
Definition ontopic_env : @submit_env numpy_stub :=
  stub_submit_env (Some "I built the billing service") None
    (Some ("Clear." +:+ NL +:+ "How did you test it?"))
    (Some "Overall Score: 7/10").

(** The session a table stores under an identifier. *)
Definition stored (SESSIONS : sessions) (session_id : string) : session :=
  default ∅ (SESSIONS !! session_id).

Definition is_stored (SESSIONS : sessions) (session_id : string) : bool :=
  match SESSIONS !! session_id with Some _ => true | None => false end.

(** The table after [start_session] (mode [Quick]) and [end_interview]. *)
Definition demo_finished_table : sessions :=
  (end_interview (demo_table "Quick") "s1" (Some "Overall Score: 6/10")).1.

(** A second interview starts, the first one goes on and is ended. *)
Definition demo_requests : list (@request numpy_stub) :=
  [ @SubmitResponse numpy_stub "s1" ontopic_env;
    @StartSession numpy_stub "Analyst" "Junior" "SQL" "Custom|7" EmptyString
      {| uuid := "s2"; start_rag := Some []; start_llm := Some "Which joins do you know?" |};
    @SubmitResponse numpy_stub "s1" offtopic_env;
    @EndInterview numpy_stub "s1" None;
    @SubmitResponse numpy_stub "s1" ontopic_env;
    @GetFeedback numpy_stub "s1" ].

(** ** Vocabulary of the further properties *)

(** The session a request is about: the one it creates or the one it names. *)
Definition target `{Numpy} (r : request) : string :=
  match r with
  | StartSession _ _ _ _ _ env => uuid env
  | SubmitResponse session_id _ => session_id
  | EndInterview session_id _ => session_id
  | GetFeedback session_id => session_id
  end.

(** The history of a session, when the key holds one. *)
Definition history (s : session) : option (list turn) :=
  match s !! "history" with
  | Some (PTurns h) => Some h
  | _ => None
  end.

(** The text [generate_feedback_for_session] returns for an answer of the
    completion service. *)
Definition feedback_text_of (answer : option string) : string :=
  match call_openai_llm answer with
  | Some fb => fb
  | None => "Feedback generation failed. Try again later."
  end.

(** *** Further concrete runs, over [numpy_stub] *)

(** Nothing but whitespace was transcribed. *)
Definition blank_env : @submit_env numpy_stub :=
  stub_submit_env (Some "   ") None None None.

(** The retrieval raises. *)
Definition rag_down_env : @submit_env numpy_stub :=
  @Build_submit_env numpy_stub (Some " I built the billing service ") None
    (Some "Clear.") O (stub_calls None None) None.

(** The keys [start_session] fills from the form and the identifier. *)
Definition settings : list string :=
  [ "session_id"; "role"; "level"; "focus"; "mode"; "jd_text" ].

(** The turns of the interviewer in a history. *)
Definition interviewer_turns (h : list turn) : Z :=
  Z.of_nat (length (List.filter (fun t => String.eqb (speaker t) "Interviewer") h)).

(** Two texts that differ at most in the case of their ASCII letters. *)
Fixpoint same_letters (a b : string) : bool :=
  match a, b with
  | EmptyString, EmptyString => true
  | String x a', String y b' => eqb_nocase x y && same_letters a' b'
  | _, _ => false
  end.

(** The fillers that the hesitation patterns spell out. *)
Definition fillers : list string :=
  [ "um"; "uh"; "umm"; "well"; "maybe"; "i think"; "not sure"; "kind of"; "sort of";
    "i guess"; "perhaps" ].

(** The last character of a text. *)
Fixpoint last_char (s : string) : option ascii :=
  match s with
  | EmptyString => None
  | String c r => match last_char r with Some l => Some l | None => Some c end
  end.

(** A text without a letter, a digit or an underscore. *)
Fixpoint no_word_char (s : string) : bool :=
  match s with
  | EmptyString => true
  | String c r => negb (is_word c) && no_word_char r
  end.

(** The characters before a position of two such texts. *)
Definition same_prev (p q : option ascii) : bool :=
  match p, q with
  | Some x, Some y => eqb_nocase x y
  | None, None => true
  | _, _ => false
  end.

(** A text of decimal digits only. *)
Fixpoint all_digits (s : string) : bool :=
  match s with
  | EmptyString => true
  | String c r => is_digit c && all_digits r
  end.

(** ** The retrieval store: [build_rag_index], [query_rag] *)

(** The FAISS side of the module, behind an interface: an embedding as the
    service returns it and its length, the two steps that make the index
    ([np.array(embeddings, dtype="float32")], then [faiss.IndexFlatL2(dim)]
    and [index.add(arr)]) as one operation, and the search
    ([np.array(q_embs, dtype="float32").reshape(1, -1)], then
    [index.search(q_vec, k)], of which the code keeps [I[0].tolist()]).
    [None] is an exception of the library. *)
Class Faiss : Type := {
  vector : Type;
  faiss_index : Type;
  vector_len : vector -> Z;
  make_index : Z -> list vector -> option faiss_index;
  index_search : faiss_index -> list vector -> Z -> option (list Z)
}.

(** One value of [RAG_STORE]: [{"index": ..., "chunks": ..., "dim": ...}]. *)
Record rag_entry `{Faiss} : Type := {
  entry_index : option faiss_index;
  entry_chunks : list string;
  entry_dim : Z
}.

Abbreviation rag_store := (gmap string rag_entry).

(** How a call ends: it returns, an exception leaves it, or it never ends. *)
Inductive outcome : Type := Returned | Raised | Running.

(** [_embed_texts(texts)]: no request is made for an empty list; [service]
    is the answer of the embedding service, [None] when the request raises. *)
Definition _embed_texts `{Faiss} (texts : list string) (service : option (list vector))
    : option (list vector) :=
  match texts with
  | [] => Some []
  | _ :: _ => service
  end.

(** [{"index": None, "chunks": [], "dim": 0}] *)
Definition empty_entry `{Faiss} : rag_entry :=
  {| entry_index := None; entry_chunks := []; entry_dim := 0 |}.

(** [build_rag_index(session_id, jd_text)].  The chunker is given one test
    of its loop per word and one more; a chunker still running after them is
    a call that never ends. *)
Definition build_rag_index `{Faiss} (RAG_STORE : rag_store) (session_id jd_text : string)
    (service : option (list vector)) : rag_store * outcome :=
  let jd_text := strip jd_text in
  if negb (nonempty jd_text) then (<[session_id := empty_entry]> RAG_STORE, Returned)
  else
    match _chunk_text (S (length (split (strip jd_text)))) jd_text 150 30 with
    | None => (RAG_STORE, Running)
    | Some [] => (<[session_id := empty_entry]> RAG_STORE, Returned)
    | Some (c :: cs) =>
        let chunks := c :: cs in
        match _embed_texts chunks service with
        | None => (RAG_STORE, Raised)
        | Some [] => (RAG_STORE, Raised)          (* embeddings[0]: IndexError *)
        | Some (e :: es) =>
            let dim := vector_len e in
            match make_index dim (e :: es) with
            | None => (RAG_STORE, Raised)
            | Some index =>
                (<[session_id := {| entry_index := Some index; entry_chunks := chunks;
                                    entry_dim := dim |}]> RAG_STORE,
                 Returned)
            end
        end
    end.



(** [query_rag(session_id, query, top_k)]: the chunks of the session at the
    positions the search returns, positions outside the list left out. *)
Definition query_rag `{Faiss} (RAG_STORE : rag_store) (session_id query : string)
    (top_k : Z) (service : option (list vector)) : option (list string) :=
  match RAG_STORE !! session_id with
  | None => Some []
  | Some store =>
      match entry_index store with
      | None => Some []
      | Some index =>
          let chunks := entry_chunks store in
          match chunks with
          | [] => Some []
          | _ :: _ =>
              match _embed_texts [query] service with
              | None => None
              | Some [] => Some []
              | Some (e :: es) =>
                  let k := Z.min top_k (len chunks) in
                  match index_search index (e :: es) k with
                  | None => None
                  | Some ids =>
                      Some (omap (fun idx =>
                                    if (0 <=? idx) && (idx <? len chunks)
                                    then chunks !! Z.to_nat idx else None) ids)
                  end
              end
          end
      end
  end.

(** *** A concrete store *)

(** An implementation of the FAISS interface whose search answers with the
    positions 0, -1 and 7 whatever the query. *)
Definition faiss_stub : Faiss :=
  {| vector := unit; faiss_index := unit;
     vector_len := fun _ => 1;
     make_index := fun _ _ => Some tt;
     index_search := fun _ _ _ => Some [0; -1; 7] |}.


(** ** The system prompt: [generate_system_prompt] *)

(** [CORE_PROMPT_TEMPLATE.format(jd_context=jd_context, history=history)]:
    the template line by line; its two fields stand on lines of their own,
    and it begins and ends with a line break. *)
Definition CORE_PROMPT_TEMPLATE (jd_context history : string) : string :=
  join NL
    [ EmptyString;
      "You are a natural, human-like interviewer. Use the provided Job Description context EXACTLY";
      "to generate questions and brief evaluations tailored to the role.";
      EmptyString;
      "Job Description (relevant excerpts):";
      jd_context;
      EmptyString;
      "Interview instructions (MUST follow exactly):";
      "- OUTPUT MUST BE EXACTLY 2 LINES:";
      "  Line 1: Short evaluation (1-2 sentences). If the candidate's answer is unrelated to the JD context, prefix Line 1 with the token: [OFFTOPIC]";
      "  Line 2: EXACTLY ONE follow-up question (one sentence) that is directly tied to the candidate's last answer and the JD context.";
      EmptyString;
      "- If HESITATION_FLAG is True: The evaluation should briefly acknowledge hesitation (one short sentence),";
      "  and the follow-up should encourage clarity and ask for a specific detail.";
      EmptyString;
      "- If the candidate drifted into a long side-story, acknowledge it politely and then redirect (do not cut them off).";
      "- NEVER provide sample answers.";
      "- Keep all responses concise, natural, and interview-like.";
      EmptyString;
      "Interview History:";
      history;
      EmptyString;
      "Now produce only the two-line interviewer response.";
      EmptyString ].

(** [s or d] on strings. *)
Definition str_or (s d : string) : string := if nonempty s then s else d.

(** [str(b)] on a boolean. *)
Definition str_bool (b : bool) : string := if b then "True" else "False".

(** [generate_system_prompt(role, level, focus, mode, jd_chunks,
    history_text, last_user_text)] *)
Definition generate_system_prompt (role level focus mode : string)
    (jd_chunks : list string) (history_text last_user_text : string) : string * bool :=
  let jd_context :=
    match jd_chunks with
    | [] => "(no JD context available)"
    | _ :: _ => join (NL +:+ NL) jd_chunks
    end in
  let hesitation_flag := detect_hesitation (str_or last_user_text EmptyString) in
  let role_info :=
    str_or role "Software Engineer" +:+ " (" +:+ str_or level "Mid-level" +:+ ")" in
  let history := str_or history_text "(no prior context)" in
  let prompt := CORE_PROMPT_TEMPLATE jd_context history in
  let prompt :=
    prompt +:+ NL +:+ "HESITATION_FLAG: " +:+ str_bool hesitation_flag
      +:+ NL +:+ "ROLE: " +:+ role_info
      +:+ NL +:+ "FOCUS: " +:+ focus
      +:+ NL +:+ "MODE: " +:+ mode +:+ NL in
  (prompt, hesitation_flag).

(** The prompt [start_session] sends for the first question. *)
Definition first_prompt (role level focus mode : string) (jd_chunks : list string)
    : string * bool :=
  generate_system_prompt role level focus mode jd_chunks EmptyString EmptyString.

(** An implementation of the numpy interface on which the answer and the job
    description are embedded with different lengths, so that [np.dot]
    raises: for the closed examples. *)
Definition numpy_mismatch : Numpy :=
  {| embedding := unit; ndarray := unit;
     np_array := fun _ => tt; np_mean := fun _ => Some tt;
     np_norm := fun _ => f1; np_dot := fun _ _ => None |}.
(** * Properties *)

(** ** Strings *)

Lemma app_cons (a : ascii) (s t : string) : String a s +:+ t = String a (s +:+ t).
Proof. reflexivity. Qed.

Lemma app_empty_l (s : string) : EmptyString +:+ s = s.
Proof. reflexivity. Qed.

Lemma app_empty_r (s : string) : s +:+ EmptyString = s.
Proof. induction s as [|a s IH]; [reflexivity|]. rewrite app_cons, IH. reflexivity. Qed.

Lemma app_assoc_str (s t u : string) : (s +:+ t) +:+ u = s +:+ (t +:+ u).
Proof. induction s as [|a s IH]; [reflexivity|]. rewrite !app_cons, IH. reflexivity. Qed.

Lemma nonempty_app_r (s : string) (a : ascii) : nonempty (s +:+ String a EmptyString) = true.
Proof. destruct s; reflexivity. Qed.

(** Stripping a text does not change its words. *)
Lemma split_ws_rstrip (s cur : string) : split_ws cur (rstrip s) = split_ws cur s.
Proof.
  revert cur. induction s as [|a s IH]; intros cur; [reflexivity|].
  simpl. destruct (isspace a) eqn:Ha; simpl.
  - destruct (rstrip s) as [|b r] eqn:Hr; simpl.
    + specialize (IH EmptyString). simpl in IH. rewrite <- IH.
      destruct (nonempty cur); reflexivity.
    + rewrite Ha. rewrite <- (IH EmptyString). reflexivity.
  - rewrite Ha. apply IH.
Qed.

Lemma split_ws_lstrip (s : string) :
  split_ws EmptyString (lstrip s) = split_ws EmptyString s.
Proof.
  induction s as [|a s IH]; [reflexivity|].
  simpl. destruct (isspace a) eqn:Ha; simpl; [exact IH | rewrite Ha; reflexivity].
Qed.

Lemma split_strip (s : string) : split (strip s) = split s.
Proof. unfold split, strip. rewrite split_ws_rstrip. apply split_ws_lstrip. Qed.

Lemma no_space_app (s t : string) : no_space (s +:+ t) = no_space s && no_space t.
Proof.
  induction s as [|a s IH]; [reflexivity|].
  rewrite app_cons. simpl. rewrite IH. apply andb_assoc.
Qed.

Lemma split_ws_words (s cur : string) :
  no_space cur = true -> Forall is_word_str (split_ws cur s).
Proof.
  revert cur. induction s as [|a s IH]; intros cur Hcur; simpl.
  - destruct (nonempty cur) eqn:Hn; constructor; [split; assumption | constructor].
  - destruct (isspace a) eqn:Ha.
    + destruct (nonempty cur) eqn:Hn.
      * constructor; [split; assumption | apply IH; reflexivity].
      * apply IH; reflexivity.
    + apply IH. rewrite no_space_app, Hcur. simpl. rewrite Ha. reflexivity.
Qed.

Lemma split_words (s : string) : Forall is_word_str (split s).
Proof. apply split_ws_words. reflexivity. Qed.

Lemma split_ws_word_app (w s cur : string) :
  no_space w = true -> split_ws cur (w +:+ s) = split_ws (cur +:+ w) s.
Proof.
  revert cur. induction w as [|a w IH]; intros cur Hw.
  - rewrite app_empty_r. reflexivity.
  - simpl in Hw. apply andb_true_iff in Hw as [Ha Hw].
    rewrite app_cons. simpl. apply negb_true_iff in Ha. rewrite Ha.
    rewrite IH by assumption. rewrite app_assoc_str. reflexivity.
Qed.

Lemma split_ws_word_end (w : string) :
  is_word_str w -> split_ws EmptyString w = [w].
Proof.
  intros [Hn Hw]. rewrite <- (app_empty_r w) at 1.
  rewrite split_ws_word_app by assumption. rewrite app_empty_l. simpl.
  rewrite Hn. reflexivity.
Qed.

(** Joining words with single spaces and splitting again gives the words. *)
Lemma split_join (ws : list string) :
  Forall is_word_str ws -> split (join " " ws) = ws.
Proof.
  unfold split. induction 1 as [|w ws Hw Hws IH]; [reflexivity|].
  destruct ws as [|w' ws'].
  - simpl. apply split_ws_word_end. assumption.
  - change (join " " (w :: w' :: ws')) with (w +:+ " " +:+ join " " (w' :: ws')).
    destruct Hw as [Hn Hw].
    rewrite split_ws_word_app by assumption.
    rewrite app_empty_l, app_cons, app_empty_l. cbn [split_ws].
    change (isspace " ") with true. cbv iota. rewrite Hn, IH. reflexivity.
Qed.

(** ** The chunker *)

Lemma chunk_loop_more_fuel (words : list string) (C O : Z) (fuel : nat) :
  forall (i : Z) (acc r : list string) (fuel' : nat),
    chunk_loop fuel words C O i acc = Some r -> (fuel <= fuel')%nat ->
    chunk_loop fuel' words C O i acc = Some r.
Proof.
  induction fuel as [|fuel IH]; intros i acc r fuel' Hrun Hle; [discriminate|].
  destruct fuel' as [|fuel']; [lia|].
  simpl in *. destruct (i <? len words); [|assumption].
  apply IH; [assumption | lia].
Qed.

Lemma chunk_loop_terminates (words : list string) (C O : Z) :
  1 <= C - O ->
  forall (fuel : nat) (i : Z) (acc : list string),
    (Z.to_nat (len words - i) < fuel)%nat ->
    exists r, chunk_loop fuel words C O i acc = Some r.
Proof.
  intros Hstep. induction fuel as [|fuel IH]; intros i acc Hfuel; [lia|].
  simpl. destruct (i <? len words) eqn:Hi.
  - apply Z.ltb_lt in Hi. apply IH. lia.
  - eexists; reflexivity.
Qed.

Lemma chunk_loop_diverges (words : list string) (C O : Z) :
  C - O <= 0 ->
  forall (fuel : nat) (i : Z) (acc : list string),
    i < len words -> chunk_loop fuel words C O i acc = None.
Proof.
  intros Hstep. induction fuel as [|fuel IH]; intros i acc Hi; [reflexivity|].
  simpl. apply Z.ltb_lt in Hi as Hi'. rewrite Hi'. apply IH. lia.
Qed.

Lemma filter_tiny_word_count (chunks : list string) :
  Forall (fun c => 10 < word_count c) (filter_tiny chunks).
Proof.
  unfold filter_tiny. apply List.Forall_forall. intros c Hc.
  apply in_map_iff in Hc as (c0 & <- & Hc0).
  apply filter_In in Hc0 as [_ Hc0]. apply Z.ltb_lt in Hc0.
  unfold word_count. rewrite split_strip. exact Hc0.
Qed.

Lemma split_nonempty_text (text : string) : split text <> [] -> nonempty text = true.
Proof. destruct text; [intros H; contradiction H; reflexivity | reflexivity]. Qed.

(** With a window that advances the chunker returns, and every fuel above
    the number of words of the text is enough. *)
Lemma _chunk_text_returns (text : string) (C O : Z) :
  1 <= C - O ->
  exists chunks, forall fuel,
    (length (split (strip text)) < fuel)%nat ->
    _chunk_text fuel text C O = Some chunks.
Proof.
  intros Hstep. unfold _chunk_text.
  destruct (nonempty text); simpl; [|eexists; reflexivity].
  destruct (len (split (strip text)) <=? C); [eexists; reflexivity|].
  destruct (chunk_loop_terminates (split (strip text)) C O Hstep
              (S (length (split (strip text)))) 0 []) as [r Hr].
  { unfold len. lia. }
  exists (filter_tiny r). intros fuel Hfuel.
  rewrite (chunk_loop_more_fuel _ _ _ _ _ _ _ fuel Hr) by lia. reflexivity.
Qed.

(** With a window that does not advance, a text of more words than the
    window holds keeps the loop running. *)
Lemma _chunk_text_never_returns (text : string) (C O : Z) :
  C - O <= 0 -> split (strip text) <> [] -> C < len (split (strip text)) ->
  forall fuel, _chunk_text fuel text C O = None.
Proof.
  intros Hstep Hwords Hlong fuel. unfold _chunk_text.
  destruct (nonempty text) eqn:Hne; simpl.
  - apply Z.leb_gt in Hlong as Hlong'. rewrite Hlong'.
    rewrite chunk_loop_diverges; [reflexivity | assumption | ].
    destruct (split (strip text)); [contradiction|]. unfold len. simpl. lia.
  - destruct text; [|discriminate]. contradiction Hwords. reflexivity.
Qed.

(** C2, as the code has it: nothing checks the two sizes.  With a window
    that advances ([chunk_size_words - overlap_words >= 1]) the chunker
    returns on every text, and every fuel above the number of words of the
    text is enough.  With a window that does not advance it still returns the
    single chunk of a text of at most [chunk_size_words] words (and the
    empty list for a text without words), and on a longer text the loop never
    ends: no amount of fuel gives a result, and no error is raised. *)
Theorem _chunk_text_terminates_iff_window_advances (text : string) (C O : Z) :
  (1 <= C - O ->
     exists chunks, forall fuel,
       (length (split (strip text)) < fuel)%nat ->
       _chunk_text fuel text C O = Some chunks)
  /\ (C - O <= 0 ->
       (split (strip text) = [] \/ len (split (strip text)) <= C ->
          exists chunks, forall fuel,
            (0 < fuel)%nat -> _chunk_text fuel text C O = Some chunks)
       /\ (split (strip text) <> [] -> C < len (split (strip text)) ->
          forall fuel, _chunk_text fuel text C O = None)).
Proof.
  split; [apply _chunk_text_returns | intros Hstep; split].
  - intros Hsmall. unfold _chunk_text.
    destruct (nonempty text); simpl; [|eexists; reflexivity].
    destruct (len (split (strip text)) <=? C) eqn:Hle; [eexists; reflexivity|].
    destruct Hsmall as [Hnone | Hsmall]; [|apply Z.leb_gt in Hle; lia].
    rewrite Hnone. exists (filter_tiny []). intros [|fuel] Hfuel; [lia | reflexivity].
  - apply _chunk_text_never_returns. assumption.
Qed.

(** C2, the claim as stated fails: with [chunk_size_words = overlap_words]
    a short text is chunked as usual, and a longer one keeps the loop running
    whatever the fuel. *)
Lemma _chunk_text_accepts_stuck_window :
  _chunk_text 0 "hello world" 5 5 = Some ["hello world"]
  /\ (forall fuel, _chunk_text fuel "a b" 1 1 = None).
Proof.
  split; [reflexivity|]. intros fuel.
  apply (_chunk_text_never_returns "a b" 1 1); [lia | discriminate | reflexivity].
Qed.

(** C7, as the code has it: the chunks of the sliding window (a text of more
    than [chunk_size_words] words) have more than ten words each, the smaller
    ones being filtered out; with a window that advances such a list of
    chunks is returned. *)
Theorem _chunk_text_window_chunks_gt_10_words (text : string) (C O : Z) :
  nonempty text = true -> C < len (split (strip text)) ->
  (forall fuel chunks,
      _chunk_text fuel text C O = Some chunks ->
      Forall (fun c => 10 < word_count c) chunks)
  /\ (1 <= C - O ->
      exists chunks,
        (forall fuel, (length (split (strip text)) < fuel)%nat ->
                      _chunk_text fuel text C O = Some chunks)
        /\ Forall (fun c => 10 < word_count c) chunks).
Proof.
  intros Hne Hlong.
  assert (Hany : forall fuel chunks,
             _chunk_text fuel text C O = Some chunks ->
             Forall (fun c => 10 < word_count c) chunks).
  { intros fuel chunks. unfold _chunk_text. rewrite Hne. simpl.
    apply Z.leb_gt in Hlong as ->.
    destruct (chunk_loop fuel _ C O 0 []) as [r|]; [|discriminate].
    intros [= <-]. apply filter_tiny_word_count. }
  split; [exact Hany|]. intros Hstep.
  destruct (_chunk_text_returns text C O Hstep) as [chunks Hchunks].
  exists chunks. split; [exact Hchunks|].
  apply (Hany (S (length (split (strip text))))). apply Hchunks. lia.
Qed.

Lemma _chunk_text_window_chunks_witness :
  (nonempty alphabet_text = true /\ 12 < len (split (strip alphabet_text)))
  /\ _chunk_text 27 alphabet_text 12 2
     = Some ["a b c d e f g h i j k l"; "k l m n o p q r s t u v"]
  /\ Forall (fun c => 10 < word_count c)
       ["a b c d e f g h i j k l"; "k l m n o p q r s t u v"].
Proof.
  split; [split; reflexivity|]. split; [reflexivity|].
  apply (proj1 (_chunk_text_window_chunks_gt_10_words alphabet_text 12 2
                  eq_refl eq_refl) 27%nat).
  reflexivity.
Defined.

(** C7, the claim as stated fails: a text of two words comes back as one
    chunk of two words. *)
Lemma _chunk_text_single_chunk_not_filtered :
  _chunk_text 0 "hello world" 150 30 = Some ["hello world"]
  /\ word_count "hello world" = 2.
Proof. split; reflexivity. Qed.

(** C8, as the code has it: the empty text gives no chunk; a text that has
    words, and at most [chunk_size_words] of them, gives exactly one chunk,
    made of its words joined by single spaces, whatever the overlap and the
    fuel; that chunk has the words of the text, and it is the text itself
    when the text is already in that form. *)
Theorem _chunk_text_single_chunk (fuel : nat) (text : string) (C O : Z) :
  _chunk_text fuel EmptyString C O = Some []
  /\ (split text <> [] -> len (split text) <= C ->
      _chunk_text fuel text C O = Some [join " " (split text)]
      /\ split (join " " (split text)) = split text)
  /\ (forall ws, ws <> [] -> Forall is_word_str ws -> text = join " " ws ->
      len ws <= C -> _chunk_text fuel text C O = Some [text]).
Proof.
  assert (Hone : split text <> [] -> len (split text) <= C ->
                 _chunk_text fuel text C O = Some [join " " (split text)]).
  { intros Hwords Hsmall. unfold _chunk_text.
    rewrite (split_nonempty_text _ Hwords). simpl. rewrite split_strip.
    apply Z.leb_le in Hsmall. rewrite Hsmall. reflexivity. }
  split; [reflexivity|]. split.
  - intros Hwords Hsmall. split; [auto|]. apply split_join, split_words.
  - intros ws Hws Hall -> Hsmall.
    rewrite Hone; rewrite split_join by assumption; auto.
Qed.

(** C8, the claim as stated fails: the one chunk is the text with its
    whitespace normalised, not the text; and a blank text that is not empty
    gives one empty chunk. *)
Lemma _chunk_text_normalises_whitespace :
  _chunk_text 0 "a  b" 150 30 = Some ["a b"]
  /\ _chunk_text 0 "   " 150 30 = Some [EmptyString].
Proof. split; reflexivity. Qed.

(** ** Lines *)

Lemma kept_cons (x : string) (l : list string) :
  kept (x :: l) = ((if nonempty (strip x) then [strip x] else []) ++ kept l)%list.
Proof. unfold kept. simpl. destruct (nonempty (strip x)); reflexivity. Qed.

Lemma linebreak_isspace (c : ascii) : is_linebreak c = true -> isspace c = true.
Proof. destruct c as [[] [] [] [] [] [] [] []]; intros H; try discriminate H; reflexivity. Qed.

Lemma lstrip_all_space (cur l : string) :
  all_space cur = true -> lstrip (cur +:+ l) = lstrip l.
Proof.
  induction cur as [|a cur IH]; [reflexivity|]. rewrite app_cons.
  cbn [all_space lstrip]. intros H. apply andb_true_iff in H as [Ha Hcur].
  rewrite Ha. auto.
Qed.

Lemma strip_all_space (cur l : string) :
  all_space cur = true -> strip (cur +:+ l) = strip l.
Proof. intros H. unfold strip. rewrite lstrip_all_space by assumption. reflexivity. Qed.

Lemma all_space_snoc (cur : string) (c : ascii) :
  all_space cur = true -> isspace c = true ->
  all_space (cur +:+ String c EmptyString) = true.
Proof.
  induction cur as [|a cur IH]; intros Hcur Hc.
  - rewrite app_empty_l. cbn [all_space]. rewrite Hc. reflexivity.
  - cbn [all_space] in Hcur. apply andb_true_iff in Hcur as [Ha Hcur].
    rewrite app_cons. cbn [all_space]. rewrite Ha. cbn [andb]. auto.
Qed.

Lemma rstrip_snoc_space (y : string) (c : ascii) :
  isspace c = true -> rstrip (y +:+ String c EmptyString) = rstrip y.
Proof.
  intros Hc. induction y as [|a y IH].
  - rewrite app_empty_l. cbn [rstrip nonempty negb andb]. rewrite Hc. reflexivity.
  - rewrite app_cons. cbn [rstrip]. rewrite IH. reflexivity.
Qed.

Lemma lstrip_snoc_space (x : string) (c : ascii) :
  isspace c = true ->
  lstrip (x +:+ String c EmptyString)
  = if nonempty (lstrip x) then lstrip x +:+ String c EmptyString else EmptyString.
Proof.
  intros Hc. induction x as [|a x IH].
  - rewrite app_empty_l. cbn [lstrip nonempty]. rewrite Hc. reflexivity.
  - rewrite app_cons. cbn [lstrip]. destruct (isspace a); [exact IH | reflexivity].
Qed.

Lemma strip_snoc_space (x : string) (c : ascii) :
  isspace c = true -> strip (x +:+ String c EmptyString) = strip x.
Proof.
  intros Hc. unfold strip. rewrite lstrip_snoc_space by assumption.
  destruct (lstrip x) as [|a y] eqn:Hx; [reflexivity|].
  cbn [nonempty]. apply rstrip_snoc_space. assumption.
Qed.

(** The line being read is a prefix of the first line. *)
Lemma splitlines_from_cur (s cur : string) :
  splitlines_from cur s
  = match splitlines_from EmptyString s with
    | [] => if nonempty cur then [cur] else []
    | l :: ls => (cur +:+ l) :: ls
    end.
Proof.
  revert cur. induction s as [|c r IH]; intros cur.
  - reflexivity.
  - cbn [splitlines_from]. destruct (is_linebreak c).
    + rewrite app_empty_r. reflexivity.
    + rewrite (IH (cur +:+ String c EmptyString)), (IH (EmptyString +:+ String c EmptyString)).
      rewrite app_empty_l.
      destruct (splitlines_from EmptyString r) as [|l ls].
      * rewrite nonempty_app_r. reflexivity.
      * rewrite app_assoc_str. reflexivity.
Qed.

Lemma kept_blank_cur (s cur : string) :
  all_space cur = true ->
  kept (splitlines_from cur s) = kept (splitlines_from EmptyString s).
Proof.
  intros Hcur. rewrite splitlines_from_cur.
  assert (Hblank : strip cur = EmptyString).
  { rewrite <- (app_empty_r cur). rewrite strip_all_space by assumption. reflexivity. }
  destruct (splitlines_from EmptyString s) as [|l ls].
  - destruct (nonempty cur); [|reflexivity]. rewrite kept_cons, Hblank. reflexivity.
  - rewrite !kept_cons, strip_all_space by assumption. reflexivity.
Qed.

Lemma kept_after_break (c : ascii) (r : string) :
  is_linebreak c = true ->
  kept (splitlines_from EmptyString (String c r)) = kept (splitlines_from EmptyString r).
Proof.
  intros Hc. cbn [splitlines_from]. rewrite Hc. rewrite kept_cons. cbn [strip lstrip rstrip nonempty app].
  destruct r as [|a r']; [reflexivity|].
  destruct (Ascii.eqb c CR && Ascii.eqb a LF) eqn:Hpair; [|reflexivity].
  apply andb_true_iff in Hpair as [_ Ha]. apply Ascii.eqb_eq in Ha. subst a.
  cbn [splitlines_from]. change (is_linebreak LF) with true. cbv iota.
  rewrite kept_cons. cbn [strip lstrip rstrip nonempty app].
  destruct r' as [|b r'']; [reflexivity|].
  change (Ascii.eqb LF CR) with false. reflexivity.
Qed.

Lemma kept_lstrip (s : string) :
  kept (splitlines_from EmptyString (lstrip s)) = kept (splitlines_from EmptyString s).
Proof.
  induction s as [|c r IH]; [reflexivity|].
  cbn [lstrip]. destruct (isspace c) eqn:Hsp; [|reflexivity].
  rewrite IH. destruct (is_linebreak c) eqn:Hlb.
  - symmetry. apply kept_after_break. assumption.
  - cbn [splitlines_from]. rewrite Hlb. rewrite app_empty_l.
    rewrite (kept_blank_cur r (String c EmptyString)); [reflexivity|].
    cbn [all_space]. rewrite Hsp. reflexivity.
Qed.

Lemma kept_last_line (cur : string) :
  kept (splitlines_from cur EmptyString)
  = if nonempty (strip cur) then [strip cur] else [].
Proof.
  cbn [splitlines_from]. destruct cur as [|a cur]; [reflexivity|].
  cbn [nonempty]. rewrite kept_cons. apply app_nil_r.
Qed.

Lemma splitlines_from_break (c : ascii) (r cur : string) :
  is_linebreak c = true ->
  kept (splitlines_from cur (String c r))
  = ((if nonempty (strip cur) then [strip cur] else [])
     ++ kept (match r with
              | String a r' =>
                  if Ascii.eqb c CR && Ascii.eqb a LF
                  then splitlines_from EmptyString r'
                  else splitlines_from EmptyString r
              | EmptyString => splitlines_from EmptyString r
              end))%list.
Proof. intros Hc. cbn [splitlines_from]. rewrite Hc. apply kept_cons. Qed.

Lemma kept_rstrip (s : string) :
  forall cur, kept (splitlines_from cur (rstrip s)) = kept (splitlines_from cur s).
Proof.
  induction s as [|c r IH]; intros cur; [reflexivity|].
  cbn [rstrip]. destruct (isspace c && negb (nonempty (rstrip r))) eqn:Hdrop.
  - (* the character is dropped: everything from here on is blank *)
    apply andb_true_iff in Hdrop as [Hsp Hnone].
    destruct (rstrip r) as [|x R] eqn:HR; [clear Hnone | discriminate Hnone].
    assert (Hblank : kept (splitlines_from EmptyString r) = []).
    { rewrite <- (IH EmptyString). reflexivity. }
    rewrite kept_last_line. destruct (is_linebreak c) eqn:Hlb.
    + rewrite splitlines_from_break by assumption.
      destruct r as [|a r']; [rewrite app_nil_r; reflexivity|].
      destruct (Ascii.eqb c CR && Ascii.eqb a LF) eqn:Hpair.
      * apply andb_true_iff in Hpair as [_ Ha]. apply Ascii.eqb_eq in Ha. subst a.
        rewrite kept_after_break in Hblank by reflexivity.
        rewrite Hblank, app_nil_r. reflexivity.
      * rewrite Hblank, app_nil_r. reflexivity.
    + cbn [splitlines_from]. rewrite Hlb.
      rewrite <- (IH (cur +:+ String c EmptyString)), kept_last_line.
      rewrite strip_snoc_space by assumption. reflexivity.
  - (* the character is kept *)
    destruct (is_linebreak c) eqn:Hlb.
    + rewrite !splitlines_from_break by assumption. f_equal.
      rewrite (linebreak_isspace _ Hlb) in Hdrop. cbn [andb] in Hdrop.
      apply negb_false_iff in Hdrop.
      destruct r as [|a r']; [discriminate Hdrop|].
      pose proof (IH EmptyString) as IH0.
      cbn [rstrip] in *.
      destruct (isspace a && negb (nonempty (rstrip r'))); [discriminate Hdrop|].
      destruct (Ascii.eqb c CR && Ascii.eqb a LF) eqn:Hpair; [|exact IH0].
      apply andb_true_iff in Hpair as [_ Ha]. apply Ascii.eqb_eq in Ha. subst a.
      rewrite !kept_after_break in IH0 by reflexivity. exact IH0.
    + cbn [splitlines_from]. rewrite Hlb. apply IH.
Qed.

(** The lines the parser works on are the non-empty trimmed lines of the
    text: stripping the text first changes none of them. *)
Lemma response_lines_trimmed_lines (text : string) :
  response_lines text = trimmed_lines text.
Proof.
  unfold response_lines, trimmed_lines, splitlines, strip.
  change (kept (splitlines_from EmptyString (rstrip (lstrip text)))
          = kept (splitlines_from EmptyString text)).
  rewrite kept_rstrip. apply kept_lstrip.
Qed.

(** ** The two-line protocol parser *)

Lemma ends_with_qmark_has_qmark (ln : string) :
  ends_with_qmark ln = true -> has_qmark ln = true.
Proof.
  unfold has_qmark. induction ln as [|a ln IH]; [discriminate|].
  simpl. destruct ln as [|b ln'].
  - intros ->. reflexivity.
  - intros H. rewrite (IH H). apply orb_true_r.
Qed.

(** The test of the loop is the test for a question mark. *)
Lemma question_like_has_qmark (ln : string) : question_like ln = has_qmark ln.
Proof.
  unfold question_like. destruct (ends_with_qmark ln) eqn:He; [|reflexivity].
  rewrite (ends_with_qmark_has_qmark _ He). reflexivity.
Qed.

(** Searching a list from its end finds the last element that passes. *)
Lemma find_rev_last {A} (p : A -> bool) (l : list A) :
  match List.find p (rev l) with
  | Some x =>
      exists before after,
        l = (before ++ x :: after)%list /\ p x = true /\
        Forall (fun y => p y = false) after
  | None => Forall (fun y => p y = false) l
  end.
Proof.
  induction l as [|a l IH] using rev_ind; [constructor|].
  rewrite rev_app_distr. simpl. destruct (p a) eqn:Ha.
  - exists l, []. repeat split; [assumption | constructor].
  - destruct (List.find p (rev l)) as [x|].
    + destruct IH as (before & after & -> & Hx & Hafter).
      exists before, (after ++ [a])%list. repeat split.
      * rewrite <- List.app_assoc. reflexivity.
      * assumption.
      * apply Forall_app. split; [assumption | repeat constructor; assumption].
    + apply Forall_app. split; [assumption | repeat constructor; assumption].
Qed.

Lemma last_question_spec (rest : list string) (second : string) :
  head rest = Some second ->
  follow_up_of rest (match last_question rest with Some f => f | None => second end).
Proof.
  intros Hhead. unfold last_question, follow_up_of.
  pose proof (find_rev_last question_like rest) as H.
  destruct (List.find question_like (rev rest)) as [f|].
  - left. destruct H as (before & after & -> & Hf & Hafter).
    exists before, after. repeat split.
    + rewrite <- question_like_has_qmark. assumption.
    + eapply Forall_impl; [exact Hafter|]. intros ln Hln.
      rewrite <- question_like_has_qmark. assumption.
  - right. split; [|assumption].
    eapply Forall_impl; [exact H|]. intros ln Hln.
    rewrite <- question_like_has_qmark. assumption.
Qed.

(** C1: the parser is a total function of the text, and its result follows
    the non-empty trimmed lines of the text: none gives two empty strings;
    one gives that line as follow-up and no evaluation; two or more give the
    first line as evaluation and, as follow-up, the last later line with a
    question mark, or the second line when no later line has one.  With three
    lines of which only the middle one has a question mark, the follow-up is
    the middle line. *)
Theorem parse_llm_two_line_response_spec (text : string) :
  match trimmed_lines text with
  | [] => parse_llm_two_line_response text = (EmptyString, EmptyString)
  | [only] => parse_llm_two_line_response text = (EmptyString, only)
  | first :: rest =>
      fst (parse_llm_two_line_response text) = first
      /\ follow_up_of rest (snd (parse_llm_two_line_response text))
  end
  /\ (forall first middle last,
        trimmed_lines text = [first; middle; last] ->
        has_qmark middle = true -> has_qmark last = false ->
        parse_llm_two_line_response text = (first, middle)).
Proof.
  rewrite <- response_lines_trimmed_lines. unfold parse_llm_two_line_response.
  destruct text as [|c text']; [split; [reflexivity | discriminate]|].
  cbn [nonempty negb]. cbv iota.
  destruct (response_lines (String c text')) as [|first [|second rest]] eqn:Hlines.
  - split; [reflexivity | discriminate].
  - split; [reflexivity | discriminate].
  - split.
    + pose proof (last_question_spec (second :: rest) second eq_refl) as H.
      destruct (last_question (second :: rest)); split; try reflexivity; exact H.
    + intros f m l [= -> -> ->] Hm Hl.
      unfold last_question. simpl.
      rewrite !question_like_has_qmark, Hl, Hm. reflexivity.
Qed.

(** The examples of the specification. *)
Example parse_two_lines :
  parse_llm_two_line_response ("Eval line." +:+ NL +:+ "What did you build?")
  = ("Eval line.", "What did you build?").
Proof. reflexivity. Qed.

Example parse_one_line :
  parse_llm_two_line_response "Tell me more?" = (EmptyString, "Tell me more?").
Proof. reflexivity. Qed.

Example parse_middle_question :
  parse_llm_two_line_response
    ("Good answer." +:+ NL +:+ "Which index did you use?" +:+ NL +:+ "Take your time.")
  = ("Good answer.", "Which index did you use?").
Proof. reflexivity. Qed.

Example parse_no_question :
  parse_llm_two_line_response ("One." +:+ NL +:+ "Two." +:+ NL +:+ "Three.")
  = ("One.", "Two.").
Proof. reflexivity. Qed.
(** ** The question budget *)

Lemma scan_digits_uint_acc (d : Decimal.uint) :
  forall (acc : positive) (count : nat),
    scan_digits (NilEmpty.string_of_uint d) false (Z.pos acc) count
    = Some (Z.pos (Pos.of_uint_acc d acc),
            (count + String.length (NilEmpty.string_of_uint d))%nat, EmptyString).
Proof.
  induction d; intros acc count;
    cbn [NilEmpty.string_of_uint scan_digits Pos.of_uint_acc String.length];
    [ rewrite Nat.add_0_r; reflexivity | .. ];
    match goal with
    | |- context [digit_value ?c] =>
        let v := eval vm_compute in (digit_value c) in
        change (digit_value c) with v; cbv iota beta
    end;
    match goal with
    | |- scan_digits _ _ ?a _ = _ =>
        match goal with
        | |- context [Pos.of_uint_acc _ ?b] => replace a with (Z.pos b) by lia
        end
    end;
    rewrite IHd, Nat.add_succ_r; reflexivity.
Qed.

Lemma scan_digits_uint (d : Decimal.uint) :
  forall (count : nat),
    scan_digits (NilEmpty.string_of_uint d) false 0 count
    = Some (Z.of_N (Pos.of_uint d),
            (count + String.length (NilEmpty.string_of_uint d))%nat, EmptyString).
Proof.
  induction d; intros count;
    cbn [NilEmpty.string_of_uint scan_digits Pos.of_uint String.length];
    [ rewrite Nat.add_0_r; reflexivity | .. ];
    match goal with
    | |- context [digit_value ?c] =>
        let v := eval vm_compute in (digit_value c) in
        change (digit_value c) with v; cbv iota beta
    end;
    [ change (10 * 0 + 0) with 0; rewrite IHd, Nat.add_succ_r; reflexivity | .. ];
    match goal with
    | |- scan_digits _ _ ?a _ = _ =>
        let v := eval vm_compute in a in change a with v
    end;
    rewrite scan_digits_uint_acc, Nat.add_succ_r; reflexivity.
Qed.

Lemma digit_is_plain (c : ascii) :
  is_digit c = true ->
  int_space c = false /\ Ascii.eqb c PLUS = false /\ Ascii.eqb c MINUS = false
  /\ Ascii.eqb c UNDERSCORE = false /\ Ascii.eqb c PIPE = false.
Proof.
  destruct c as [[] [] [] [] [] [] [] []]; intros H; try discriminate H;
    repeat split; reflexivity.
Qed.

Lemma string_of_uint_digits (d : Decimal.uint) :
  forall c, has_char c (NilEmpty.string_of_uint d) = true -> is_digit c = true.
Proof.
  induction d; intros c; cbn [NilEmpty.string_of_uint has_char];
    [ discriminate | .. ];
    (intros H; apply orb_true_iff in H as [H | H];
     [ apply Ascii.eqb_eq in H; subst c; reflexivity | apply IHd; assumption ]).
Qed.

Lemma decimal_nilempty (n : N) :
  decimal n = NilEmpty.string_of_uint (N.to_uint n) /\ N.to_uint n <> Decimal.Nil.
Proof.
  unfold decimal. destruct n as [|p]; [split; [reflexivity | discriminate]|].
  pose proof (Unsigned.to_uint_nonnil p) as Hp. simpl.
  destruct (Pos.to_uint p); [contradiction | split; [reflexivity | discriminate] ..].
Qed.

Lemma decimal_head (n : N) :
  exists c r, decimal n = String c r /\ is_digit c = true.
Proof.
  destruct (decimal_nilempty n) as [He Hn].
  pose proof (string_of_uint_digits (N.to_uint n)) as Hd. rewrite <- He in Hd.
  destruct (decimal n) as [|c r] eqn:Hdec.
  - destruct (N.to_uint n); try contradiction; discriminate He.
  - exists c, r. split; [reflexivity|]. apply Hd. simpl.
    rewrite Ascii.eqb_refl. reflexivity.
Qed.

(** [int] reads the decimal numeral of a natural number back, as long as the
    numeral is within the digit limit. *)
Lemma py_int_decimal (n : N) :
  (String.length (decimal n) <= int_max_str_digits)%nat ->
  py_int (decimal n) = Some (Z.of_N n).
Proof.
  intros Hlimit. destruct (decimal_head n) as (c & r & Hdec & Hc).
  destruct (digit_is_plain c Hc) as (Hsp & Hplus & Hminus & Hus & _).
  destruct (decimal_nilempty n) as [He _].
  unfold py_int. rewrite Hdec. cbn [skip_int_space]. rewrite Hsp, Hplus, Hminus.
  change (startswith "_" (String c r)) with (Ascii.eqb UNDERSCORE c && true).
  rewrite Ascii.eqb_sym, Hus. cbn [andb].
  assert (Hpos : String.length (decimal n) <> O) by (rewrite Hdec; discriminate).
  rewrite <- Hdec, He, scan_digits_uint. rewrite <- He.
  change (Pos.of_uint (N.to_uint n)) with (N.of_uint (N.to_uint n)).
  rewrite DecimalN.Unsigned.of_to. cbn [Nat.add].
  apply Nat.eqb_neq in Hpos. rewrite Hpos.
  apply Nat.ltb_ge in Hlimit. rewrite Hlimit. reflexivity.
Qed.

Lemma split_on_no_sep (sep : ascii) (s : string) :
  has_char sep s = false -> split_on sep s = [s].
Proof.
  induction s as [|a s IH]; [reflexivity|]. simpl. intros H.
  apply orb_false_iff in H as [Ha Hs]. rewrite Ha, (IH Hs). reflexivity.
Qed.

Lemma split_on_app_sep (sep : ascii) (name rest : string) :
  has_char sep name = false ->
  split_on sep (name +:+ String sep rest) = name :: split_on sep rest.
Proof.
  induction name as [|a name IH]; intros H.
  - rewrite app_empty_l. simpl. rewrite Ascii.eqb_refl. reflexivity.
  - simpl in H. apply orb_false_iff in H as [Ha Hn].
    rewrite app_cons. simpl. rewrite Ha, (IH Hn). reflexivity.
Qed.

Lemma decimal_no_pipe (n : N) : has_char PIPE (decimal n) = false.
Proof.
  destruct (decimal_nilempty n) as [He _]. rewrite He.
  destruct (has_char PIPE _) eqn:H; [|reflexivity].
  apply string_of_uint_digits in H. discriminate H.
Qed.

Lemma contains_nonempty (sub s : string) :
  contains sub s = true -> nonempty sub = true -> nonempty s = true.
Proof. destruct s; [destruct sub; discriminate | reflexivity]. Qed.

(** C9: the budget of a mode.  A mode that contains [Quick] has 6 questions,
    whatever else it contains; otherwise one that contains [Detailed] has 12;
    otherwise one that contains [Long] has 20.  A mode without a tier name
    whose second field between pipes is an integer literal has that integer:
    in particular [Name|N] for the decimal numeral [N] of a natural number.
    Every other mode, the empty one included, has 12. *)
Theorem compute_max_questions_spec (mode : string) :
  (contains "Quick" mode = true -> compute_max_questions mode = 6)
  /\ (contains "Quick" mode = false -> contains "Detailed" mode = true ->
      compute_max_questions mode = 12)
  /\ (contains "Quick" mode = false -> contains "Detailed" mode = false ->
      contains "Long" mode = true -> compute_max_questions mode = 20)
  /\ (no_tier_name mode ->
      forall name number rest n,
        split_on PIPE mode = name :: number :: rest -> py_int number = Some n ->
        compute_max_questions mode = n)
  /\ (forall name n,
        mode = name +:+ "|" +:+ decimal n -> has_char PIPE name = false ->
        no_tier_name mode ->
        (String.length (decimal n) <= int_max_str_digits)%nat ->
        compute_max_questions mode = Z.of_N n)
  /\ (no_tier_name mode ->
      (forall name number rest,
          split_on PIPE mode = name :: number :: rest -> py_int number = None) ->
      compute_max_questions mode = 12)
  /\ compute_max_questions EmptyString = 12
  /\ compute_max_questions "Quick|10" = 6
  /\ compute_max_questions "Custom|7" = 7.
Proof.
  assert (Hnum : no_tier_name mode ->
      forall name number rest n,
        split_on PIPE mode = name :: number :: rest -> py_int number = Some n ->
        compute_max_questions mode = n).
  { intros (Hq & Hd & Hl) name number rest n Hsplit Hint.
    unfold compute_max_questions. destruct mode; [discriminate Hsplit|].
    cbn [nonempty negb]. cbv iota. rewrite Hq, Hd, Hl, Hsplit, Hint. reflexivity. }
  unfold compute_max_questions. repeat split.
  - intros H. rewrite (contains_nonempty _ _ H eq_refl), H. reflexivity.
  - intros Hq H. rewrite (contains_nonempty _ _ H eq_refl), Hq, H. reflexivity.
  - intros Hq Hd H. rewrite (contains_nonempty _ _ H eq_refl), Hq, Hd, H. reflexivity.
  - exact Hnum.
  - intros name n -> Hname Htier Hlimit.
    apply (Hnum Htier name (decimal n) []).
    + change (name +:+ "|" +:+ decimal n) with (name +:+ String PIPE (decimal n)).
      rewrite split_on_app_sep by assumption.
      rewrite split_on_no_sep by apply decimal_no_pipe. reflexivity.
    + apply py_int_decimal. assumption.
  - intros (Hq & Hd & Hl) Hnone. destruct (nonempty mode); [|reflexivity].
    cbn [negb]. cbv iota. rewrite Hq, Hd, Hl.
    destruct (split_on PIPE mode) as [|name [|number rest]]; try reflexivity.
    rewrite (Hnone name number rest eq_refl). reflexivity.
Qed.

Example compute_max_questions_named_tiers :
  map compute_max_questions ["Quick"; "Detailed"; "Long"; "Detailed|12"; "Long|20"]
  = [6; 12; 20; 12; 20].
Proof. reflexivity. Qed.

(** The tiers are tried in the order Quick, Detailed, Long. *)
Example compute_max_questions_first_tier_wins :
  map compute_max_questions ["Long Quick"; "Long and Detailed"] = [6; 12].
Proof. reflexivity. Qed.

Example compute_max_questions_numeric_suffix :
  map compute_max_questions ["Custom|7"; "Custom| 15 |x"; "Custom|-3"; "Custom|1_0"]
  = [7; 15; -3; 10].
Proof. reflexivity. Qed.

Example compute_max_questions_default :
  map compute_max_questions ["Custom"; "Custom|"; "Custom|seven"; "quick|x"]
  = [12; 12; 12; 12].
Proof. reflexivity. Qed.

(** ** The confidence scorer *)

Lemma flt_fle (a b : float) : flt a b = true -> fle a b = true.
Proof.
  unfold flt, fle, SFltb, SFleb. destruct (SFcompare a b) as [[]|]; congruence.
Qed.

(** Clamping lands in [0, 1] whatever the float, infinities and NaN included. *)
Lemma clamp01_range (x : float) :
  fle f0 (clamp01 x) = true /\ fle (clamp01 x) f1 = true.
Proof.
  unfold clamp01, py_min, py_max. destruct (flt x f1) eqn:Hx1.
  - destruct (flt f0 x) eqn:H0x.
    + split; apply flt_fle; assumption.
    + split; reflexivity.
  - change (flt f0 f1) with true. cbv iota. split; reflexivity.
Qed.

(** The scorer, as the code has it.  An empty answer scores exactly 0.  A
    score that is returned is a value of [0, 1]: the base [(sim + 1) / 2],
    clamped, is multiplied by 0.6 when the answer hesitates and by 0.7 when
    it has fewer than 8 words, by both when both hold, and the product is
    clamped.  A score is returned exactly when the answer is empty or
    nothing outside the [try] raises: the embedding request for the JD
    chunks (none is made for an empty list), [np.array] on its answer, and
    [np.dot]. *)
Lemma compute_confidence_score_spec `{Numpy} (user_text session_id : string)
    (jd_chunks : list string) (calls : embed_calls) :
  let sim_of (mean_jd_emb : option ndarray) :=
    match user_call calls with
    | Some (e :: _) => _cosine_sim (Some (np_array e)) mean_jd_emb
    | _ => Some f0
    end in
  compute_confidence_score EmptyString session_id jd_chunks calls = Some f0
  /\ (forall score,
        compute_confidence_score user_text session_id jd_chunks calls = Some score ->
        fle f0 score = true /\ fle score f1 = true)
  /\ (nonempty user_text = true ->
      forall mean_jd_emb sim,
        _mean_embedding_of_chunks jd_chunks (jd_call calls) = Some mean_jd_emb ->
        sim_of mean_jd_emb = Some sim ->
        let base := clamp01 (fdiv (fadd sim f1) f2) in
        compute_confidence_score user_text session_id jd_chunks calls
        = Some (clamp01
                  match detect_hesitation user_text, len (split user_text) <? 8 with
                  | true, true => fmul (fmul base f0_6) f0_7
                  | true, false => fmul base f0_6
                  | false, true => fmul base f0_7
                  | false, false => base
                  end))
  /\ (nonempty user_text = true ->
      (_mean_embedding_of_chunks jd_chunks (jd_call calls) = None
       \/ exists mean_jd_emb,
            _mean_embedding_of_chunks jd_chunks (jd_call calls) = Some mean_jd_emb
            /\ sim_of mean_jd_emb = None) ->
      compute_confidence_score user_text session_id jd_chunks calls = None)
  /\ (_mean_embedding_of_chunks jd_chunks (jd_call calls) = None
      <-> jd_chunks <> []
          /\ (jd_call calls = None
              \/ exists e es, jd_call calls = Some (e :: es) /\ np_mean (e :: es) = None))
  /\ (forall mean_jd_emb,
        sim_of mean_jd_emb = None
        <-> exists e rest mean,
              user_call calls = Some (e :: rest) /\ mean_jd_emb = Some mean
              /\ feq (fmul (np_norm (np_array e)) (np_norm mean)) f0 = false
              /\ np_dot (np_array e) mean = None).
Proof.
  cbv zeta. split; [reflexivity|]. split_and!.
  - unfold compute_confidence_score. intros score.
    destruct (nonempty user_text); cbn [negb]; cbv iota.
    + destruct (_mean_embedding_of_chunks _ _) as [mean|]; [|discriminate].
      destruct (match user_call calls with Some (e :: _) => Some e | _ => None end);
        [destruct (_cosine_sim _ _); [|discriminate]|];
        intros [= <-]; apply clamp01_range.
    + intros [= <-]. split; reflexivity.
  - intros Hne mean sim Hmean Hsim. unfold compute_confidence_score.
    rewrite Hne, Hmean. cbn [negb]. cbv iota zeta. unfold penalised.
    destruct (user_call calls) as [[|e es]|];
      [injection Hsim as <- | rewrite Hsim | injection Hsim as <-];
      destruct (detect_hesitation user_text), (len (split user_text) <? 8);
      reflexivity.
  - intros Hne Hexit. unfold compute_confidence_score. rewrite Hne. cbn [negb]. cbv iota.
    destruct Hexit as [-> | (mean & -> & Hsim)]; [reflexivity|].
    destruct (user_call calls) as [[|e es]|];
      [discriminate Hsim | rewrite Hsim; reflexivity | discriminate Hsim].
  - unfold _mean_embedding_of_chunks. split.
    + destruct jd_chunks as [|c cs]; [discriminate|]. intros Hnone.
      split; [discriminate|].
      destruct (jd_call calls) as [[|e es]|]; [discriminate | | left; reflexivity].
      right. exists e, es. split; [reflexivity|].
      destruct (np_mean (e :: es)); [discriminate | reflexivity].
    + intros [Hne [-> | (e & es & -> & ->)]];
        destruct jd_chunks; (contradiction || reflexivity).
  - intros mean_jd_emb. unfold _cosine_sim. split.
    + destruct (user_call calls) as [[|e rest]|]; try discriminate.
      destruct mean_jd_emb as [mean|]; [|discriminate].
      destruct (feq _ f0) eqn:Hz; [discriminate|].
      destruct (np_dot (np_array e) mean) eqn:Hdot; [discriminate|].
      intros _. exists e, rest, mean. split_and!; reflexivity || assumption.
    + intros (e & rest & mean & -> & -> & -> & ->). reflexivity.
Qed.

(** C3, the defect at a concrete input: the embedding service is down.
    With no JD chunk to embed, the failed request for the answer is caught,
    as the comment at the [try] says, and a score comes back.  With one JD
    chunk, the request for it is made outside the [try]: it raises, the
    exception leaves the function and no score is returned, whether the
    request for the answer failed too or not; when only the request for the
    answer fails, the score comes back as in the first case. *)
Theorem compute_confidence_score_raises_on_outage :
  @compute_confidence_score numpy_stub "I built the index" "s1" ["Build indexes."]
    (stub_calls None None) = None
  /\ @compute_confidence_score numpy_stub "I built the index" "s1" ["Build indexes."]
       (stub_calls (Some [tt]) None) = None
  /\ @compute_confidence_score numpy_stub "I built the index" "s1" []
       (stub_calls None None) = Some (fmul (fdiv f1 f2) f0_7)
  /\ @compute_confidence_score numpy_stub "I built the index" "s1" ["Build indexes."]
       (stub_calls None (Some [tt])) = Some (fmul (fdiv f1 f2) f0_7).
Proof. split_and!; vm_compute; reflexivity. Qed.

(** The same lack of a guard at [np.dot]: with embeddings of different
    lengths for the answer and for the JD chunks, both requests return and
    the scorer raises. *)
Example compute_confidence_score_raises_on_mismatch :
  @compute_confidence_score numpy_mismatch "I built the index" "s1" ["Build indexes."]
    (@Build_embed_calls numpy_mismatch (Some [tt]) (Some [tt])) = None.
Proof. vm_compute. reflexivity. Qed.

(** With similarity 1: a long plain answer scores 1, hesitation brings it to
    0.6, fewer than 8 words to 0.7, and both to 0.6 * 0.7. *)
Example compute_confidence_score_penalties :
  map (fun t => @compute_confidence_score numpy_stub t "s1" ["Build indexes."]
                  (stub_calls (Some [tt]) (Some [tt])))
      [ "I built the search index and tuned it carefully";
        "well I built the search index and tuned it carefully";
        "I built it";
        "um I built it" ]
  = [ Some f1; Some f0_6; Some f0_7; Some (fmul f0_6 f0_7) ].
Proof. vm_compute. reflexivity. Qed.

(** ** The session state machine *)

Ltac handler_steps :=
  cbv beta iota zeta delta
    [run submit_response_body end_interview_body generate_feedback_for_session
     append_history mbind handler_bind get_ getitem setitem call respond throw
     mret handler_ret].

(** Reads of the session: through the writes made so far, down to what is
    known of the session at the start. *)
Ltac lookups :=
  repeat first
    [ rewrite lookup_insert_eq
    | rewrite lookup_insert_ne by discriminate
    | match goal with
      | H : ?s !! ?k = _ |- context [?s !! ?k] => rewrite H
      end
    | progress cbn [transcript_of default from_option id max_questions_of negb]
    | progress cbv beta iota ].

(** What an endpoint does to the table is what its body does to the session
    it serves. *)
Lemma on_session_lookup (SESSIONS : sessions) (session_id detail : string)
    (body : handler reply) (sid : string) (s : session) :
  SESSIONS !! sid = Some s ->
  (on_session SESSIONS session_id detail body).1 !! sid
  = Some (if decide (session_id = sid) then (run body s).1 else s).
Proof.
  intros Hs. unfold on_session. destruct (SESSIONS !! session_id) as [s0|] eqn:H0.
  - destruct (run body s0) as [s' r] eqn:Hrun. simpl.
    destruct (decide (session_id = sid)) as [->|Hne].
    + rewrite lookup_insert_eq. rewrite Hs in H0. injection H0 as <-.
      rewrite Hrun. reflexivity.
    + rewrite lookup_insert_ne by assumption. assumption.
  - simpl. destruct (decide (session_id = sid)) as [->|Hne]; [congruence | assumption].
Qed.

Lemma on_session_lookup_inv (SESSIONS : sessions) (session_id detail : string)
    (body : handler reply) (sid : string) (s' : session) :
  (on_session SESSIONS session_id detail body).1 !! sid = Some s' ->
  exists s, SESSIONS !! sid = Some s
            /\ s' = (if decide (session_id = sid) then (run body s).1 else s).
Proof.
  unfold on_session. destruct (SESSIONS !! session_id) as [s0|] eqn:H0.
  - destruct (run body s0) as [s1 r] eqn:Hrun. simpl.
    destruct (decide (session_id = sid)) as [->|Hne].
    + rewrite lookup_insert_eq. intros [= <-]. exists s0. rewrite Hrun. auto.
    + rewrite lookup_insert_ne by assumption. eauto.
  - simpl. intros Hs. exists s'. split; [assumption|].
    destruct (decide (session_id = sid)) as [->|Hne]; [congruence | reflexivity].
Qed.

(** A finished session: [submit_response] answers at once. *)
Lemma submit_body_finished `{Numpy} (session_id : string) (env : submit_env)
    (s : session) :
  s !! "status" = Some (PStr "finished") ->
  run (submit_response_body session_id env) s
  = (s, JSONResponse
          [ ("feedback_ready", JBool true);
            ("feedback",
              to_json (default (PStr "Feedback is being generated.") (s !! "feedback"))) ]).
Proof.
  intros Hst. handler_steps. rewrite Hst.
  rewrite decide_True by reflexivity. reflexivity.
Qed.

(** A session in progress: one run of the body of [submit_response], step by
    step. *)
Lemma submit_body_run `{Numpy} (session_id : string) (env : submit_env)
    (s : session) (h : list turn) (n : Z) (m : string) :
  s !! "status" <> Some (PStr "finished") ->
  s !! "history" = Some (PTurns h) ->
  s !! "questions_asked" = Some (PInt n) ->
  s !! "mode" = Some (PStr m) ->
  is_Some (s !! "role") -> is_Some (s !! "level") -> is_Some (s !! "focus") ->
  run (submit_response_body session_id env) s
  = match asr env with
    | None => (s, Unhandled "Exception")
    | Some transcription =>
        let user_text := strip transcription in
        if nonempty user_text then
          let answered := (h ++ [ {| speaker := "User"; text := user_text |} ])%list in
          match rag env with
          | None => (<["history" := PTurns answered]> s, Unhandled "Exception")
          | Some jd_chunks =>
              let v := assess session_id user_text jd_chunks env in
              let n' := if offtopic v then n else n + 1 in
              let s' :=
                <["current_question" := of_opt (followup_question v)]>
                (<["questions_asked" := PInt n']>
                (<["history" :=
                     PTurns (answered
                             ++ [ {| speaker := "Interviewer"; text := full_response v |} ])%list]>
                (<["history" := PTurns answered]> s))) in
              if compute_max_questions m <=? n' then
                let fb :=
                  match call_openai_llm (feedback_llm env) with
                  | Some fb => fb
                  | None => "Feedback generation failed. Try again later."
                  end in
                (<["feedback" := PStr fb]> (<["status" := PStr "finished"]> s'),
                 JSONResponse (final_payload user_text v n' fb))
              else (s', JSONResponse (turn_payload user_text v n'))
          end
        else
          (s, JSONResponse
                (repeat_payload (s !! "current_question") (s !! "questions_asked")))
    end.
Proof.
  intros Hst Hh Hn Hm [r Hr] [l Hl] [f Hf]. handler_steps.
  rewrite decide_False by assumption.
  destruct (asr env) as [transcription|]; [|reflexivity].
  destruct (nonempty (strip transcription)); cbn [negb]; cbv iota; [|reflexivity].
  lookups. destruct (rag env) as [jd_chunks|]; [|reflexivity]. lookups.
  destruct (offtopic (assess session_id (strip transcription) jd_chunks env));
    lookups.
  - rewrite (insert_id _ "questions_asked" (PInt n)) by (lookups; reflexivity).
    destruct (compute_max_questions m <=? n); lookups; reflexivity.
  - destruct (compute_max_questions m <=? n + 1); lookups; reflexivity.
Qed.

(** One run of the body of [end_interview], on a session whose history can
    be read. *)
Lemma end_body_run (session_id : string) (answer : option string) (s : session)
    (h : list turn) :
  s !! "history" = Some (PTurns h) ->
  run (end_interview_body session_id answer) s
  = if bool_decide (s !! "status" = Some (PStr "finished")) && truthy (s !! "feedback")
    then (s, JSONResponse [ ("status", JStr "finished");
                            ("message", JStr "Feedback already generated.");
                            ("session_id", JStr session_id) ])
    else
      let fb :=
        match call_openai_llm answer with
        | Some fb => fb
        | None => "Feedback generation failed. Try again later."
        end in
      (<["feedback" := PStr fb]> (<["status" := PStr "finished"]> s),
       JSONResponse [ ("status", JStr "finished");
                      ("message", JStr "Feedback generated.");
                      ("session_id", JStr session_id);
                      ("feedback", JStr fb) ]).
Proof.
  intros Hh. handler_steps.
  destruct (bool_decide (s !! "status" = Some (PStr "finished")) && truthy (s !! "feedback"));
    lookups; reflexivity.
Qed.

Lemma get_feedback_body_id (s : session) :
  (run (fb ← get_ "feedback";
        if truthy fb
        then respond [ ("feedback", to_json (default PNone fb)) ]
        else respond [ ("feedback", JStr "Generating... Please check back.") ]) s).1 = s.
Proof. handler_steps. destruct (truthy (s !! "feedback")); reflexivity. Qed.

(** *** Well-formed sessions stay well formed *)

Lemma submit_body_well_formed `{Numpy} (session_id : string) (env : submit_env)
    (s : session) :
  well_formed s -> well_formed (run (submit_response_body session_id env) s).1.
Proof.
  intros Hwf. pose proof Hwf as (h & n & m & Hh & Hn & Hm & Hr & Hl & Hf & Hst).
  destruct Hst as [[Hst Hbudget] | [Hst _]].
  - rewrite (submit_body_run session_id env s h n m); try assumption;
      [|congruence].
    destruct (asr env) as [t|]; [|exact Hwf]. cbv zeta.
    destruct (nonempty (strip t)); [|exact Hwf].
    destruct (rag env) as [jd_chunks|]; cbn [fst].
    + set (v := assess session_id (strip t) jd_chunks env).
      destruct (compute_max_questions m <=? (if offtopic v then n else n + 1)) eqn:Hmax;
        cbn [fst]; unfold well_formed; eexists _, _, m; lookups;
        (split_and!; [reflexivity | reflexivity | reflexivity | eauto ..]).
      all: try solve [right; lookups; eauto].
      all: left; lookups; split; [reflexivity|]; apply Z.leb_gt in Hmax; right;
        assumption.
    + unfold well_formed; eexists _, n, m; lookups.
      split_and!; [reflexivity | reflexivity | reflexivity | eauto ..].
  - rewrite submit_body_finished by assumption. exact Hwf.
Qed.

Lemma end_body_well_formed (session_id : string) (answer : option string) (s : session) :
  well_formed s -> well_formed (run (end_interview_body session_id answer) s).1.
Proof.
  intros Hwf. pose proof Hwf as (h & n & m & Hh & Hn & Hm & Hr & Hl & Hf & Hst).
  rewrite (end_body_run session_id answer s h Hh).
  destruct (bool_decide _ && truthy _); [exact Hwf|]. cbn [fst].
  unfold well_formed; eexists h, n, m; lookups.
  split_and!; [eauto ..|]. right. lookups. eauto.
Qed.

Lemma start_session_lookup (SESSIONS : sessions) (role level focus mode jd_text : string)
    (env : start_env) (sid : string) (s : session) :
  (start_session SESSIONS role level focus mode jd_text env).1 !! sid = Some s ->
  (sid <> uuid env /\ SESSIONS !! sid = Some s) \/ (sid = uuid env /\ well_formed s).
Proof.
  unfold start_session.
  destruct (decide (sid = uuid env)) as [->|Hne].
  - intros Hs. right. split; [reflexivity|].
    destruct (start_rag env) as [jd_chunks|];
      [destruct (call_openai_llm (start_llm env)) as [q|]|];
      cbn [fst] in Hs; rewrite lookup_insert_eq in Hs; injection Hs as <-;
      unfold well_formed; eexists _, _, mode; lookups;
      (split_and!; [reflexivity | reflexivity | reflexivity | eauto ..]);
      left; lookups; (split; [reflexivity | left; lia]).
  - intros Hs. left. split; [assumption|].
    destruct (start_rag env) as [jd_chunks|];
      [destruct (call_openai_llm (start_llm env)) as [q|]|];
      cbn [fst] in Hs; rewrite lookup_insert_ne in Hs by congruence; assumption.
Qed.

(** Every session of a reachable table is well formed. *)
Lemma reachable_well_formed `{Numpy} (SESSIONS : sessions) :
  reachable SESSIONS ->
  forall sid s, SESSIONS !! sid = Some s -> well_formed s.
Proof.
  induction 1 as [|SESSIONS r Hreach IH Hfresh]; intros sid s Hs.
  - rewrite lookup_empty in Hs. discriminate.
  - destruct r as [role level focus mode jd env | session_id env | session_id answer
                  | session_id]; cbn [step] in Hs.
    + apply start_session_lookup in Hs as [[_ Hs] | [_ Hs]]; eauto.
    + unfold submit_response in Hs.
      apply on_session_lookup_inv in Hs as (s0 & Hs0 & ->).
      case_decide; eauto using submit_body_well_formed.
    + unfold end_interview in Hs.
      apply on_session_lookup_inv in Hs as (s0 & Hs0 & ->).
      case_decide; eauto using end_body_well_formed.
    + unfold get_feedback in Hs.
      apply on_session_lookup_inv in Hs as (s0 & Hs0 & ->).
      rewrite get_feedback_body_id. case_decide; eauto.
Qed.

(** *** The counter never goes down and [finished] is never left *)

Lemma submit_body_monotone `{Numpy} (session_id : string) (env : submit_env)
    (s : session) (n : Z) :
  well_formed s -> questions_asked s = Some n ->
  (exists n', questions_asked (run (submit_response_body session_id env) s).1 = Some n'
              /\ n <= n' <= n + 1)
  /\ (status s = Some "finished" ->
      (run (submit_response_body session_id env) s).1 = s).
Proof.
  intros (h & n0 & m & Hh & Hn & Hm & Hr & Hl & Hf & Hst) Hq.
  assert (n0 = n) as -> by (unfold questions_asked in Hq; rewrite Hn in Hq; congruence).
  destruct Hst as [[Hst Hbudget] | [Hst _]].
  - split; [|unfold status; rewrite Hst; discriminate].
    rewrite (submit_body_run session_id env s h n m); try assumption; [|congruence].
    destruct (asr env) as [t|]; [|exists n; split; [assumption | lia]]. cbv zeta.
    destruct (nonempty (strip t)); [|exists n; split; [assumption | lia]].
    destruct (rag env) as [jd_chunks|]; cbn [fst].
    + set (v := assess session_id (strip t) jd_chunks env).
      exists (if offtopic v then n else n + 1).
      split; [|destruct (offtopic v); lia].
      destruct (compute_max_questions m <=? _); cbn [fst]; unfold questions_asked;
        lookups; reflexivity.
    + exists n. split; [|lia]. unfold questions_asked. lookups. reflexivity.
  - rewrite submit_body_finished by assumption. split; [|reflexivity].
    exists n. split; [assumption | lia].
Qed.

Lemma end_body_monotone (session_id : string) (answer : option string) (s : session) :
  well_formed s ->
  questions_asked (run (end_interview_body session_id answer) s).1 = questions_asked s
  /\ status (run (end_interview_body session_id answer) s).1 = Some "finished".
Proof.
  intros (h & n & m & Hh & Hn & Hm & Hr & Hl & Hf & Hst).
  rewrite (end_body_run session_id answer s h Hh).
  destruct (bool_decide (s !! "status" = Some (PStr "finished"))) eqn:Hfin;
    cbn [andb].
  - apply bool_decide_eq_true in Hfin.
    destruct (truthy (s !! "feedback")); cbn [fst]; unfold questions_asked, status;
      lookups; split; reflexivity.
  - cbn [fst]. unfold questions_asked, status. lookups. split; reflexivity.
Qed.

(** One request: a session that is stored stays stored, its counter does
    not decrease, and it stays finished once it is. *)
Lemma step_monotone `{Numpy} (SESSIONS : sessions) (r : request) (sid : string)
    (s : session) (n : Z) :
  fresh SESSIONS r -> SESSIONS !! sid = Some s -> well_formed s ->
  questions_asked s = Some n ->
  exists s' n', (step SESSIONS r).1 !! sid = Some s'
    /\ questions_asked s' = Some n' /\ n <= n'
    /\ (status s = Some "finished" -> status s' = Some "finished").
Proof.
  intros Hfresh Hs Hwf Hq.
  destruct r as [role level focus mode jd env | session_id env | session_id answer
                | session_id]; cbn [step fresh] in *.
  - exists s, n. split; [|split; [assumption | split; [lia | auto]]].
    assert (Hne : uuid env <> sid) by congruence.
    unfold start_session.
    destruct (start_rag env) as [jd_chunks|];
      [destruct (call_openai_llm (start_llm env)) as [q|]|];
      cbn [fst]; rewrite lookup_insert_ne by assumption; assumption.
  - unfold submit_response. rewrite (on_session_lookup _ _ _ _ _ _ Hs).
    case_decide.
    + destruct (submit_body_monotone session_id env s n Hwf Hq) as [(n' & Hq' & Hle) Hfin].
      eexists _, n'. split; [reflexivity|]. split; [assumption|]. split; [lia|].
      intros Hst. rewrite (Hfin Hst). assumption.
    + exists s, n. split; [reflexivity|]. split; [assumption|]. split; [lia | auto].
  - unfold end_interview. rewrite (on_session_lookup _ _ _ _ _ _ Hs).
    case_decide.
    + destruct (end_body_monotone session_id answer s Hwf) as [Hq' Hst'].
      eexists _, n. split; [reflexivity|]. rewrite Hq'.
      split; [assumption|]. split; [lia | auto].
    + exists s, n. split; [reflexivity|]. split; [assumption|]. split; [lia | auto].
  - unfold get_feedback. rewrite (on_session_lookup _ _ _ _ _ _ Hs).
    rewrite get_feedback_body_id.
    exists s, n. split; [case_decide; reflexivity|]. split; [assumption|].
    split; [lia | auto].
Qed.

Lemma well_formed_typed (s : session) :
  well_formed s ->
  (exists n, questions_asked s = Some n)
  /\ (status s = Some "in_progress" \/ status s = Some "finished").
Proof.
  intros (h & n & m & Hh & Hn & Hm & _ & _ & _ & Hst).
  unfold questions_asked, status. rewrite Hn. split; [eauto|].
  destruct Hst as [[-> _] | [-> _]]; auto.
Qed.

(** C5: from a reachable table and along every sequence of requests (the
    identifiers drawn by [start_session] being fresh), a stored session stays
    stored, its counter of questions is an integer that never decreases, its
    status is [in_progress] or [finished], and once [finished] it stays
    [finished]. *)
Theorem counter_monotone_status_terminal `{Numpy} (rs : list request) :
  forall (SESSIONS : sessions) (sid : string) (s : session),
    reachable SESSIONS -> fresh_along SESSIONS rs -> SESSIONS !! sid = Some s ->
    exists s' n n',
      execute SESSIONS rs !! sid = Some s'
      /\ questions_asked s = Some n /\ questions_asked s' = Some n' /\ n <= n'
      /\ (status s = Some "in_progress" \/ status s = Some "finished")
      /\ (status s' = Some "in_progress" \/ status s' = Some "finished")
      /\ (status s = Some "finished" -> status s' = Some "finished").
Proof.
  induction rs as [|r rs IH]; intros SESSIONS sid s Hreach Hfresh Hs;
    pose proof (reachable_well_formed _ Hreach _ _ Hs) as Hwf;
    destruct (well_formed_typed _ Hwf) as [[n Hq] Hst].
  - exists s, n, n. cbn [execute]. split_and!; auto with lia.
  - destruct Hfresh as [Hr Hrs].
    destruct (step_monotone SESSIONS r sid s n Hr Hs Hwf Hq)
      as (s1 & n1 & Hs1 & Hq1 & Hle1 & Hfin1).
    destruct (IH _ sid s1 (reachable_step _ _ Hreach Hr) Hrs Hs1)
      as (s2 & n1' & n2 & Hs2 & Hq1' & Hq2 & Hle2 & _ & Hst2 & Hfin2).
    assert (n1' = n1) as -> by congruence.
    exists s2, n, n2. cbn [execute]. split_and!; auto with lia.
Qed.

Lemma on_session_same (SESSIONS : sessions) (session_id detail : string)
    (body : handler reply) (s : session) (r : reply) :
  SESSIONS !! session_id = Some s -> run body s = (s, r) ->
  on_session SESSIONS session_id detail body = (SESSIONS, r).
Proof.
  intros Hs Hrun. unfold on_session. rewrite Hs, Hrun.
  rewrite insert_id by assumption. reflexivity.
Qed.

Lemma on_session_run (SESSIONS : sessions) (session_id detail : string)
    (body : handler reply) (s : session) :
  SESSIONS !! session_id = Some s ->
  on_session SESSIONS session_id detail body
  = (<[session_id := (run body s).1]> SESSIONS, (run body s).2).
Proof.
  intros Hs. unfold on_session. rewrite Hs. destruct (run body s). reflexivity.
Qed.

(** *** A finished session *)

(** C10: on a session whose status is [finished], [submit_response] changes
    nothing in the table and answers [feedback_ready = true] with the value
    stored under [feedback], or with the placeholder when the session has no
    such key.  The answer is the same whatever the services would have said:
    none of them is consulted.  In a reachable table the stored value is the
    feedback text. *)
Theorem submit_response_on_finished `{Numpy} (SESSIONS : sessions)
    (session_id : string) (s : session) (env : submit_env) :
  SESSIONS !! session_id = Some s ->
  s !! "status" = Some (PStr "finished") ->
  submit_response SESSIONS session_id env
  = (SESSIONS,
     JSONResponse
       [ ("feedback_ready", JBool true);
         ("feedback",
           match s !! "feedback" with
           | Some stored => to_json stored
           | None => JStr "Feedback is being generated."
           end) ])
  /\ (reachable SESSIONS ->
      exists fb, s !! "feedback" = Some (PStr fb)
        /\ submit_response SESSIONS session_id env
           = (SESSIONS,
              JSONResponse [ ("feedback_ready", JBool true); ("feedback", JStr fb) ])).
Proof.
  intros Hs Hst.
  assert (Heq : submit_response SESSIONS session_id env
                = (SESSIONS,
                   JSONResponse
                     [ ("feedback_ready", JBool true);
                       ("feedback",
                         match s !! "feedback" with
                         | Some stored => to_json stored
                         | None => JStr "Feedback is being generated."
                         end) ])).
  { unfold submit_response.
    rewrite (on_session_same _ _ _ _ s _ Hs (submit_body_finished session_id env s Hst)).
    destruct (s !! "feedback"); reflexivity. }
  split; [exact Heq|]. intros Hreach.
  destruct (reachable_well_formed _ Hreach _ _ Hs)
    as (h & n & m & _ & _ & _ & _ & _ & _ & [[Hst' _] | [_ [fb Hfb]]]);
    [congruence|].
  exists fb. split; [assumption|]. rewrite Heq, Hfb. reflexivity.
Qed.

(** C6, as the code has it.  On a session that is finished and holds a
    feedback text that is not empty, [end_interview] changes nothing, makes
    no call to the completion service (its answer plays no part), and replies
    with the status, a message and the session id: the feedback is not in
    the reply; it stays stored, and [get_feedback] serves it.  The call of
    [end_interview] that generates the feedback has it in its reply, and a
    second call after it is that no-op. *)
Theorem end_interview_on_finished `{Numpy} (SESSIONS : sessions) (session_id : string)
    (s : session) (fb : string) (answer : option string) :
  SESSIONS !! session_id = Some s ->
  s !! "status" = Some (PStr "finished") ->
  s !! "feedback" = Some (PStr fb) -> nonempty fb = true ->
  end_interview SESSIONS session_id answer
  = (SESSIONS,
     JSONResponse [ ("status", JStr "finished");
                    ("message", JStr "Feedback already generated.");
                    ("session_id", JStr session_id) ])
  /\ reply_field "feedback" (end_interview SESSIONS session_id answer).2 = None
  /\ get_feedback SESSIONS session_id
     = (SESSIONS, JSONResponse [ ("feedback", JStr fb) ])
  /\ (forall (before : sessions) (s0 : session) (first_answer : option string),
        reachable before -> before !! session_id = Some s0 ->
        s0 !! "status" = Some (PStr "in_progress") ->
        exists text,
          let after := (end_interview before session_id first_answer).1 in
          reply_field "feedback" (end_interview before session_id first_answer).2
          = Some (JStr text)
          /\ (after !! session_id ≫= (.!! "feedback")) = Some (PStr text)
          /\ (after !! session_id ≫= (.!! "status")) = Some (PStr "finished")
          /\ (nonempty text = true ->
              end_interview after session_id answer
              = (after,
                 JSONResponse [ ("status", JStr "finished");
                                ("message", JStr "Feedback already generated.");
                                ("session_id", JStr session_id) ]))).
Proof.
  intros Hs Hst Hfb Hne.
  assert (Hnoop : forall (T : sessions) (t : session) (txt : string),
             T !! session_id = Some t ->
             (exists h, t !! "history" = Some (PTurns h)) ->
             t !! "status" = Some (PStr "finished") ->
             t !! "feedback" = Some (PStr txt) -> nonempty txt = true ->
             end_interview T session_id answer
             = (T, JSONResponse [ ("status", JStr "finished");
                                  ("message", JStr "Feedback already generated.");
                                  ("session_id", JStr session_id) ])).
  { intros T t txt Ht [h Hh] Htst Htfb Htne. unfold end_interview.
    apply (on_session_same _ _ _ _ t); [assumption|].
    rewrite (end_body_run _ _ _ h Hh), Htst, Htfb.
    rewrite bool_decide_eq_true_2 by reflexivity. cbn [truthy andb].
    rewrite Htne. reflexivity. }
  assert (Hfirst : end_interview SESSIONS session_id answer
                   = (SESSIONS,
                      JSONResponse [ ("status", JStr "finished");
                                     ("message", JStr "Feedback already generated.");
                                     ("session_id", JStr session_id) ])).
  { unfold end_interview. apply (on_session_same _ _ _ _ s); [assumption|].
    handler_steps. rewrite Hst, Hfb.
    rewrite bool_decide_eq_true_2 by reflexivity. cbn [truthy andb].
    rewrite Hne. reflexivity. }
  split_and!.
  - exact Hfirst.
  - rewrite Hfirst. reflexivity.
  - unfold get_feedback. apply (on_session_same _ _ _ _ s); [assumption|].
    handler_steps. rewrite Hfb. cbn [truthy]. rewrite Hne. reflexivity.
  - intros before s0 first_answer Hreach Hs0 Hst0.
    destruct (reachable_well_formed _ Hreach _ _ Hs0)
      as (h & n & m & Hh & _).
    unfold end_interview at 1 2 3.
    rewrite (on_session_run _ _ _ _ s0 Hs0), (end_body_run _ _ _ h Hh), Hst0.
    rewrite bool_decide_eq_false_2 by discriminate. cbn [andb fst snd]. cbv zeta.
    eexists. split_and!.
    + reflexivity.
    + rewrite lookup_insert_eq. cbn [mbind option_bind]. lookups. reflexivity.
    + rewrite lookup_insert_eq. cbn [mbind option_bind]. lookups. reflexivity.
    + intros Htext. eapply Hnoop.
      * apply lookup_insert_eq.
      * exists h. lookups. reflexivity.
      * lookups. reflexivity.
      * lookups. reflexivity.
      * assumption.
Qed.

(** *** Off-topic answers *)

Lemma turn_payload_fields (user_text : string) (v : verdict) (n : Z) :
  field "offtopic" (turn_payload user_text v n) = Some (JBool (offtopic v))
  /\ field "feedback_ready" (turn_payload user_text v n) = Some (JBool false)
  /\ field "current_q_count" (turn_payload user_text v n) = Some (JInt n).
Proof. split_and!; reflexivity. Qed.

Lemma final_payload_fields (user_text : string) (v : verdict) (n : Z) (fb : string) :
  field "offtopic" (final_payload user_text v n fb) = Some (JBool (offtopic v))
  /\ field "feedback_ready" (final_payload user_text v n fb) = Some (JBool true)
  /\ field "feedback" (final_payload user_text v n fb) = Some (JStr fb).
Proof. split_and!; reflexivity. Qed.

Lemma repeat_payload_offtopic (cq qa : option pyval) :
  field "offtopic" (repeat_payload cq qa) = Some (JBool false).
Proof. reflexivity. Qed.

(** C4, as the code has it.  In a reachable table, a turn that the reply
    flags as off topic leaves the counter as it was, and the interview was in
    progress.  The test against the budget still runs after such a turn: the
    session stays in progress when the counter is below the budget, which is
    the case whenever the budget of the mode is at least 2, and it becomes
    finished when the counter has already reached the budget, which only a
    budget of at most 1 allows. *)
Theorem offtopic_turn_keeps_counter `{Numpy} (SESSIONS : sessions) (session_id : string)
    (s : session) (env : submit_env) :
  reachable SESSIONS -> SESSIONS !! session_id = Some s ->
  reply_field "offtopic" (submit_response SESSIONS session_id env).2 = Some (JBool true) ->
  exists s' n m,
    (submit_response SESSIONS session_id env).1 !! session_id = Some s'
    /\ s !! "mode" = Some (PStr m)
    /\ status s = Some "in_progress"
    /\ questions_asked s = Some n /\ questions_asked s' = Some n
    /\ (2 <= compute_max_questions m -> n < compute_max_questions m)
    /\ (n < compute_max_questions m ->
        status s' = Some "in_progress"
        /\ reply_field "feedback_ready" (submit_response SESSIONS session_id env).2
           = Some (JBool false))
    /\ (compute_max_questions m <= n -> n <= 1 /\ status s' = Some "finished").
Proof.
  intros Hreach Hs Hoff.
  destruct (reachable_well_formed _ Hreach _ _ Hs)
    as (h & n & m & Hh & Hn & Hm & Hr & Hl & Hf & Hst).
  unfold submit_response in *. rewrite (on_session_run _ _ _ _ s Hs) in *.
  cbn [fst snd] in *. rewrite lookup_insert_eq.
  destruct Hst as [[Hst Hbudget] | [Hst _]].
  - rewrite (submit_body_run session_id env s h n m) in *; try assumption; try congruence.
    destruct (asr env) as [t|]; [|discriminate Hoff]. cbv zeta in *.
    destruct (nonempty (strip t)); [|discriminate Hoff].
    destruct (rag env) as [jd_chunks|]; [|discriminate Hoff].
    set (v := assess session_id (strip t) jd_chunks env) in *.
    assert (Hv : offtopic v = true).
    { destruct (compute_max_questions m <=? _); cbn [snd reply_field] in Hoff.
      - rewrite (proj1 (final_payload_fields _ _ _ _)) in Hoff. congruence.
      - rewrite (proj1 (turn_payload_fields _ _ _)) in Hoff. congruence. }
    rewrite Hv in *.
    eexists _, n, m. split; [reflexivity|].
    split; [assumption|]. split; [unfold status; rewrite Hst; reflexivity|].
    split; [unfold questions_asked; rewrite Hn; reflexivity|].
    destruct (compute_max_questions m <=? n) eqn:Hmax; cbn [fst snd reply_field].
    + apply Z.leb_le in Hmax. unfold questions_asked, status. lookups.
      split_and!; [reflexivity | lia | lia | intros _; split; [lia | reflexivity]].
    + apply Z.leb_gt in Hmax. unfold questions_asked, status. lookups.
      split_and!; [reflexivity | lia | intros _; split; reflexivity | lia].
  - rewrite submit_body_finished in Hoff by assumption. discriminate Hoff.
Qed.

(** *** Concrete runs *)

Lemma stored_lookup (SESSIONS : sessions) (session_id : string) :
  is_stored SESSIONS session_id = true ->
  SESSIONS !! session_id = Some (stored SESSIONS session_id).
Proof.
  unfold is_stored, stored. destruct (SESSIONS !! session_id); [reflexivity | discriminate].
Qed.

Lemma demo_table_reachable (mode : string) : @reachable numpy_stub (demo_table mode).
Proof.
  exact (@reachable_step numpy_stub ∅
           (@StartSession numpy_stub "Engineer" "Senior" "Backend" mode EmptyString
              demo_start_env)
           (@reachable_init numpy_stub) eq_refl).
Qed.

Lemma demo_finished_table_reachable : @reachable numpy_stub demo_finished_table.
Proof.
  exact (@reachable_step numpy_stub (demo_table "Quick")
           (@EndInterview numpy_stub "s1" (Some "Overall Score: 6/10"))
           (demo_table_reachable "Quick") I).
Qed.

(** C4, the claim as stated fails: with the mode [Custom|1] the budget is 1,
    the session starts in progress with one question asked, and the first
    answer, flagged off topic, finishes the interview. *)
Lemma offtopic_turn_finishes_budget_one :
  compute_max_questions "Custom|1" = 1
  /\ status (stored (demo_table "Custom|1") "s1") = Some "in_progress"
  /\ questions_asked (stored (demo_table "Custom|1") "s1") = Some 1
  /\ reply_field "offtopic"
       (@submit_response numpy_stub (demo_table "Custom|1") "s1" offtopic_env).2
     = Some (JBool true)
  /\ reply_field "feedback_ready"
       (@submit_response numpy_stub (demo_table "Custom|1") "s1" offtopic_env).2
     = Some (JBool true)
  /\ status (stored (@submit_response numpy_stub (demo_table "Custom|1") "s1"
                       offtopic_env).1 "s1")
     = Some "finished"
  /\ questions_asked (stored (@submit_response numpy_stub (demo_table "Custom|1") "s1"
                                offtopic_env).1 "s1")
     = Some 1.
Proof. split_and!; vm_compute; reflexivity. Qed.

Lemma offtopic_turn_witness :
  (@reachable numpy_stub (demo_table "Quick")
   /\ demo_table "Quick" !! "s1" = Some (stored (demo_table "Quick") "s1")
   /\ reply_field "offtopic"
        (@submit_response numpy_stub (demo_table "Quick") "s1" offtopic_env).2
      = Some (JBool true))
  /\ exists s' n m,
       (@submit_response numpy_stub (demo_table "Quick") "s1" offtopic_env).1 !! "s1"
       = Some s'
       /\ stored (demo_table "Quick") "s1" !! "mode" = Some (PStr m)
       /\ status (stored (demo_table "Quick") "s1") = Some "in_progress"
       /\ questions_asked (stored (demo_table "Quick") "s1") = Some n
       /\ questions_asked s' = Some n
       /\ (2 <= compute_max_questions m -> n < compute_max_questions m)
       /\ (n < compute_max_questions m ->
           status s' = Some "in_progress"
           /\ reply_field "feedback_ready"
                (@submit_response numpy_stub (demo_table "Quick") "s1" offtopic_env).2
              = Some (JBool false))
       /\ (compute_max_questions m <= n -> n <= 1 /\ status s' = Some "finished").
Proof.
  assert (Hs : demo_table "Quick" !! "s1" = Some (stored (demo_table "Quick") "s1"))
    by (apply stored_lookup; vm_compute; reflexivity).
  assert (Hoff : reply_field "offtopic"
                   (@submit_response numpy_stub (demo_table "Quick") "s1" offtopic_env).2
                 = Some (JBool true))
    by (vm_compute; reflexivity).
  split; [split_and!; [apply demo_table_reachable | exact Hs | exact Hoff]|].
  exact (@offtopic_turn_keeps_counter numpy_stub _ _ _ _
           (demo_table_reachable "Quick") Hs Hoff).
Defined.

Lemma counter_monotone_witness :
  (@reachable numpy_stub (demo_table "Quick")
   /\ fresh_along (demo_table "Quick") demo_requests
   /\ demo_table "Quick" !! "s1" = Some (stored (demo_table "Quick") "s1"))
  /\ exists s' n n',
       execute (demo_table "Quick") demo_requests !! "s1" = Some s'
       /\ questions_asked (stored (demo_table "Quick") "s1") = Some n
       /\ questions_asked s' = Some n' /\ n <= n'
       /\ (status (stored (demo_table "Quick") "s1") = Some "in_progress"
           \/ status (stored (demo_table "Quick") "s1") = Some "finished")
       /\ (status s' = Some "in_progress" \/ status s' = Some "finished")
       /\ (status (stored (demo_table "Quick") "s1") = Some "finished" ->
           status s' = Some "finished").
Proof.
  assert (Hs : demo_table "Quick" !! "s1" = Some (stored (demo_table "Quick") "s1"))
    by (apply stored_lookup; vm_compute; reflexivity).
  assert (Hfresh : fresh_along (demo_table "Quick") demo_requests)
    by (cbn [fresh_along demo_requests fresh]; split_and!; try exact I;
        vm_compute; reflexivity).
  split; [split_and!; [apply demo_table_reachable | exact Hfresh | exact Hs]|].
  exact (@counter_monotone_status_terminal numpy_stub demo_requests _ _ _
           (demo_table_reachable "Quick") Hfresh Hs).
Defined.

Example demo_requests_run :
  questions_asked (stored (demo_table "Quick") "s1") = Some 1
  /\ questions_asked (stored (execute (demo_table "Quick") demo_requests) "s1") = Some 2
  /\ status (stored (execute (demo_table "Quick") demo_requests) "s1") = Some "finished"
  /\ questions_asked (stored (execute (demo_table "Quick") demo_requests) "s2") = Some 1.
Proof. split_and!; vm_compute; reflexivity. Qed.

Lemma submit_response_on_finished_witness :
  (demo_finished_table !! "s1" = Some (stored demo_finished_table "s1")
   /\ stored demo_finished_table "s1" !! "status" = Some (PStr "finished"))
  /\ @submit_response numpy_stub demo_finished_table "s1" ontopic_env
     = (demo_finished_table,
        JSONResponse [ ("feedback_ready", JBool true);
                       ("feedback", JStr "Overall Score: 6/10") ]).
Proof.
  assert (Hs : demo_finished_table !! "s1" = Some (stored demo_finished_table "s1"))
    by (apply stored_lookup; vm_compute; reflexivity).
  assert (Hst : stored demo_finished_table "s1" !! "status" = Some (PStr "finished"))
    by (vm_compute; reflexivity).
  assert (Hfb : stored demo_finished_table "s1" !! "feedback"
                = Some (PStr "Overall Score: 6/10"))
    by (vm_compute; reflexivity).
  split; [split; [exact Hs | exact Hst]|].
  rewrite (proj1 (@submit_response_on_finished numpy_stub _ _ _ ontopic_env Hs Hst)).
  rewrite Hfb. reflexivity.
Defined.

(** C6, the claim as stated fails: the session is finished and holds its
    feedback, and the reply of [end_interview] has no [feedback] field. *)
Lemma end_interview_again_omits_feedback :
  status (stored demo_finished_table "s1") = Some "finished"
  /\ stored demo_finished_table "s1" !! "feedback" = Some (PStr "Overall Score: 6/10")
  /\ (end_interview demo_finished_table "s1" (Some "Overall Score: 9/10")).2
     = JSONResponse [ ("status", JStr "finished");
                      ("message", JStr "Feedback already generated.");
                      ("session_id", JStr "s1") ]
  /\ reply_field "feedback"
       (end_interview demo_finished_table "s1" (Some "Overall Score: 9/10")).2
     = None.
Proof. split_and!; vm_compute; reflexivity. Qed.

Lemma end_interview_on_finished_witness :
  (demo_finished_table !! "s1" = Some (stored demo_finished_table "s1")
   /\ stored demo_finished_table "s1" !! "status" = Some (PStr "finished")
   /\ stored demo_finished_table "s1" !! "feedback" = Some (PStr "Overall Score: 6/10")
   /\ nonempty "Overall Score: 6/10" = true)
  /\ end_interview demo_finished_table "s1" (Some "Overall Score: 9/10")
     = (demo_finished_table,
        JSONResponse [ ("status", JStr "finished");
                       ("message", JStr "Feedback already generated.");
                       ("session_id", JStr "s1") ])
  /\ get_feedback demo_finished_table "s1"
     = (demo_finished_table, JSONResponse [ ("feedback", JStr "Overall Score: 6/10") ]).
Proof.
  assert (Hs : demo_finished_table !! "s1" = Some (stored demo_finished_table "s1"))
    by (apply stored_lookup; vm_compute; reflexivity).
  assert (Hst : stored demo_finished_table "s1" !! "status" = Some (PStr "finished"))
    by (vm_compute; reflexivity).
  assert (Hfb : stored demo_finished_table "s1" !! "feedback"
                = Some (PStr "Overall Score: 6/10"))
    by (vm_compute; reflexivity).
  split; [split_and!; [exact Hs | exact Hst | exact Hfb | reflexivity]|].
  pose proof (@end_interview_on_finished numpy_stub _ _ _ _ (Some "Overall Score: 9/10")
                Hs Hst Hfb eq_refl) as (Hend & _ & Hget & _).
  split; [exact Hend | exact Hget].
Defined.

(** * Further properties of the code *)

(** ** The endpoints, request by request *)

(** Invariants of the stored sessions: what holds of a session when it is
    created and is kept by the bodies of [submit_response] and
    [end_interview] holds of every session of every reachable table. *)
Lemma reachable_sessions_ind `{Numpy} (P : session -> Prop) :
  (forall SESSIONS role level focus mode jd_text env s,
      (start_session SESSIONS role level focus mode jd_text env).1 !! uuid env = Some s ->
      P s) ->
  (forall session_id env s,
      well_formed s -> P s -> P (run (submit_response_body session_id env) s).1) ->
  (forall session_id answer s,
      well_formed s -> P s -> P (run (end_interview_body session_id answer) s).1) ->
  forall SESSIONS, reachable SESSIONS ->
  forall sid s, SESSIONS !! sid = Some s -> P s.
Proof.
  intros Hstart Hsubmit Hend SESSIONS Hreach.
  induction Hreach as [|SESSIONS r Hreach IH Hfresh]; intros sid s Hs.
  - rewrite lookup_empty in Hs. discriminate.
  - pose proof (reachable_well_formed _ Hreach) as Hwf.
    destruct r as [role level focus mode jd env | session_id env | session_id answer
                  | session_id]; cbn [step] in Hs.
    + destruct (decide (sid = uuid env)) as [->|Hne]; [eauto|].
      apply start_session_lookup in Hs as [[_ Hs] | [Heq _]]; [eauto | contradiction].
    + unfold submit_response in Hs.
      apply on_session_lookup_inv in Hs as (s0 & Hs0 & ->). case_decide; eauto.
    + unfold end_interview in Hs.
      apply on_session_lookup_inv in Hs as (s0 & Hs0 & ->). case_decide; eauto.
    + unfold get_feedback in Hs.
      apply on_session_lookup_inv in Hs as (s0 & Hs0 & ->).
      rewrite get_feedback_body_id. case_decide; eauto.
Qed.

(** The session [start_session] stores, by the answers of the services. *)
Lemma start_session_stored (SESSIONS : sessions) (role level focus mode jd_text : string)
    (env : start_env) (s : session) :
  (start_session SESSIONS role level focus mode jd_text env).1 !! uuid env = Some s ->
  s !! "mode" = Some (PStr mode) /\ s !! "status" = Some (PStr "in_progress")
  /\ s !! "feedback" = Some PNone
  /\ ((s !! "questions_asked" = Some (PInt 0) /\ s !! "history" = Some (PTurns [])
       /\ s !! "current_question" = None
       /\ (start_rag env = None \/ call_openai_llm (start_llm env) = None))
      \/ (exists q, call_openai_llm (start_llm env) = Some q
            /\ start_rag env <> None
            /\ s !! "questions_asked" = Some (PInt 1)
            /\ s !! "history" = Some (PTurns [ {| speaker := "Interviewer"; text := q |} ])
            /\ s !! "current_question" = Some (PStr q))).
Proof.
  unfold start_session.
  destruct (start_rag env) as [jd_chunks|];
    [destruct (call_openai_llm (start_llm env)) as [q|]|];
    cbn [fst]; rewrite lookup_insert_eq; intros [= <-]; lookups;
    (split_and!; [reflexivity | reflexivity | reflexivity |]).
  - right. exists q. lookups. split_and!; (reflexivity || discriminate).
  - left. lookups. split_and!; auto.
  - left. lookups. split_and!; auto.
Qed.

(** X1: an identifier that names no session is a not-found reply from the
    three endpoints that take one, and the table is left as it is. *)
Theorem unknown_session_is_not_found `{Numpy} (SESSIONS : sessions) (session_id : string)
    (env : submit_env) (answer : option string) :
  SESSIONS !! session_id = None ->
  submit_response SESSIONS session_id env
  = (SESSIONS, HTTPException 404 "Session not found.")
  /\ end_interview SESSIONS session_id answer
     = (SESSIONS, HTTPException 404 "Interview session not found.")
  /\ get_feedback SESSIONS session_id = (SESSIONS, HTTPException 404 "Not found.").
Proof.
  intros Hnone. unfold submit_response, end_interview, get_feedback, on_session.
  rewrite Hnone. split_and!; reflexivity.
Qed.

(** X2: a request changes at most the session it is about: every other
    stored session is found again, unchanged. *)
Theorem other_sessions_untouched `{Numpy} (SESSIONS : sessions) (r : request)
    (sid : string) (s : session) :
  SESSIONS !! sid = Some s -> target r <> sid ->
  (step SESSIONS r).1 !! sid = Some s.
Proof.
  intros Hs Hne.
  destruct r as [role level focus mode jd env | session_id env | session_id answer
                | session_id]; cbn [step target] in *.
  - unfold start_session.
    destruct (start_rag env) as [jd_chunks|];
      [destruct (call_openai_llm (start_llm env)) as [q|]|];
      cbn [fst]; rewrite lookup_insert_ne by assumption; assumption.
  - unfold submit_response. rewrite (on_session_lookup _ _ _ _ _ _ Hs).
    rewrite decide_False by assumption. reflexivity.
  - unfold end_interview. rewrite (on_session_lookup _ _ _ _ _ _ Hs).
    rewrite decide_False by assumption. reflexivity.
  - unfold get_feedback. rewrite (on_session_lookup _ _ _ _ _ _ Hs).
    rewrite decide_False by assumption. reflexivity.
Qed.

(** X3: when nothing but whitespace was transcribed, a session that is not
    finished is left exactly as it is, counter and history included, and the
    reply asks for the answer again. *)
Theorem blank_answer_changes_nothing `{Numpy} (SESSIONS : sessions) (session_id : string)
    (s : session) (env : submit_env) (transcription : string) :
  SESSIONS !! session_id = Some s ->
  s !! "status" <> Some (PStr "finished") ->
  asr env = Some transcription -> all_space transcription = true ->
  submit_response SESSIONS session_id env
  = (SESSIONS,
     JSONResponse (repeat_payload (s !! "current_question") (s !! "questions_asked")))
  /\ field "followup_question"
       (repeat_payload (s !! "current_question") (s !! "questions_asked"))
     = Some (JStr "I didn't catch that — could you please repeat your answer?")
  /\ field "feedback_ready"
       (repeat_payload (s !! "current_question") (s !! "questions_asked"))
     = Some (JBool false).
Proof.
  intros Hs Hst Hasr Hblank. split_and!; [|reflexivity|reflexivity].
  unfold submit_response. apply (on_session_same _ _ _ _ s); [assumption|].
  handler_steps. rewrite decide_False by assumption. rewrite Hasr.
  assert (Hstrip : strip transcription = EmptyString).
  { rewrite <- (app_empty_r transcription).
    rewrite strip_all_space by assumption. reflexivity. }
  rewrite Hstrip. reflexivity.
Qed.

(** X4: an answer that is heard, retrieved for and judged on topic advances
    the interview by exactly one question and adds exactly two turns to the
    history, the answer and the whole reply of the model; the interview is
    finished exactly when the new count reaches the budget of the mode, and
    then the feedback sent in the reply is the feedback stored. *)
Theorem ontopic_answer_advances `{Numpy} (SESSIONS : sessions) (session_id : string)
    (s : session) (env : submit_env) (transcription : string) (jd_chunks : list string) :
  reachable SESSIONS -> SESSIONS !! session_id = Some s ->
  status s = Some "in_progress" ->
  asr env = Some transcription -> nonempty (strip transcription) = true ->
  rag env = Some jd_chunks ->
  offtopic (assess session_id (strip transcription) jd_chunks env) = false ->
  exists s' h n m,
    (submit_response SESSIONS session_id env).1 !! session_id = Some s'
    /\ history s = Some h /\ questions_asked s = Some n /\ s !! "mode" = Some (PStr m)
    /\ questions_asked s' = Some (n + 1)
    /\ history s'
       = Some (h ++ [ {| speaker := "User"; text := strip transcription |};
                      {| speaker := "Interviewer";
                         text := full_response
                                   (assess session_id (strip transcription) jd_chunks env) |} ])%list
    /\ s' !! "current_question"
       = Some (of_opt (followup_question
                         (assess session_id (strip transcription) jd_chunks env)))
    /\ (compute_max_questions m <= n + 1 ->
        status s' = Some "finished"
        /\ s' !! "feedback" = Some (PStr (feedback_text_of (feedback_llm env)))
        /\ reply_field "feedback_ready" (submit_response SESSIONS session_id env).2
           = Some (JBool true)
        /\ reply_field "feedback" (submit_response SESSIONS session_id env).2
           = Some (JStr (feedback_text_of (feedback_llm env))))
    /\ (n + 1 < compute_max_questions m ->
        status s' = Some "in_progress"
        /\ s' !! "feedback" = s !! "feedback"
        /\ reply_field "feedback_ready" (submit_response SESSIONS session_id env).2
           = Some (JBool false)
        /\ reply_field "current_q_count" (submit_response SESSIONS session_id env).2
           = Some (JInt (n + 1))).
Proof.
  intros Hreach Hs Hst Hasr Hne Hrag Hon.
  destruct (reachable_well_formed _ Hreach _ _ Hs)
    as (h & n & m & Hh & Hn & Hm & Hr & Hl & Hf & _).
  assert (Hst' : s !! "status" = Some (PStr "in_progress")).
  { unfold status in Hst. destruct (s !! "status") as [[]|]; congruence. }
  unfold submit_response. rewrite (on_session_run _ _ _ _ s Hs).
  rewrite (submit_body_run session_id env s h n m); try assumption; [|congruence].
  rewrite Hasr. cbv zeta. rewrite Hne, Hrag, Hon. cbn [fst snd].
  rewrite lookup_insert_eq.
  eexists _, h, n, m. split; [reflexivity|].
  split; [unfold history; rewrite Hh; reflexivity|].
  split; [unfold questions_asked; rewrite Hn; reflexivity|].
  split; [assumption|].
  destruct (compute_max_questions m <=? n + 1) eqn:Hmax; cbn [fst snd reply_field];
    unfold questions_asked, history, status, feedback_text_of; lookups;
    rewrite <- app_assoc; cbn [app].
  - apply Z.leb_le in Hmax.
    split_and!; [reflexivity | reflexivity | reflexivity | | intros; lia].
    intros _. split_and!; reflexivity.
  - apply Z.leb_gt in Hmax.
    split_and!; [reflexivity | reflexivity | reflexivity | intros; lia |].
    intros _. split_and!; reflexivity.
Qed.

(** X5: when the retrieval raises, the answer is already in the history: the
    request ends in an error with the user's turn appended and no turn of the
    interviewer after it, the counter and the status as they were. *)
Theorem retrieval_failure_keeps_the_answer `{Numpy} (SESSIONS : sessions)
    (session_id : string) (s : session) (env : submit_env) (transcription : string) :
  reachable SESSIONS -> SESSIONS !! session_id = Some s ->
  status s = Some "in_progress" ->
  asr env = Some transcription -> nonempty (strip transcription) = true ->
  rag env = None ->
  exists s' h,
    submit_response SESSIONS session_id env
    = (<[session_id := s']> SESSIONS, Unhandled "Exception")
    /\ history s = Some h
    /\ history s' = Some (h ++ [ {| speaker := "User"; text := strip transcription |} ])%list
    /\ questions_asked s' = questions_asked s
    /\ status s' = Some "in_progress".
Proof.
  intros Hreach Hs Hst Hasr Hne Hrag.
  destruct (reachable_well_formed _ Hreach _ _ Hs)
    as (h & n & m & Hh & Hn & Hm & Hr & Hl & Hf & _).
  assert (Hst' : s !! "status" = Some (PStr "in_progress")).
  { unfold status in Hst. destruct (s !! "status") as [[]|]; congruence. }
  unfold submit_response. rewrite (on_session_run _ _ _ _ s Hs).
  rewrite (submit_body_run session_id env s h n m); try assumption; [|congruence].
  rewrite Hasr. cbv zeta. rewrite Hne, Hrag. cbn [fst snd].
  eexists _, h. split; [reflexivity|].
  unfold history, questions_asked, status. lookups. split_and!; reflexivity.
Qed.

(** *** Concrete runs of the requests above *)

Lemma unknown_session_witness :
  demo_table "Quick" !! "s2" = None
  /\ @submit_response numpy_stub (demo_table "Quick") "s2" ontopic_env
     = (demo_table "Quick", HTTPException 404 "Session not found.")
  /\ end_interview (demo_table "Quick") "s2" (Some "Overall Score: 6/10")
     = (demo_table "Quick", HTTPException 404 "Interview session not found.")
  /\ get_feedback (demo_table "Quick") "s2"
     = (demo_table "Quick", HTTPException 404 "Not found.").
Proof.
  assert (Hnone : demo_table "Quick" !! "s2" = None) by (vm_compute; reflexivity).
  split; [exact Hnone|].
  exact (@unknown_session_is_not_found numpy_stub _ _ ontopic_env
           (Some "Overall Score: 6/10") Hnone).
Defined.

Lemma other_sessions_witness :
  (demo_table "Quick" !! "s1" = Some (stored (demo_table "Quick") "s1")
   /\ @target numpy_stub (@SubmitResponse numpy_stub "s2" ontopic_env) <> "s1")
  /\ (@step numpy_stub (demo_table "Quick")
        (@SubmitResponse numpy_stub "s2" ontopic_env)).1 !! "s1"
     = Some (stored (demo_table "Quick") "s1").
Proof.
  assert (Hs : demo_table "Quick" !! "s1" = Some (stored (demo_table "Quick") "s1"))
    by (apply stored_lookup; vm_compute; reflexivity).
  assert (Hne : @target numpy_stub (@SubmitResponse numpy_stub "s2" ontopic_env) <> "s1")
    by (cbn [target]; discriminate).
  split; [split; [exact Hs | exact Hne]|].
  exact (@other_sessions_untouched numpy_stub _ _ _ _ Hs Hne).
Defined.

Lemma blank_answer_witness :
  (demo_table "Quick" !! "s1" = Some (stored (demo_table "Quick") "s1")
   /\ stored (demo_table "Quick") "s1" !! "status" <> Some (PStr "finished")
   /\ asr blank_env = Some "   " /\ all_space "   " = true)
  /\ @submit_response numpy_stub (demo_table "Quick") "s1" blank_env
     = (demo_table "Quick",
        JSONResponse (repeat_payload (Some (PStr "Tell me about your last project?"))
                        (Some (PInt 1)))).
Proof.
  assert (Hs : demo_table "Quick" !! "s1" = Some (stored (demo_table "Quick") "s1"))
    by (apply stored_lookup; vm_compute; reflexivity).
  assert (Hst : stored (demo_table "Quick") "s1" !! "status" <> Some (PStr "finished"))
    by (vm_compute; discriminate).
  assert (Hcq : stored (demo_table "Quick") "s1" !! "current_question"
                = Some (PStr "Tell me about your last project?"))
    by (vm_compute; reflexivity).
  assert (Hqa : stored (demo_table "Quick") "s1" !! "questions_asked" = Some (PInt 1))
    by (vm_compute; reflexivity).
  split; [split_and!; [exact Hs | exact Hst | reflexivity | reflexivity]|].
  rewrite (proj1 (@blank_answer_changes_nothing numpy_stub _ _ _ blank_env "   "
                    Hs Hst eq_refl eq_refl)).
  rewrite Hcq, Hqa. reflexivity.
Defined.

Lemma ontopic_answer_witness :
  (@reachable numpy_stub (demo_table "Quick")
   /\ demo_table "Quick" !! "s1" = Some (stored (demo_table "Quick") "s1")
   /\ status (stored (demo_table "Quick") "s1") = Some "in_progress"
   /\ asr ontopic_env = Some "I built the billing service"
   /\ nonempty (strip "I built the billing service") = true
   /\ rag ontopic_env = Some []
   /\ offtopic (assess "s1" (strip "I built the billing service") [] ontopic_env) = false)
  /\ exists s',
       (@submit_response numpy_stub (demo_table "Quick") "s1" ontopic_env).1 !! "s1"
       = Some s'
       /\ questions_asked (stored (demo_table "Quick") "s1") = Some 1
       /\ questions_asked s' = Some 2
       /\ status s' = Some "in_progress"
       /\ s' !! "current_question" = Some (PStr "How did you test it?").
Proof.
  assert (Hs : demo_table "Quick" !! "s1" = Some (stored (demo_table "Quick") "s1"))
    by (apply stored_lookup; vm_compute; reflexivity).
  assert (Hst : status (stored (demo_table "Quick") "s1") = Some "in_progress")
    by (vm_compute; reflexivity).
  assert (Hon : offtopic (assess "s1" (strip "I built the billing service") []
                            ontopic_env) = false)
    by (vm_compute; reflexivity).
  assert (Hfq : followup_question (assess "s1" (strip "I built the billing service") []
                                     ontopic_env) = Some "How did you test it?")
    by (vm_compute; reflexivity).
  assert (Hn : questions_asked (stored (demo_table "Quick") "s1") = Some 1)
    by (vm_compute; reflexivity).
  assert (Hm : stored (demo_table "Quick") "s1" !! "mode" = Some (PStr "Quick"))
    by (vm_compute; reflexivity).
  split; [split_and!; [apply demo_table_reachable | exact Hs | exact Hst | reflexivity
                      | reflexivity | reflexivity | exact Hon]|].
  destruct (@ontopic_answer_advances numpy_stub _ _ _ ontopic_env _ []
              (demo_table_reachable "Quick") Hs Hst eq_refl eq_refl eq_refl Hon)
    as (s' & h & n & m & Hs' & _ & Hn' & Hm' & Hqa & _ & Hcq & _ & Hprog).
  rewrite Hn in Hn'. injection Hn' as <-.
  rewrite Hm in Hm'. injection Hm' as <-.
  exists s'. rewrite Hfq in Hcq.
  split_and!; [exact Hs' | reflexivity | exact Hqa | | exact Hcq].
  apply Hprog. reflexivity.
Defined.

Lemma retrieval_failure_witness :
  (@reachable numpy_stub (demo_table "Quick")
   /\ demo_table "Quick" !! "s1" = Some (stored (demo_table "Quick") "s1")
   /\ status (stored (demo_table "Quick") "s1") = Some "in_progress"
   /\ asr rag_down_env = Some " I built the billing service "
   /\ nonempty (strip " I built the billing service ") = true
   /\ rag rag_down_env = None)
  /\ exists s',
       @submit_response numpy_stub (demo_table "Quick") "s1" rag_down_env
       = (<["s1" := s']> (demo_table "Quick"), Unhandled "Exception")
       /\ history s'
          = Some [ {| speaker := "Interviewer"; text := "Tell me about your last project?" |};
                   {| speaker := "User"; text := "I built the billing service" |} ]
       /\ questions_asked s' = Some 1
       /\ status s' = Some "in_progress".
Proof.
  assert (Hs : demo_table "Quick" !! "s1" = Some (stored (demo_table "Quick") "s1"))
    by (apply stored_lookup; vm_compute; reflexivity).
  assert (Hst : status (stored (demo_table "Quick") "s1") = Some "in_progress")
    by (vm_compute; reflexivity).
  assert (Hh : history (stored (demo_table "Quick") "s1")
               = Some [ {| speaker := "Interviewer";
                           text := "Tell me about your last project?" |} ])
    by (vm_compute; reflexivity).
  assert (Hn : questions_asked (stored (demo_table "Quick") "s1") = Some 1)
    by (vm_compute; reflexivity).
  split; [split_and!; [apply demo_table_reachable | exact Hs | exact Hst | reflexivity
                      | reflexivity | reflexivity]|].
  destruct (@retrieval_failure_keeps_the_answer numpy_stub _ _ _ rag_down_env _
              (demo_table_reachable "Quick") Hs Hst eq_refl eq_refl eq_refl)
    as (s' & h & Hsub & Hh0 & Hh' & Hqa & Hst').
  rewrite Hh in Hh0. injection Hh0 as <-. rewrite Hn in Hqa.
  exists s'. split_and!; [exact Hsub | exact Hh' | exact Hqa | exact Hst'].
Defined.

(** ** The sessions along the runs of the server *)

Lemma well_formed_fields (s : session) :
  well_formed s ->
  exists h n m,
    s !! "history" = Some (PTurns h) /\ s !! "questions_asked" = Some (PInt n)
    /\ s !! "mode" = Some (PStr m)
    /\ is_Some (s !! "role") /\ is_Some (s !! "level") /\ is_Some (s !! "focus")
    /\ (s !! "status" = Some (PStr "finished")
        \/ (s !! "status" = Some (PStr "in_progress")
            /\ s !! "status" <> Some (PStr "finished")
            /\ (n <= 1 \/ n < compute_max_questions m))).
Proof.
  intros (h & n & m & Hh & Hn & Hm & Hr & Hl & Hf & Hst).
  exists h, n, m. split_and!; try assumption.
  destruct Hst as [[Hst Hb] | [Hst _]]; [right | left; assumption].
  split_and!; [assumption | rewrite Hst; discriminate | assumption].
Qed.

(** The body of [submit_response] only appends to the history and leaves the
    settings alone. *)
Lemma submit_body_history `{Numpy} (session_id : string) (env : submit_env)
    (s : session) (h : list turn) :
  well_formed s -> history s = Some h ->
  exists added,
    history (run (submit_response_body session_id env) s).1 = Some (h ++ added)%list
    /\ forall k, In k settings ->
         (run (submit_response_body session_id env) s).1 !! k = s !! k.
Proof.
  intros Hwf Hhist.
  destruct (well_formed_fields s Hwf)
    as (h0 & n & m & Hh & Hn & Hm & Hr & Hl & Hf & Hst).
  assert (h0 = h) as -> by (unfold history in Hhist; rewrite Hh in Hhist; congruence).
  destruct Hst as [Hfin | (Hprog & Hnf & _)].
  - rewrite submit_body_finished by assumption. exists []. cbn [fst].
    rewrite app_nil_r. split; [assumption | reflexivity].
  - rewrite (submit_body_run session_id env s h n m) by assumption.
    destruct (asr env) as [transcription|]; cbv zeta;
      [destruct (nonempty (strip transcription));
       [destruct (rag env) as [jd_chunks|];
        [destruct (compute_max_questions m <=? _)|]|]|];
      cbn [fst].
    1-3: eexists; split;
      [unfold history; lookups; try rewrite <- app_assoc; reflexivity
      |intros k Hk; cbn [In settings] in Hk;
       repeat (destruct Hk as [<- | Hk]; [lookups; reflexivity|]); destruct Hk].
    all: exists []; rewrite app_nil_r; split; [assumption | reflexivity].
Qed.

Lemma end_body_history (session_id : string) (answer : option string) (s : session) :
  well_formed s ->
  history (run (end_interview_body session_id answer) s).1 = history s
  /\ forall k, In k settings ->
       (run (end_interview_body session_id answer) s).1 !! k = s !! k.
Proof.
  intros Hwf.
  destruct (well_formed_fields s Hwf) as (h & n & m & Hh & _).
  rewrite (end_body_run session_id answer s h) by assumption.
  destruct (bool_decide _ && truthy _); cbv zeta; cbn [fst].
  - split; reflexivity.
  - split; [unfold history; lookups; reflexivity|].
    intros k Hk; cbn [In settings] in Hk;
      repeat (destruct Hk as [<- | Hk]; [lookups; reflexivity|]); destruct Hk.
Qed.

Lemma step_history `{Numpy} (SESSIONS : sessions) (r : request) (sid : string)
    (s : session) (h : list turn) :
  fresh SESSIONS r -> SESSIONS !! sid = Some s -> well_formed s -> history s = Some h ->
  exists s' added,
    (step SESSIONS r).1 !! sid = Some s'
    /\ history s' = Some (h ++ added)%list
    /\ forall k, In k settings -> s' !! k = s !! k.
Proof.
  intros Hfresh Hs Hwf Hh.
  assert (Hsame : exists added : list turn,
             history s = Some (h ++ added)%list
             /\ forall k, In k settings -> s !! k = s !! k).
  { exists []. rewrite app_nil_r. split; [assumption | reflexivity]. }
  destruct r as [role level focus mode jd env | session_id env | session_id answer
                | session_id]; cbn [step fresh] in *.
  - exists s. destruct Hsame as (added & Hadd & Hk). exists added.
    split; [|split; assumption].
    assert (Hne : uuid env <> sid) by (intros Heq; rewrite Heq in Hfresh; congruence).
    unfold start_session.
    destruct (start_rag env) as [jd_chunks|];
      [destruct (call_openai_llm (start_llm env)) as [q|]|];
      cbn [fst]; rewrite lookup_insert_ne by assumption; assumption.
  - unfold submit_response. rewrite (on_session_lookup _ _ _ _ _ _ Hs).
    case_decide.
    + destruct (submit_body_history session_id env s h Hwf Hh) as (added & Hadd & Hk).
      eauto.
    + destruct Hsame as (added & Hadd & Hk). eauto.
  - unfold end_interview. rewrite (on_session_lookup _ _ _ _ _ _ Hs).
    case_decide.
    + destruct (end_body_history session_id answer s Hwf) as (Hadd & Hk).
      eexists _, []. rewrite app_nil_r. split_and!; [reflexivity | congruence | exact Hk].
    + destruct Hsame as (added & Hadd & Hk). eauto.
  - unfold get_feedback. rewrite (on_session_lookup _ _ _ _ _ _ Hs).
    rewrite get_feedback_body_id.
    destruct Hsame as (added & Hadd & Hk). exists s, added.
    split_and!; [case_decide; reflexivity | assumption | assumption].
Qed.

(** X6: whatever requests follow, the history of a session is only ever
    appended to (no turn is dropped, changed or reordered), and the settings
    the session was started with (identifier, role, level, focus, mode and
    job description) never change. *)
Theorem history_is_append_only `{Numpy} (rs : list request) :
  forall (SESSIONS : sessions) (sid : string) (s : session),
    reachable SESSIONS -> fresh_along SESSIONS rs -> SESSIONS !! sid = Some s ->
    exists s' h added,
      execute SESSIONS rs !! sid = Some s'
      /\ history s = Some h /\ history s' = Some (h ++ added)%list
      /\ forall k, In k settings -> s' !! k = s !! k.
Proof.
  induction rs as [|r rs IH]; intros SESSIONS sid s Hreach Hfresh Hs.
  - destruct (well_formed_fields s (reachable_well_formed _ Hreach _ _ Hs))
      as (h & _ & _ & Hh & _).
    exists s, h, []. rewrite app_nil_r. unfold history. rewrite Hh.
    split_and!; reflexivity || assumption.
  - destruct Hfresh as [Hfr Hrest]. cbn [execute].
    pose proof (reachable_well_formed _ Hreach _ _ Hs) as Hwf.
    destruct (well_formed_fields s Hwf) as (h & _ & _ & Hh & _).
    assert (Hhist : history s = Some h) by (unfold history; rewrite Hh; reflexivity).
    destruct (step_history SESSIONS r sid s h Hfr Hs Hwf Hhist)
      as (s1 & added1 & Hs1 & Hh1 & Hk1).
    destruct (IH _ sid s1 (reachable_step _ _ Hreach Hfr) Hrest Hs1)
      as (s' & h1 & added & Hs' & Hh1' & Hh' & Hk).
    rewrite Hh1 in Hh1'. injection Hh1' as <-.
    exists s', h, (added1 ++ added)%list.
    rewrite app_assoc. split_and!; try assumption.
    intros k Hin. rewrite (Hk k Hin). apply Hk1, Hin.
Qed.

Lemma interviewer_turns_app (h1 h2 : list turn) :
  interviewer_turns (h1 ++ h2) = interviewer_turns h1 + interviewer_turns h2.
Proof.
  unfold interviewer_turns. rewrite List.filter_app, length_app. lia.
Qed.

(** X7: in every session the server can hold, the counter of questions is
    between 0 and the number of interviewer turns recorded in the history, and
    never above the budget of the mode, or 2 when the budget is smaller. *)
Theorem questions_asked_is_bounded `{Numpy} (SESSIONS : sessions) (sid : string)
    (s : session) :
  reachable SESSIONS -> SESSIONS !! sid = Some s ->
  exists h n m,
    history s = Some h /\ questions_asked s = Some n /\ s !! "mode" = Some (PStr m)
    /\ 0 <= n <= interviewer_turns h
    /\ n <= Z.max 2 (compute_max_questions m).
Proof.
  intros Hreach Hs. revert SESSIONS Hreach sid s Hs.
  apply reachable_sessions_ind.
  - intros SESSIONS role level focus mode jd env s Hs.
    destruct (start_session_stored _ _ _ _ _ _ _ _ Hs)
      as (Hm & _ & _ & [(Hn & Hh & _) | (q & _ & _ & Hn & Hh & _)]);
      eexists _, _, mode; unfold history, questions_asked; rewrite Hh, Hn;
      (split_and!; first [reflexivity | assumption | cbn; lia]).
  - intros session_id env s Hwf (h & n & m & Hh & Hn & Hm & Hb & Hmax).
    destruct (well_formed_fields s Hwf)
      as (h0 & n0 & m0 & Hh0 & Hn0 & Hm0 & Hr & Hl & Hf & Hst).
    assert (h0 = h) as -> by (unfold history in Hh; rewrite Hh0 in Hh; congruence).
    assert (n0 = n) as ->
      by (unfold questions_asked in Hn; rewrite Hn0 in Hn; congruence).
    assert (m0 = m) as -> by congruence.
    destruct Hst as [Hfin | (Hprog & Hnf & Hbud)].
    + rewrite submit_body_finished by assumption. cbn [fst]. eauto 10.
    + rewrite (submit_body_run session_id env s h n m) by assumption.
      destruct (asr env) as [transcription|]; cbv zeta;
        [destruct (nonempty (strip transcription));
         [destruct (rag env) as [jd_chunks|];
          [destruct (compute_max_questions m <=? _)|]|]|];
        cbn [fst].
      1-3: eexists _, _, m; unfold history, questions_asked; lookups;
        (split_and!; try reflexivity);
        repeat rewrite interviewer_turns_app;
        try (destruct (offtopic _));
        try change (interviewer_turns [ {| speaker := "User"; text := ?u |} ]) with 0;
        try change (interviewer_turns [ {| speaker := "Interviewer"; text := ?i |} ])
          with 1;
        lia.
      all: eauto 10.
  - intros session_id answer s Hwf (h & n & m & Hh & Hn & Hm & Hb & Hmax).
    destruct (end_body_history session_id answer s Hwf) as (Hh' & Hk).
    destruct (end_body_monotone session_id answer s Hwf) as (Hn' & _).
    exists h, n, m. rewrite Hh', Hn', (Hk "mode") by (cbn; tauto).
    split_and!; first [assumption | lia].
Qed.

(** While an interview is in progress no feedback is stored. *)
Lemma in_progress_no_feedback `{Numpy} (SESSIONS : sessions) :
  reachable SESSIONS ->
  forall sid s, SESSIONS !! sid = Some s ->
    s !! "status" = Some (PStr "in_progress") -> s !! "feedback" = Some PNone.
Proof.
  apply (reachable_sessions_ind
           (fun s => s !! "status" = Some (PStr "in_progress") ->
                     s !! "feedback" = Some PNone)).
  - intros SESSIONS' role level focus mode jd env s Hs _.
    apply (start_session_stored _ _ _ _ _ _ _ _ Hs).
  - intros session_id env s Hwf IH.
    destruct (well_formed_fields s Hwf)
      as (h & n & m & Hh & Hn & Hm & Hr & Hl & Hf & Hst).
    destruct Hst as [Hfin | (Hprog & Hnf & Hbud)].
    + rewrite submit_body_finished by assumption. exact IH.
    + rewrite (submit_body_run session_id env s h n m) by assumption.
      destruct (asr env) as [transcription|]; cbv zeta;
        [destruct (nonempty (strip transcription));
         [destruct (rag env) as [jd_chunks|];
          [destruct (compute_max_questions m <=? _)|]|]|];
        cbn [fst]; lookups; auto; discriminate.
  - intros session_id answer s Hwf _ Hprog.
    destruct (end_body_monotone session_id answer s Hwf) as (_ & Hfin).
    unfold status in Hfin. rewrite Hprog in Hfin. discriminate.
Qed.

(** X8: asking for the feedback of an interview in progress changes nothing
    and is answered by the placeholder, never by an error or an empty text. *)
Theorem get_feedback_in_progress `{Numpy} (SESSIONS : sessions) (session_id : string)
    (s : session) :
  reachable SESSIONS -> SESSIONS !! session_id = Some s ->
  status s = Some "in_progress" ->
  get_feedback SESSIONS session_id
  = (SESSIONS, JSONResponse [ ("feedback", JStr "Generating... Please check back.") ]).
Proof.
  intros Hreach Hs Hst.
  assert (Hprog : s !! "status" = Some (PStr "in_progress")).
  { unfold status in Hst. destruct (s !! "status") as [[]|]; congruence. }
  pose proof (in_progress_no_feedback _ Hreach _ _ Hs Hprog) as Hfb.
  unfold get_feedback. apply (on_session_same _ _ _ _ s); [assumption|].
  handler_steps. rewrite Hfb. reflexivity.
Qed.

Lemma get_feedback_in_progress_witness :
  (@reachable numpy_stub (demo_table "Quick")
   /\ demo_table "Quick" !! "s1" = Some (stored (demo_table "Quick") "s1")
   /\ status (stored (demo_table "Quick") "s1") = Some "in_progress")
  /\ get_feedback (demo_table "Quick") "s1"
     = (demo_table "Quick",
        JSONResponse [ ("feedback", JStr "Generating... Please check back.") ]).
Proof.
  assert (Hs : demo_table "Quick" !! "s1" = Some (stored (demo_table "Quick") "s1"))
    by (apply stored_lookup; vm_compute; reflexivity).
  assert (Hst : status (stored (demo_table "Quick") "s1") = Some "in_progress")
    by (vm_compute; reflexivity).
  split; [split_and!; [apply demo_table_reachable | exact Hs | exact Hst]|].
  exact (@get_feedback_in_progress numpy_stub _ _ _ (demo_table_reachable "Quick") Hs Hst).
Defined.

(** X9: when the completion asked for the feedback fails, [end_interview]
    stores the fixed failure text as the feedback and finishes the session;
    the text is then final: [get_feedback] serves it and a later
    [end_interview], whatever the completion would answer, generates nothing
    and leaves the session as it is. *)
Theorem failed_feedback_is_final `{Numpy} (SESSIONS : sessions) (session_id : string)
    (s : session) (later_answer : option string) :
  reachable SESSIONS -> SESSIONS !! session_id = Some s ->
  status s = Some "in_progress" ->
  exists s',
    end_interview SESSIONS session_id None
    = (<[session_id := s']> SESSIONS,
       JSONResponse [ ("status", JStr "finished");
                      ("message", JStr "Feedback generated.");
                      ("session_id", JStr session_id);
                      ("feedback", JStr "Feedback generation failed. Try again later.") ])
    /\ status s' = Some "finished"
    /\ s' !! "feedback" = Some (PStr "Feedback generation failed. Try again later.")
    /\ questions_asked s' = questions_asked s /\ history s' = history s
    /\ get_feedback (<[session_id := s']> SESSIONS) session_id
       = (<[session_id := s']> SESSIONS,
          JSONResponse
            [ ("feedback", JStr "Feedback generation failed. Try again later.") ])
    /\ end_interview (<[session_id := s']> SESSIONS) session_id later_answer
       = (<[session_id := s']> SESSIONS,
          JSONResponse [ ("status", JStr "finished");
                         ("message", JStr "Feedback already generated.");
                         ("session_id", JStr session_id) ]).
Proof.
  intros Hreach Hs Hst.
  assert (Hprog : s !! "status" = Some (PStr "in_progress")).
  { unfold status in Hst. destruct (s !! "status") as [[]|]; congruence. }
  destruct (well_formed_fields s (reachable_well_formed _ Hreach _ _ Hs))
    as (h & n & m & Hh & Hn & Hm & _).
  set (fb := "Feedback generation failed. Try again later.").
  set (s' := <["feedback" := PStr fb]> (<["status" := PStr "finished"]> s)).
  assert (Hrun : run (end_interview_body session_id None) s
                 = (s', JSONResponse [ ("status", JStr "finished");
                                       ("message", JStr "Feedback generated.");
                                       ("session_id", JStr session_id);
                                       ("feedback", JStr fb) ])).
  { rewrite (end_body_run session_id None s h) by assumption.
    rewrite Hprog. reflexivity. }
  assert (Hs' : <[session_id := s']> SESSIONS !! session_id = Some s')
    by apply lookup_insert_eq.
  assert (Hh' : s' !! "history" = Some (PTurns h)) by (subst s'; lookups; reflexivity).
  exists s'. split_and!.
  - unfold end_interview. rewrite (on_session_run _ _ _ _ s Hs), Hrun. reflexivity.
  - subst s'. unfold status. lookups. reflexivity.
  - subst s'. lookups. reflexivity.
  - subst s'. unfold questions_asked. lookups. reflexivity.
  - unfold history. rewrite Hh', Hh. reflexivity.
  - unfold get_feedback. apply (on_session_same _ _ _ _ s'); [assumption|].
    handler_steps. subst s'. lookups. reflexivity.
  - unfold end_interview. apply (on_session_same _ _ _ _ s'); [assumption|].
    rewrite (end_body_run session_id later_answer s' h) by assumption.
    subst s'. lookups. reflexivity.
Qed.

Lemma failed_feedback_witness :
  (@reachable numpy_stub (demo_table "Quick")
   /\ demo_table "Quick" !! "s1" = Some (stored (demo_table "Quick") "s1")
   /\ status (stored (demo_table "Quick") "s1") = Some "in_progress")
  /\ exists s',
       end_interview (demo_table "Quick") "s1" None
       = (<["s1" := s']> (demo_table "Quick"),
          JSONResponse [ ("status", JStr "finished");
                         ("message", JStr "Feedback generated.");
                         ("session_id", JStr "s1");
                         ("feedback",
                           JStr "Feedback generation failed. Try again later.") ])
       /\ end_interview (<["s1" := s']> (demo_table "Quick")) "s1"
            (Some "Overall Score: 6/10")
          = (<["s1" := s']> (demo_table "Quick"),
             JSONResponse [ ("status", JStr "finished");
                            ("message", JStr "Feedback already generated.");
                            ("session_id", JStr "s1") ]).
Proof.
  assert (Hs : demo_table "Quick" !! "s1" = Some (stored (demo_table "Quick") "s1"))
    by (apply stored_lookup; vm_compute; reflexivity).
  assert (Hst : status (stored (demo_table "Quick") "s1") = Some "in_progress")
    by (vm_compute; reflexivity).
  split; [split_and!; [apply demo_table_reachable | exact Hs | exact Hst]|].
  destruct (@failed_feedback_is_final numpy_stub _ _ _ (Some "Overall Score: 6/10")
              (demo_table_reachable "Quick") Hs Hst)
    as (s' & Hend & _ & _ & _ & _ & _ & Hagain).
  exists s'. split; [exact Hend | exact Hagain].
Defined.

(** X10: a completion that answers the feedback request with nothing but
    whitespace leaves the empty text stored in a finished session; the empty
    feedback counts as missing: [get_feedback] answers with the placeholder,
    and the next [end_interview] asks the completion again and stores what it
    answers. *)
Theorem blank_feedback_is_regenerated `{Numpy} (SESSIONS : sessions)
    (session_id : string) (s : session) (blank : string) (later_answer : option string) :
  reachable SESSIONS -> SESSIONS !! session_id = Some s ->
  status s = Some "in_progress" -> all_space blank = true ->
  exists s',
    end_interview SESSIONS session_id (Some blank)
    = (<[session_id := s']> SESSIONS,
       JSONResponse [ ("status", JStr "finished");
                      ("message", JStr "Feedback generated.");
                      ("session_id", JStr session_id);
                      ("feedback", JStr EmptyString) ])
    /\ status s' = Some "finished"
    /\ s' !! "feedback" = Some (PStr EmptyString)
    /\ get_feedback (<[session_id := s']> SESSIONS) session_id
       = (<[session_id := s']> SESSIONS,
          JSONResponse [ ("feedback", JStr "Generating... Please check back.") ])
    /\ reply_field "feedback"
         (end_interview (<[session_id := s']> SESSIONS) session_id later_answer).2
       = Some (JStr (feedback_text_of later_answer)).
Proof.
  intros Hreach Hs Hst Hblank.
  assert (Hprog : s !! "status" = Some (PStr "in_progress")).
  { unfold status in Hst. destruct (s !! "status") as [[]|]; congruence. }
  destruct (well_formed_fields s (reachable_well_formed _ Hreach _ _ Hs))
    as (h & n & m & Hh & Hn & Hm & _).
  assert (Hstrip : strip blank = EmptyString).
  { rewrite <- (app_empty_r blank). rewrite strip_all_space by assumption. reflexivity. }
  set (s' := <["feedback" := PStr EmptyString]> (<["status" := PStr "finished"]> s)).
  assert (Hrun : run (end_interview_body session_id (Some blank)) s
                 = (s', JSONResponse [ ("status", JStr "finished");
                                       ("message", JStr "Feedback generated.");
                                       ("session_id", JStr session_id);
                                       ("feedback", JStr EmptyString) ])).
  { rewrite (end_body_run session_id (Some blank) s h) by assumption.
    rewrite Hprog. cbn [call_openai_llm fmap option_fmap option_map]. rewrite Hstrip.
    reflexivity. }
  assert (Hs' : <[session_id := s']> SESSIONS !! session_id = Some s')
    by apply lookup_insert_eq.
  assert (Hh' : s' !! "history" = Some (PTurns h)) by (subst s'; lookups; reflexivity).
  exists s'. split_and!.
  - unfold end_interview. rewrite (on_session_run _ _ _ _ s Hs), Hrun. reflexivity.
  - subst s'. unfold status. lookups. reflexivity.
  - subst s'. lookups. reflexivity.
  - unfold get_feedback. apply (on_session_same _ _ _ _ s'); [assumption|].
    handler_steps. subst s'. lookups. reflexivity.
  - unfold end_interview. rewrite (on_session_run _ _ _ _ s' Hs').
    rewrite (end_body_run session_id later_answer s' h) by assumption.
    subst s'. lookups. reflexivity.
Qed.

Lemma blank_feedback_witness :
  (@reachable numpy_stub (demo_table "Quick")
   /\ demo_table "Quick" !! "s1" = Some (stored (demo_table "Quick") "s1")
   /\ status (stored (demo_table "Quick") "s1") = Some "in_progress"
   /\ all_space "  " = true)
  /\ exists s',
       end_interview (demo_table "Quick") "s1" (Some "  ")
       = (<["s1" := s']> (demo_table "Quick"),
          JSONResponse [ ("status", JStr "finished");
                         ("message", JStr "Feedback generated.");
                         ("session_id", JStr "s1");
                         ("feedback", JStr EmptyString) ])
       /\ get_feedback (<["s1" := s']> (demo_table "Quick")) "s1"
          = (<["s1" := s']> (demo_table "Quick"),
             JSONResponse [ ("feedback", JStr "Generating... Please check back.") ])
       /\ reply_field "feedback"
            (end_interview (<["s1" := s']> (demo_table "Quick")) "s1"
               (Some "Overall Score: 6/10")).2
          = Some (JStr "Overall Score: 6/10").
Proof.
  assert (Hs : demo_table "Quick" !! "s1" = Some (stored (demo_table "Quick") "s1"))
    by (apply stored_lookup; vm_compute; reflexivity).
  assert (Hst : status (stored (demo_table "Quick") "s1") = Some "in_progress")
    by (vm_compute; reflexivity).
  split; [split_and!; [apply demo_table_reachable | exact Hs | exact Hst | reflexivity]|].
  destruct (@blank_feedback_is_regenerated numpy_stub _ _ _ "  "
              (Some "Overall Score: 6/10") (demo_table_reachable "Quick") Hs Hst eq_refl)
    as (s' & Hend & _ & _ & Hget & Hagain).
  exists s'. split_and!; [exact Hend | exact Hget | exact Hagain].
Defined.

Lemma history_is_append_only_witness :
  (@reachable numpy_stub (demo_table "Quick")
   /\ fresh_along (demo_table "Quick") demo_requests
   /\ demo_table "Quick" !! "s1" = Some (stored (demo_table "Quick") "s1"))
  /\ exists s' added,
       execute (demo_table "Quick") demo_requests !! "s1" = Some s'
       /\ history s'
          = Some ([ {| speaker := "Interviewer";
                       text := "Tell me about your last project?" |} ] ++ added)%list
       /\ s' !! "mode" = Some (PStr "Quick").
Proof.
  assert (Hs : demo_table "Quick" !! "s1" = Some (stored (demo_table "Quick") "s1"))
    by (apply stored_lookup; vm_compute; reflexivity).
  assert (Hfresh : fresh_along (demo_table "Quick") demo_requests)
    by (cbn [fresh_along demo_requests fresh]; split_and!; try exact I;
        vm_compute; reflexivity).
  assert (Hh : history (stored (demo_table "Quick") "s1")
               = Some [ {| speaker := "Interviewer";
                           text := "Tell me about your last project?" |} ])
    by (vm_compute; reflexivity).
  assert (Hm : stored (demo_table "Quick") "s1" !! "mode" = Some (PStr "Quick"))
    by (vm_compute; reflexivity).
  split; [split_and!; [apply demo_table_reachable | exact Hfresh | exact Hs]|].
  destruct (@history_is_append_only numpy_stub demo_requests _ _ _
              (demo_table_reachable "Quick") Hfresh Hs)
    as (s' & h & added & Hs' & Hh0 & Hh' & Hk).
  rewrite Hh in Hh0. injection Hh0 as <-.
  exists s', added. split_and!; [exact Hs' | exact Hh' |].
  rewrite (Hk "mode") by (cbn; tauto). exact Hm.
Defined.

Lemma questions_asked_is_bounded_witness :
  (@reachable numpy_stub (demo_table "Custom|1")
   /\ demo_table "Custom|1" !! "s1" = Some (stored (demo_table "Custom|1") "s1"))
  /\ exists h n,
       history (stored (demo_table "Custom|1") "s1") = Some h
       /\ questions_asked (stored (demo_table "Custom|1") "s1") = Some n
       /\ 0 <= n <= interviewer_turns h
       /\ n <= Z.max 2 (compute_max_questions "Custom|1").
Proof.
  assert (Hs : demo_table "Custom|1" !! "s1" = Some (stored (demo_table "Custom|1") "s1"))
    by (apply stored_lookup; vm_compute; reflexivity).
  assert (Hm : stored (demo_table "Custom|1") "s1" !! "mode" = Some (PStr "Custom|1"))
    by (vm_compute; reflexivity).
  split; [split; [apply demo_table_reachable | exact Hs]|].
  destruct (@questions_asked_is_bounded numpy_stub _ _ _
              (demo_table_reachable "Custom|1") Hs)
    as (h & n & m & Hh & Hn & Hm' & Hb & Hmax).
  rewrite Hm in Hm'. injection Hm' as <-.
  exists h, n. split_and!; [exact Hh | exact Hn | apply Hb | apply Hb | exact Hmax].
Defined.

(** X11: [start_session] registers the session before it asks for the first
    question, and nothing removes it: when the completion fails, the reply is
    the error 500, which carries no identifier, and the table keeps a session
    in progress with no question asked and an empty history; when it answers,
    the reply carries the identifier and the question, which is the first
    turn of the history and counts as the first question. *)
Theorem start_session_registers_first (SESSIONS : sessions)
    (role level focus mode jd_text : string) (env : start_env) (jd_chunks : list string) :
  start_rag env = Some jd_chunks ->
  exists s,
    (start_session SESSIONS role level focus mode jd_text env).1 !! uuid env = Some s
    /\ status s = Some "in_progress" /\ s !! "feedback" = Some PNone
    /\ (forall k v, In (k, v) [ ("session_id", uuid env); ("role", role); ("level", level);
                                ("focus", focus); ("mode", mode); ("jd_text", jd_text) ] ->
                    s !! k = Some (PStr v))
    /\ match start_llm env with
       | None =>
           (start_session SESSIONS role level focus mode jd_text env).2
           = HTTPException 500 "Failed to get first question from OpenAI API."
           /\ questions_asked s = Some 0 /\ history s = Some []
           /\ s !! "current_question" = None
       | Some answer =>
           (start_session SESSIONS role level focus mode jd_text env).2
           = JSONResponse [ ("session_id", JStr (uuid env));
                            ("first_question", JStr (strip answer));
                            ("status", JStr "in_progress");
                            ("current_q_count", JInt 1) ]
           /\ questions_asked s = Some 1
           /\ history s = Some [ {| speaker := "Interviewer"; text := strip answer |} ]
           /\ s !! "current_question" = Some (PStr (strip answer))
       end.
Proof.
  intros Hrag. unfold start_session. rewrite Hrag.
  destruct (start_llm env) as [answer|]; cbn [call_openai_llm fmap option_fmap option_map];
    cbv zeta; cbn [fst snd]; rewrite lookup_insert_eq; eexists; (split; [reflexivity|]);
    unfold status, questions_asked, history; lookups;
    (split_and!; try reflexivity);
    intros k v Hin; cbn [In] in Hin;
    repeat (destruct Hin as [[= <- <-] | Hin]; [lookups; reflexivity|]); destruct Hin.
Qed.

Lemma start_session_registers_first_witness :
  start_rag {| uuid := "s2"; start_rag := Some []; start_llm := None |} = Some []
  /\ exists s,
       (start_session (demo_table "Quick") "Analyst" "Junior" "SQL" "Long" EmptyString
          {| uuid := "s2"; start_rag := Some []; start_llm := None |}).1 !! "s2" = Some s
       /\ (start_session (demo_table "Quick") "Analyst" "Junior" "SQL" "Long" EmptyString
             {| uuid := "s2"; start_rag := Some []; start_llm := None |}).2
          = HTTPException 500 "Failed to get first question from OpenAI API."
       /\ status s = Some "in_progress" /\ questions_asked s = Some 0
       /\ history s = Some [].
Proof.
  split; [reflexivity|].
  destruct (start_session_registers_first (demo_table "Quick") "Analyst" "Junior" "SQL"
              "Long" EmptyString
              {| uuid := "s2"; start_rag := Some []; start_llm := None |} [] eq_refl)
    as (s & Hs & Hst & _ & _ & Hr & Hn & Hh & _).
  exists s. split_and!; [exact Hs | exact Hr | exact Hst | exact Hn | exact Hh].
Defined.

(** ** What [submit_response] works out from an answer *)

(** The score kept by the endpoint is in [0, 1], also when the scorer
    raised. *)
Lemma assess_confidence_range `{Numpy} (session_id user_text : string)
    (jd_chunks : list string) (env : submit_env) :
  fle f0 (confidence_score (assess session_id user_text jd_chunks env)) = true
  /\ fle (confidence_score (assess session_id user_text jd_chunks env)) f1 = true.
Proof.
  unfold assess. cbv zeta.
  destruct (if nonempty _ then _ else _) as [evaluation followup].
  cbn [confidence_score].
  unfold compute_confidence_score.
  destruct (negb (nonempty user_text)); [split; reflexivity|].
  destruct (_mean_embedding_of_chunks _ _) as [mean|]; [|split; reflexivity].
  destruct (match user_call (embeds env) with Some (e :: _) => Some e | _ => None end);
    [destruct (_cosine_sim _ _); [|split; reflexivity]|];
    apply clamp01_range.
Qed.

(** X12: every confidence that [submit_response] reports is a number of
    [0, 1]: the score of the scorer when it returns one, 0.0 when the scorer
    raises or nothing was heard; it is never NaN, negative or above 1. *)
Theorem reported_confidence_in_unit_interval `{Numpy} (SESSIONS : sessions)
    (session_id : string) (env : submit_env) (c : float) :
  reachable SESSIONS ->
  reply_field "confidence" (submit_response SESSIONS session_id env).2 = Some (JFloat c) ->
  fle f0 c = true /\ fle c f1 = true.
Proof.
  intros Hreach. unfold submit_response, on_session.
  destruct (SESSIONS !! session_id) as [s|] eqn:Hs; [|discriminate].
  destruct (well_formed_fields s (reachable_well_formed _ Hreach _ _ Hs))
    as (h & n & m & Hh & Hn & Hm & Hr & Hl & Hf & Hst).
  destruct Hst as [Hfin | (Hprog & Hnf & _)].
  - rewrite submit_body_finished by assumption. discriminate.
  - rewrite (submit_body_run session_id env s h n m) by assumption.
    destruct (asr env) as [transcription|]; cbv zeta;
      [destruct (nonempty (strip transcription));
       [destruct (rag env) as [jd_chunks|];
        [destruct (compute_max_questions m <=? _)|]|]|];
      cbn [snd reply_field]; try discriminate.
    1-2: intros [= <-]; apply assess_confidence_range.
    intros [= <-]. split; reflexivity.
Qed.

Lemma reported_confidence_witness :
  (@reachable numpy_stub (demo_table "Quick")
   /\ reply_field "confidence"
        (@submit_response numpy_stub (demo_table "Quick") "s1" ontopic_env).2
      = Some (JFloat (fmul (fdiv f1 f2) f0_7)))
  /\ fle f0 (fmul (fdiv f1 f2) f0_7) = true /\ fle (fmul (fdiv f1 f2) f0_7) f1 = true.
Proof.
  assert (Hc : reply_field "confidence"
                 (@submit_response numpy_stub (demo_table "Quick") "s1" ontopic_env).2
               = Some (JFloat (fmul (fdiv f1 f2) f0_7)))
    by (vm_compute; reflexivity).
  split; [split; [apply demo_table_reachable | exact Hc]|].
  exact (@reported_confidence_in_unit_interval numpy_stub _ _ ontopic_env _
           (demo_table_reachable "Quick") Hc).
Defined.

Lemma fallback_parsed (k : nat) :
  (k < 3)%nat ->
  parse_llm_two_line_response
    ("Short evaluation not available due to model error." +:+ NL
       +:+ nth k FALLBACKS EmptyString)
  = ("Short evaluation not available due to model error.", nth k FALLBACKS EmptyString)
  /\ nonempty ("Short evaluation not available due to model error." +:+ NL
                 +:+ nth k FALLBACKS EmptyString) = true
  /\ In (nth k FALLBACKS EmptyString) FALLBACKS.
Proof.
  intros Hk. destruct k as [|[|[|k]]]; [| | |lia];
    (split_and!; [vm_compute; reflexivity | reflexivity | cbn; tauto]).
Qed.

(** X13: a failure of the completion does not stop the turn: the evaluation
    is the fixed text, the follow-up is one of the three fallback questions,
    both are recovered unchanged from the two-line text that goes into the
    history, and the answer counts as on topic. *)
Theorem model_error_gives_fallback `{Numpy} (session_id user_text : string)
    (jd_chunks : list string) (env : submit_env) :
  llm env = None ->
  exists q,
    In q FALLBACKS
    /\ followup_question (assess session_id user_text jd_chunks env) = Some q
    /\ evaluation (assess session_id user_text jd_chunks env)
       = "Short evaluation not available due to model error."
    /\ full_response (assess session_id user_text jd_chunks env)
       = "Short evaluation not available due to model error." +:+ NL +:+ q
    /\ offtopic (assess session_id user_text jd_chunks env) = false.
Proof.
  intros Hllm. unfold assess. rewrite Hllm.
  cbn [call_openai_llm fmap option_fmap option_map]. cbv zeta.
  unfold choose_fallback_followup.
  assert (Hk : (pick env mod 3 < 3)%nat) by (apply Nat.mod_upper_bound; lia).
  destruct (fallback_parsed _ Hk) as (Hparse & Hne & Hin).
  rewrite Hne, Hparse. cbv iota beta.
  exists (nth (pick env mod 3) FALLBACKS EmptyString).
  split_and!; [exact Hin | reflexivity | reflexivity | reflexivity | reflexivity].
Qed.

Lemma model_error_witness :
  llm (stub_submit_env (Some "I built the billing service") None None None) = None
  /\ exists q,
       In q FALLBACKS
       /\ followup_question
            (assess "s1" "I built the billing service" []
               (stub_submit_env (Some "I built the billing service") None None None))
          = Some q
       /\ offtopic
            (assess "s1" "I built the billing service" []
               (stub_submit_env (Some "I built the billing service") None None None))
          = false.
Proof.
  split; [reflexivity|].
  destruct (@model_error_gives_fallback numpy_stub "s1" "I built the billing service" []
              (stub_submit_env (Some "I built the billing service") None None None)
              eq_refl)
    as (q & Hin & Hq & _ & _ & Hoff).
  exists q. split_and!; [exact Hin | exact Hq | exact Hoff].
Defined.

(** ** Hesitation detection: [detect_hesitation] *)

Lemma lower_is_word (c : ascii) : is_word (lower c) = is_word c.
Proof. destruct c as [[] [] [] [] [] [] [] []]; reflexivity. Qed.

Lemma lower_is_digit (c : ascii) : is_digit (lower c) = is_digit c.
Proof. destruct c as [[] [] [] [] [] [] [] []]; reflexivity. Qed.

Lemma lower_isspace (c : ascii) : isspace (lower c) = isspace c.
Proof. destruct c as [[] [] [] [] [] [] [] []]; reflexivity. Qed.

Lemma eqb_nocase_lower (a b : ascii) : eqb_nocase a b = true -> lower a = lower b.
Proof. unfold eqb_nocase. apply Ascii.eqb_eq. Qed.

Lemma eqb_nocase_is_word (a b : ascii) : eqb_nocase a b = true -> is_word a = is_word b.
Proof.
  intros H. rewrite <- (lower_is_word a), <- (lower_is_word b), (eqb_nocase_lower _ _ H).
  reflexivity.
Qed.

Lemma eqb_nocase_is_digit (a b : ascii) : eqb_nocase a b = true -> is_digit a = is_digit b.
Proof.
  intros H. rewrite <- (lower_is_digit a), <- (lower_is_digit b), (eqb_nocase_lower _ _ H).
  reflexivity.
Qed.

Lemma eqb_nocase_isspace (a b : ascii) : eqb_nocase a b = true -> isspace a = isspace b.
Proof.
  intros H. rewrite <- (lower_isspace a), <- (lower_isspace b), (eqb_nocase_lower _ _ H).
  reflexivity.
Qed.

Lemma same_letters_cons (x y : ascii) (a b : string) :
  same_letters (String x a) (String y b) = true ->
  eqb_nocase x y = true /\ same_letters a b = true.
Proof. cbn [same_letters]. apply andb_true_iff. Qed.

Lemma same_letters_refl (a : string) : same_letters a a = true.
Proof.
  induction a as [|x a IH]; [reflexivity|]. cbn [same_letters]. rewrite IH.
  unfold eqb_nocase. rewrite Ascii.eqb_refl. reflexivity.
Qed.

Lemma same_letters_app (a a' b b' : string) :
  same_letters a a' = true -> same_letters b b' = true ->
  same_letters (a +:+ b) (a' +:+ b') = true.
Proof.
  revert a'. induction a as [|x a IH]; intros [|y a'] Ha Hb; try discriminate.
  - rewrite !app_empty_l. assumption.
  - apply same_letters_cons in Ha as [Hxy Ha]. rewrite !app_cons. cbn [same_letters].
    rewrite Hxy. apply IH; assumption.
Qed.

Lemma same_letters_nonempty (a b : string) :
  same_letters a b = true -> nonempty a = nonempty b.
Proof. destruct a, b; (reflexivity || discriminate). Qed.

Lemma same_letters_length (a b : string) :
  same_letters a b = true -> String.length a = String.length b.
Proof.
  revert b. induction a as [|x a IH]; intros [|y b] H; try discriminate; [reflexivity|].
  apply same_letters_cons in H as [_ H]. cbn [String.length]. f_equal. auto.
Qed.

Lemma same_letters_lstrip (a b : string) :
  same_letters a b = true -> same_letters (lstrip a) (lstrip b) = true.
Proof.
  revert b. induction a as [|x a IH]; intros [|y b] H; try discriminate; [reflexivity|].
  pose proof H as H'. apply same_letters_cons in H' as [Hxy Hab].
  cbn [lstrip]. rewrite (eqb_nocase_isspace _ _ Hxy).
  destruct (isspace y); [apply IH; assumption | assumption].
Qed.

Lemma same_letters_rstrip (a b : string) :
  same_letters a b = true -> same_letters (rstrip a) (rstrip b) = true.
Proof.
  revert b. induction a as [|x a IH]; intros [|y b] H; try discriminate; [reflexivity|].
  apply same_letters_cons in H as [Hxy Hab].
  cbn [rstrip]. rewrite (eqb_nocase_isspace _ _ Hxy).
  rewrite (same_letters_nonempty _ _ (IH _ Hab)).
  destruct (isspace y && negb (nonempty (rstrip b))); [reflexivity|].
  cbn [same_letters]. rewrite Hxy. apply IH. assumption.
Qed.

Lemma same_prev_word_before (p q : option ascii) :
  same_prev p q = true -> word_before p = word_before q.
Proof.
  destruct p, q; try discriminate; [|reflexivity]. apply eqb_nocase_is_word.
Qed.

Lemma same_letters_word_after (a b : string) :
  same_letters a b = true -> word_after a = word_after b.
Proof.
  destruct a, b; try discriminate; [reflexivity|].
  intros H. apply same_letters_cons in H as [H _]. apply eqb_nocase_is_word, H.
Qed.

Lemma match_digits_same (s : string) :
  forall s' k k',
    same_letters s s' = true ->
    (forall p p' t t', same_prev p p' = true -> same_letters t t' = true ->
                       k p t = k' p' t') ->
    match_digits s k = match_digits s' k'.
Proof.
  induction s as [|x s IH]; intros [|y s'] k k' Hs Hk; try discriminate; [reflexivity|].
  apply same_letters_cons in Hs as [Hxy Hs]. cbn [match_digits].
  rewrite (eqb_nocase_is_digit _ _ Hxy), (IH s' k k' Hs Hk).
  rewrite (Hk (Some x) (Some y) s s' Hxy Hs). reflexivity.
Qed.

Lemma match_here_same (r : regex) :
  forall prev prev' s s' k k',
    same_prev prev prev' = true -> same_letters s s' = true ->
    (forall p p' t t', same_prev p p' = true -> same_letters t t' = true ->
                       k p t = k' p' t') ->
    match_here r prev s k = match_here r prev' s' k'.
Proof.
  induction r as [c| | |r1 IH1 r2 IH2|r1 IH1 r2 IH2|r1 IH1];
    intros prev prev' s s' k k' Hp Hs Hk; cbn [match_here].
  - destruct s as [|x s], s' as [|y s']; try discriminate; [reflexivity|].
    apply same_letters_cons in Hs as [Hxy Hs].
    rewrite (Hk (Some x) (Some y) s s' Hxy Hs).
    unfold eqb_nocase in *. apply Ascii.eqb_eq in Hxy. rewrite Hxy. reflexivity.
  - apply match_digits_same; assumption.
  - rewrite (same_prev_word_before _ _ Hp), (same_letters_word_after _ _ Hs),
      (Hk _ _ _ _ Hp Hs). reflexivity.
  - apply IH1; [assumption | assumption |].
    intros p p' t t' Hp' Ht. apply IH2; assumption.
  - rewrite (IH1 prev prev' s s' k k'), (IH2 prev prev' s s' k k') by assumption.
    reflexivity.
  - rewrite (IH1 prev prev' s s' k k'), (Hk _ _ _ _ Hp Hs) by assumption. reflexivity.
Qed.

Lemma search_from_same (r : regex) (s : string) :
  forall s' prev prev',
    same_prev prev prev' = true -> same_letters s s' = true ->
    search_from r prev s = search_from r prev' s'.
Proof.
  induction s as [|x s IH]; intros [|y s'] prev prev' Hp Hs; try discriminate;
    cbn [search_from].
  - rewrite (match_here_same r prev prev' EmptyString EmptyString
               (fun _ _ => true) (fun _ _ => true)); auto.
  - pose proof Hs as Hs'. apply same_letters_cons in Hs' as [Hxy Hss].
    rewrite (match_here_same r prev prev' (String x s) (String y s')
               (fun _ _ => true) (fun _ _ => true)); auto.
    rewrite (IH s' (Some x) (Some y)); auto.
Qed.

Lemma detect_hesitation_same (a b : string) :
  same_letters a b = true -> detect_hesitation a = detect_hesitation b.
Proof.
  intros H. unfold detect_hesitation, re_search.
  rewrite (same_letters_nonempty _ _ H).
  rewrite (same_letters_length (strip a) (strip b))
    by (apply same_letters_rstrip, same_letters_lstrip, H).
  rewrite (search_from_same _hes_re a b None None) by auto.
  reflexivity.
Qed.

(** X14: the detection does not look at the case of the letters: two texts
    that differ only there get the same flag. *)
Theorem detect_hesitation_ignores_case (a b : string) :
  same_letters a b = true -> detect_hesitation a = detect_hesitation b.
Proof. apply detect_hesitation_same. Qed.

Lemma detect_hesitation_ignores_case_witness :
  same_letters "Well, I THINK so" "well, i think so" = true
  /\ detect_hesitation "Well, I THINK so" = detect_hesitation "well, i think so".
Proof.
  split; [reflexivity|].
  exact (detect_hesitation_ignores_case "Well, I THINK so" "well, i think so" eq_refl).
Defined.

(** A match that begins after a prefix is found by the search. *)
Lemma search_from_skip (r : regex) (a : string) :
  forall prev s,
    match_here r (match last_char a with Some l => Some l | None => prev end) s
      (fun _ _ => true) = true ->
    search_from r prev (a +:+ s) = true.
Proof.
  induction a as [|c a IH]; intros prev s Hm.
  - rewrite app_empty_l. cbn [last_char] in Hm.
    destruct s; cbn [search_from]; rewrite Hm; reflexivity.
  - rewrite app_cons. cbn [search_from]. apply orb_true_iff. right.
    apply IH. cbn [last_char] in Hm. destruct (last_char a); assumption.
Qed.

Lemma filler_matches (p : string) (prev : option ascii) (b : string) :
  In p fillers -> word_before prev = false -> word_after b = false ->
  match_here _hes_re prev (p +:+ b) (fun _ _ => true) = true.
Proof.
  intros Hin Hprev Hb. cbn [In fillers] in Hin.
  repeat (destruct Hin as [<- | Hin];
          [repeat rewrite app_cons; rewrite app_empty_l;
           cbv - [word_before word_after]; rewrite ?Hprev, ?Hb; reflexivity|]).
  destruct Hin.
Qed.

(** X15: a filler that stands as a word of its own is detected wherever it
    is in the text and however it is capitalised: what comes before it must
    not end with a letter, a digit or an underscore, and what comes after it
    must not begin with one. *)
Theorem filler_word_is_hesitation (a p b filler : string) :
  In filler fillers -> same_letters p filler = true ->
  word_before (last_char a) = false -> word_after b = false ->
  detect_hesitation (a +:+ p +:+ b) = true.
Proof.
  intros Hin Hp Ha Hb.
  rewrite (detect_hesitation_same (a +:+ p +:+ b) (a +:+ filler +:+ b))
    by (apply same_letters_app; [apply same_letters_refl|];
        apply same_letters_app; [assumption | apply same_letters_refl]).
  unfold detect_hesitation.
  destruct (negb _ || _); [reflexivity|].
  unfold re_search. apply search_from_skip. apply filler_matches; [assumption | | assumption].
  destruct (last_char a); [assumption | reflexivity].
Qed.

Lemma filler_word_witness :
  (In "i guess" fillers /\ same_letters "I guess" "i guess" = true
   /\ word_before (last_char "Then, ") = false /\ word_after ", it worked." = false)
  /\ detect_hesitation ("Then, " +:+ "I guess" +:+ ", it worked.") = true.
Proof.
  split; [split_and!; [cbn; tauto | reflexivity | reflexivity | reflexivity]|].
  apply (filler_word_is_hesitation "Then, " "I guess" ", it worked." "i guess");
    [cbn; tauto | reflexivity | reflexivity | reflexivity].
Defined.

Lemma nonempty_rstrip (s : string) : nonempty (rstrip s) = negb (all_space s).
Proof.
  induction s as [|c s IH]; [reflexivity|]. cbn [rstrip all_space]. rewrite IH.
  destruct (isspace c), (all_space s); reflexivity.
Qed.

Lemma all_space_lstrip (s : string) : all_space (lstrip s) = all_space s.
Proof.
  induction s as [|c s IH]; [reflexivity|]. cbn [lstrip all_space].
  destruct (isspace c) eqn:Hc; [assumption|]. cbn [all_space]. rewrite Hc. reflexivity.
Qed.

(** The test for an empty or blank text in [detect_hesitation]. *)
Lemma blank_test (s : string) :
  negb (nonempty s) || (String.length (strip s) =? 0)%nat = all_space s.
Proof.
  assert (H : (String.length (strip s) =? 0)%nat = all_space s).
  { unfold strip. rewrite <- all_space_lstrip.
    pose proof (nonempty_rstrip (lstrip s)) as Hne.
    destruct (rstrip (lstrip s)); cbn [nonempty String.length Nat.eqb] in *;
      destruct (all_space (lstrip s)); (reflexivity || discriminate). }
  rewrite H. destruct s; reflexivity.
Qed.

Lemma all_space_app (a b : string) : all_space (a +:+ b) = all_space a && all_space b.
Proof.
  induction a as [|c a IH]; [reflexivity|]. rewrite app_cons. cbn [all_space].
  rewrite IH. apply andb_assoc.
Qed.

(** Every alternative begins with a word boundary. *)
Lemma no_boundary_no_match (prev : option ascii) (s : string)
    (k : option ascii -> string -> bool) :
  xorb (word_before prev) (word_after s) = false -> match_here _hes_re prev s k = false.
Proof.
  intros Hb. unfold _hes_re, _HESITATION_PATTERNS, alternation, whole.
  cbn [match_here]. rewrite Hb. reflexivity.
Qed.

Lemma no_word_char_after (s : string) : no_word_char s = true -> word_after s = false.
Proof.
  destruct s as [|c s]; [reflexivity|]. cbn [no_word_char word_after].
  intros H. apply andb_true_iff in H as [H _]. apply negb_true_iff, H.
Qed.

Lemma search_from_no_word_char (s : string) :
  forall prev, word_before prev = false -> no_word_char s = true ->
               search_from _hes_re prev s = false.
Proof.
  induction s as [|c s IH]; intros prev Hprev Hs; cbn [search_from].
  - rewrite no_boundary_no_match by (rewrite Hprev; reflexivity). reflexivity.
  - rewrite no_boundary_no_match
      by (rewrite Hprev, (no_word_char_after _ Hs); reflexivity).
    cbn [no_word_char] in Hs. apply andb_true_iff in Hs as [Hc Hs].
    apply IH; [|assumption]. apply negb_true_iff, Hc.
Qed.

(** X16: a text without any letter, digit or underscore is flagged exactly
    when it is empty or blank: punctuation alone is not a hesitation, silence
    is. *)
Theorem no_word_hesitation_iff_blank (text : string) :
  no_word_char text = true -> detect_hesitation text = all_space text.
Proof.
  intros H. unfold detect_hesitation. rewrite blank_test.
  destruct (all_space text); [reflexivity|].
  apply search_from_no_word_char; [reflexivity | assumption].
Qed.

Lemma no_word_hesitation_witness :
  (no_word_char "...?!" = true /\ no_word_char "   " = true)
  /\ detect_hesitation "...?!" = false /\ detect_hesitation "   " = true.
Proof.
  split; [split; reflexivity|].
  split.
  - exact (no_word_hesitation_iff_blank "...?!" eq_refl).
  - exact (no_word_hesitation_iff_blank "   " eq_refl).
Defined.

Lemma alternation_member (l : list regex) (r : regex) (prev : option ascii) (s : string)
    (k : option ascii -> string -> bool) :
  In r l -> match_here r prev s k = true -> match_here (alternation l) prev s k = true.
Proof.
  induction l as [|r1 l IH]; intros Hin Hm; [destruct Hin|].
  destruct l as [|r2 l].
  - destruct Hin as [<- | []]. exact Hm.
  - change (alternation (r1 :: r2 :: l)) with (RAlt r1 (alternation (r2 :: l))).
    cbn [match_here]. apply orb_true_iff.
    destruct Hin as [<- | Hin]; [left; exact Hm | right; apply IH; assumption].
Qed.

Lemma match_digits_run (d rest : string) (k : option ascii -> string -> bool) :
  all_digits d = true -> nonempty d = true ->
  k (last_char d) rest = true -> match_digits (d +:+ rest) k = true.
Proof.
  induction d as [|c d IH]; [discriminate|]. intros Hd _ Hk.
  cbn [all_digits] in Hd. apply andb_true_iff in Hd as [Hc Hd].
  rewrite app_cons. cbn [match_digits]. rewrite Hc. cbn [andb]. apply orb_true_iff.
  destruct d as [|c' d].
  - right. rewrite app_empty_l. exact Hk.
  - left. apply IH; [assumption | reflexivity |].
    cbn [last_char] in *. destruct (last_char d); exact Hk.
Qed.

Lemma digit_is_word (c : ascii) : is_digit c = true -> is_word c = true.
Proof. destruct c as [[] [] [] [] [] [] [] []]; (reflexivity || discriminate). Qed.

Lemma digit_not_space (c : ascii) : is_digit c = true -> isspace c = false.
Proof. destruct c as [[] [] [] [] [] [] [] []]; (reflexivity || discriminate). Qed.

Lemma alternation_none (l : list regex) (prev : option ascii) (s : string)
    (k : option ascii -> string -> bool) :
  l <> [] -> Forall (fun r => match_here r prev s k = false) l ->
  match_here (alternation l) prev s k = false.
Proof.
  intros Hne Hall. induction Hall as [|r1 l H1 Hall IH]; [contradiction|].
  destruct l as [|r2 l]; [exact H1|].
  change (alternation (r1 :: r2 :: l)) with (RAlt r1 (alternation (r2 :: l))).
  cbn [match_here]. rewrite H1, IH by discriminate. reflexivity.
Qed.

(** No filler begins with a digit or with a character that is not of a
    word. *)
Lemma first_char_no_filler (c : ascii) (prev : option ascii) (s : string)
    (k : option ascii -> string -> bool) :
  is_word c = false \/ is_digit c = true ->
  match_digits (String c s)
    (fun p s' => match_here (literal "..." RBoundary) p s' k) = false ->
  match_here _hes_re prev (String c s) k = false.
Proof.
  intros Hc Hd.
  assert (Hne : forall l, In l ["u"; "w"; "m"; "i"; "n"; "k"; "s"; "I"; "p"]%char ->
                          eqb_nocase c l = false).
  { intros l Hl. cbn [In] in Hl.
    destruct c as [[] [] [] [] [] [] [] []];
      repeat (destruct Hl as [<- | Hl]; [try reflexivity; destruct Hc; discriminate|]);
      destruct Hl. }
  apply alternation_none; [discriminate|].
  unfold _HESITATION_PATTERNS, whole.
  repeat (apply Forall_cons; split;
          [first [ change (xorb (word_before prev) (word_after (String c s))
                           && match_digits (String c s)
                                (fun p s' => match_here (literal "..." RBoundary) p s' k)
                           = false);
                   rewrite Hd; apply andb_false_r
                 | cbn [match_here literal]; rewrite Hne by (cbn; tauto);
                   apply andb_false_r ]|]).
  apply Forall_nil; exact I.
Qed.

Lemma match_digits_no_boundary (d t : string) :
  all_digits d = true -> no_word_char t = true ->
  match_digits (d +:+ "..." +:+ t)
    (fun p s' => match_here (literal "..." RBoundary) p s' (fun _ _ => true)) = false.
Proof.
  intros Hd Ht. induction d as [|c d IH].
  - rewrite app_empty_l. reflexivity.
  - cbn [all_digits] in Hd. apply andb_true_iff in Hd as [Hc Hd].
    rewrite app_cons. cbn [match_digits]. rewrite Hc, (IH Hd). cbn [andb orb].
    destruct d as [|c' d].
    + rewrite app_empty_l. cbn [String.append literal match_here].
      rewrite !app_cons, app_empty_l. cbv - [word_after].
      rewrite (no_word_char_after _ Ht). reflexivity.
    + rewrite app_cons. cbn [literal match_here].
      cbn [all_digits] in Hd. apply andb_true_iff in Hd as [Hc' _].
      destruct c' as [[] [] [] [] [] [] [] []]; (reflexivity || discriminate).
Qed.

Lemma no_word_char_app (a b : string) :
  no_word_char (a +:+ b) = no_word_char a && no_word_char b.
Proof.
  induction a as [|c a IH]; [reflexivity|]. rewrite app_cons. cbn [no_word_char].
  rewrite IH. apply andb_assoc.
Qed.

(** The search passes over characters that are not of a word. *)
Lemma search_from_pass (a : string) :
  forall prev rest,
    word_before prev = false -> no_word_char a = true ->
    search_from _hes_re prev (a +:+ rest)
    = search_from _hes_re (match last_char a with Some l => Some l | None => prev end) rest.
Proof.
  induction a as [|c a IH]; intros prev rest Hprev Ha; [reflexivity|].
  cbn [no_word_char] in Ha. apply andb_true_iff in Ha as [Hc Ha].
  apply negb_true_iff in Hc.
  rewrite app_cons. cbn [search_from].
  rewrite no_boundary_no_match by (cbn [word_after]; rewrite Hprev, Hc; reflexivity).
  cbn [orb]. rewrite (IH (Some c) rest Hc Ha). cbn [last_char].
  destruct (last_char a); reflexivity.
Qed.

Lemma search_from_digits_dots (d t : string) :
  forall prev, all_digits d = true -> no_word_char t = true ->
               search_from _hes_re prev (d +:+ "..." +:+ t) = false.
Proof.
  intros prev Hd Ht. revert prev. induction d as [|c d IH]; intros prev.
  - rewrite app_empty_l, !app_cons, app_empty_l. cbn [search_from].
    rewrite first_char_no_filler by (first [left; reflexivity | reflexivity]).
    cbn [orb].
    apply (search_from_no_word_char (String "." (String "." t)) (Some "."%char));
      [reflexivity|]. cbn [no_word_char]. rewrite Ht. reflexivity.
  - pose proof (match_digits_no_boundary (String c d) t Hd Ht) as Hm.
    cbn [all_digits] in Hd. apply andb_true_iff in Hd as [Hc Hd].
    rewrite app_cons in *. cbn [search_from].
    rewrite first_char_no_filler by (first [right; exact Hc | exact Hm]).
    cbn [orb]. apply IH. assumption.
Qed.

(** X17: the pattern for a number followed by three dots asks for a word
    boundary after the dots, so it needs a letter, a digit or an underscore
    right after them: a count such as [3...go] is flagged, and the same count
    at the end of the answer, or followed by a space or by punctuation, is
    not. *)
Theorem numbered_ellipsis_needs_a_word_after (a d b : string) :
  all_digits d = true -> nonempty d = true -> word_before (last_char a) = false ->
  (word_after b = true -> detect_hesitation (a +:+ d +:+ "..." +:+ b) = true)
  /\ (no_word_char a = true -> no_word_char b = true ->
      detect_hesitation (a +:+ d +:+ "..." +:+ b) = false).
Proof.
  intros Hd Hne Ha. split.
  - intros Hb. unfold detect_hesitation. destruct (negb _ || _); [reflexivity|].
    unfold re_search. apply search_from_skip.
    set (prev := match last_char a with Some l => Some l | None => None end).
    assert (Hprev : word_before prev = false)
      by (subst prev; destruct (last_char a); [exact Ha | reflexivity]).
    apply (alternation_member _HESITATION_PATTERNS
             (RSeq RBoundary (RSeq RDigits (literal "..." RBoundary))));
      [cbn; tauto|].
    change (xorb (word_before prev) (word_after (d +:+ "..." +:+ b))
            && match_digits (d +:+ "..." +:+ b)
                 (fun p s' => match_here (literal "..." RBoundary) p s' (fun _ _ => true))
            = true).
    rewrite Hprev.
    rewrite match_digits_run; [| assumption | assumption |].
    + destruct d as [|c d]; [discriminate|]. rewrite app_cons. cbn [word_after].
      cbn [all_digits] in Hd. apply andb_true_iff in Hd as [Hc _].
      rewrite (digit_is_word _ Hc). reflexivity.
    + rewrite !app_cons, app_empty_l. cbv - [word_after last_char]. rewrite Hb.
      reflexivity.
  - intros Hna Hnb. unfold detect_hesitation. rewrite blank_test.
    assert (Hblank : all_space (a +:+ d +:+ "..." +:+ b) = false).
    { rewrite !all_space_app. destruct d as [|c d]; [discriminate|].
      cbn [all_digits] in Hd. apply andb_true_iff in Hd as [Hc _].
      cbn [all_space]. rewrite (digit_not_space _ Hc). cbn [andb].
      apply andb_false_r. }
    rewrite Hblank. unfold re_search.
    rewrite search_from_pass by (reflexivity || assumption).
    apply search_from_digits_dots; assumption.
Qed.

Lemma numbered_ellipsis_witness :
  (all_digits "3" = true /\ nonempty "3" = true /\ word_before (last_char "Give me ") = false)
  /\ detect_hesitation ("Give me " +:+ "3" +:+ "..." +:+ "seconds") = true
  /\ (no_word_char ">> " = true /\ no_word_char " ?" = true)
  /\ detect_hesitation (">> " +:+ "3" +:+ "..." +:+ " ?") = false.
Proof.
  split; [split_and!; reflexivity|].
  split; [|split; [split; reflexivity|]].
  - exact (proj1 (numbered_ellipsis_needs_a_word_after "Give me " "3" "seconds"
                    eq_refl eq_refl eq_refl) eq_refl).
  - exact (proj2 (numbered_ellipsis_needs_a_word_after ">> " "3" " ?"
                    eq_refl eq_refl eq_refl) eq_refl eq_refl).
Defined.

(** ** The retrieval store *)

(** The chunker returns on every job description, within the tests the
    model gives it. *)
Lemma jd_chunker_returns (jd_text : string) :
  exists chunks,
    _chunk_text (S (length (split (strip jd_text)))) jd_text 150 30 = Some chunks.
Proof.
  destruct (_chunk_text_returns jd_text 150 30 ltac:(lia)) as (chunks & Hc).
  exists chunks. apply Hc. lia.
Qed.

Lemma build_rag_index_cases `{Faiss} (RAG_STORE : rag_store) (session_id jd_text : string)
    (service : option (list vector)) :
  build_rag_index RAG_STORE session_id jd_text service
  = (<[session_id := empty_entry]> RAG_STORE, Returned)
  \/ (build_rag_index RAG_STORE session_id jd_text service = (RAG_STORE, Raised)
      /\ nonempty (strip jd_text) = true)
  \/ (exists index c cs e es,
        _chunk_text (S (length (split (strip (strip jd_text))))) (strip jd_text) 150 30
        = Some (c :: cs)
        /\ service = Some (e :: es)
        /\ make_index (vector_len e) (e :: es) = Some index
        /\ build_rag_index RAG_STORE session_id jd_text service
           = (<[session_id := {| entry_index := Some index; entry_chunks := c :: cs;
                                 entry_dim := vector_len e |}]> RAG_STORE,
              Returned)).
Proof.
  unfold build_rag_index. cbv zeta.
  destruct (nonempty (strip jd_text)) eqn:Hne; cbn [negb]; [|left; reflexivity].
  destruct (jd_chunker_returns (strip jd_text)) as (chunks & Hc). rewrite Hc.
  destruct chunks as [|c cs]; [left; reflexivity|].
  cbn [_embed_texts].
  destruct service as [[|e es]|]; [right; left; split; reflexivity | |
                                   right; left; split; reflexivity].
  destruct (make_index (vector_len e) (e :: es)) as [index|] eqn:Hidx;
    [|right; left; split; reflexivity].
  right. right. exists index, c, cs, e, es. split_and!; reflexivity || assumption.
Qed.

(** X18: [build_rag_index] ends on every job description, and an exception
    (the embedding request fails or returns nothing, or the index cannot be
    made) leaves [RAG_STORE] exactly as it was, an index built earlier for
    the same session included; only a call that returns writes the entry of
    the session, and no call touches another session. *)
Theorem build_rag_index_writes_on_return_only `{Faiss} (RAG_STORE : rag_store)
    (session_id jd_text : string) (service : option (list vector)) :
  (build_rag_index RAG_STORE session_id jd_text service).2 <> Running
  /\ ((build_rag_index RAG_STORE session_id jd_text service).2 = Raised ->
      (build_rag_index RAG_STORE session_id jd_text service).1 = RAG_STORE)
  /\ ((build_rag_index RAG_STORE session_id jd_text service).2 = Returned ->
      is_Some ((build_rag_index RAG_STORE session_id jd_text service).1 !! session_id))
  /\ (forall other, other <> session_id ->
        (build_rag_index RAG_STORE session_id jd_text service).1 !! other
        = RAG_STORE !! other).
Proof.
  destruct (build_rag_index_cases RAG_STORE session_id jd_text service)
    as [-> | [[-> _] | (index & c & cs & e & es & _ & _ & _ & ->)]]; cbn [fst snd];
    (split_and!; [discriminate | try discriminate; try reflexivity
                 | try discriminate; intros _; rewrite ?lookup_insert_eq; eauto
                 | intros other Hne; rewrite ?lookup_insert_ne by congruence; reflexivity]).
Qed.


(** Every chunk [query_rag] returns is stored for the session. *)
Lemma query_rag_stored `{Faiss} (RAG_STORE : rag_store) (session_id query : string)
    (top_k : Z) (service : option (list vector)) (out : list string) :
  query_rag RAG_STORE session_id query top_k service = Some out ->
  forall store, RAG_STORE !! session_id = Some store ->
                Forall (fun c => In c (entry_chunks store)) out.
Proof.
  unfold query_rag. intros Hq store Hs. rewrite Hs in Hq.
  destruct (entry_index store) as [index|]; [|injection Hq as <-; constructor].
  destruct (entry_chunks store) as [|c cs] eqn:Hchunks; [injection Hq as <-; constructor|].
  cbn [_embed_texts] in Hq.
  destruct service as [[|e es]|]; [injection Hq as <-; constructor | | discriminate].
  cbv zeta in Hq.
  destruct (index_search index (e :: es) _) as [ids|]; [|discriminate].
  injection Hq as <-.
  apply List.Forall_forall. intros x Hx. apply list_elem_of_In in Hx.
  apply list_elem_of_omap in Hx as (idx & _ & Hx).
  destruct ((0 <=? idx) && (idx <? len (c :: cs))); [|discriminate].
  apply list_elem_of_In. eapply list_elem_of_lookup_2. exact Hx.
Qed.




Lemma blank_strip (s : string) : all_space s = true -> strip s = EmptyString.
Proof.
  intros H. rewrite <- (app_empty_r s). rewrite strip_all_space by assumption. reflexivity.
Qed.

(** X21: what [query_rag] returns for a session comes from the job
    description the index of the session was built from: every chunk returned
    is one of the chunks [_chunk_text] makes of it with 150 words and an
    overlap of 30, and for an empty or blank job description nothing is
    returned, with no request to the embedding service. *)
Theorem retrieval_comes_from_the_job_description `{Faiss} (RAG_STORE : rag_store)
    (session_id jd_text query : string) (top_k : Z)
    (build_service query_service : option (list vector)) (out : list string) :
  (build_rag_index RAG_STORE session_id jd_text build_service).2 = Returned ->
  query_rag (build_rag_index RAG_STORE session_id jd_text build_service).1
    session_id query top_k query_service = Some out ->
  (exists chunks,
     (forall fuel, (length (split jd_text) < fuel)%nat ->
                   _chunk_text fuel (strip jd_text) 150 30 = Some chunks)
     /\ Forall (fun c => In c chunks) out)
  /\ (all_space jd_text = true ->
      out = []
      /\ query_rag (build_rag_index RAG_STORE session_id jd_text build_service).1
           session_id query top_k None = Some []).
Proof.
  intros Hret Hq.
  destruct (_chunk_text_returns (strip jd_text) 150 30 ltac:(lia)) as (chunks & Hchunks).
  rewrite split_strip, split_strip in Hchunks.
  destruct (build_rag_index_cases RAG_STORE session_id jd_text build_service)
    as [Hb | [[Hb _] | (index & c & cs & e & es & Hc & _ & _ & Hb)]];
    rewrite Hb in Hret, Hq |- *; cbn [fst snd] in *; [| discriminate |].
  - unfold query_rag in Hq |- *. rewrite lookup_insert_eq in Hq |- *.
    cbn [entry_index empty_entry] in Hq |- *. injection Hq as <-.
    split; [exists chunks; split; [exact Hchunks | constructor] | intros _; split; reflexivity].
  - split.
    + exists chunks. split; [exact Hchunks|].
      rewrite split_strip, split_strip in Hc.
      rewrite Hchunks in Hc by lia. injection Hc as ->.
      exact (query_rag_stored _ _ _ _ _ _ Hq _ (lookup_insert_eq _ _ _)).
    + intros Hblank. rewrite (blank_strip _ Hblank) in Hc. discriminate.
Qed.

Lemma retrieval_witness :
  ((@build_rag_index faiss_stub ∅ "s1" " We need  a backend engineer. " (Some [tt])).2
   = Returned
   /\ @query_rag faiss_stub
        (@build_rag_index faiss_stub ∅ "s1" " We need  a backend engineer. "
           (Some [tt])).1 "s1" "Which stack?" 3 (Some [tt])
      = Some ["We need a backend engineer."])
  /\ _chunk_text 6 (strip " We need  a backend engineer. ") 150 30
     = Some ["We need a backend engineer."]
  /\ Forall (fun c => In c ["We need a backend engineer."])
       ["We need a backend engineer."].
Proof.
  assert (Hb : (@build_rag_index faiss_stub ∅ "s1" " We need  a backend engineer. "
                  (Some [tt])).2 = Returned) by (vm_compute; reflexivity).
  assert (Hq : @query_rag faiss_stub
                 (@build_rag_index faiss_stub ∅ "s1" " We need  a backend engineer. "
                    (Some [tt])).1 "s1" "Which stack?" 3 (Some [tt])
               = Some ["We need a backend engineer."]) by (vm_compute; reflexivity).
  assert (Hc : _chunk_text 6 (strip " We need  a backend engineer. ") 150 30
               = Some ["We need a backend engineer."]) by (vm_compute; reflexivity).
  split; [split; [exact Hb | exact Hq]|]. split; [exact Hc|].
  destruct (@retrieval_comes_from_the_job_description faiss_stub ∅ "s1"
              " We need  a backend engineer. " "Which stack?" 3 (Some [tt]) (Some [tt])
              _ Hb Hq) as ((chunks & Hchunks & Hall) & _).
  rewrite (Hchunks 6%nat) in Hc by (vm_compute; lia).
  injection Hc as ->. exact Hall.
Defined.

(** ** The system prompt *)

Lemma startswith_app (p b : string) : startswith p (p +:+ b) = true.
Proof.
  induction p as [|c p IH]; [destruct b; reflexivity|].
  rewrite app_cons. cbn [startswith]. rewrite Ascii.eqb_refl. exact IH.
Qed.

Lemma startswith_prefix (p s : string) :
  startswith p s = true -> exists b, s = p +:+ b.
Proof.
  revert s. induction p as [|c p IH]; intros s H.
  - exists s. reflexivity.
  - destruct s as [|d s]; [discriminate|]. cbn [startswith] in H.
    apply andb_true_iff in H as [Hc H]. apply Ascii.eqb_eq in Hc as ->.
    destruct (IH s H) as (b & ->). exists b. reflexivity.
Qed.

(** [sub in s] holds exactly of the texts that have [sub] somewhere inside. *)
Lemma contains_inside (sub s : string) :
  contains sub s = true <-> exists a b, s = a +:+ sub +:+ b.
Proof.
  split.
  - induction s as [|c s IH]; cbn [contains]; intros H.
    + rewrite orb_false_r in H. apply startswith_prefix in H as (b & ->).
      exists EmptyString, b. reflexivity.
    + apply orb_true_iff in H as [H | H].
      * apply startswith_prefix in H as (b & ->). exists EmptyString, b. reflexivity.
      * destruct (IH H) as (a & b & ->). exists (String c a), b. reflexivity.
  - intros (a & b & ->). induction a as [|c a IH].
    + rewrite app_empty_l. destruct (sub +:+ b) eqn:E; cbn [contains]; rewrite <- E;
        rewrite startswith_app; reflexivity.
    + rewrite app_cons. cbn [contains]. rewrite IH. apply orb_true_r.
Qed.

Lemma contains_trans (a b c : string) :
  contains a b = true -> contains b c = true -> contains a c = true.
Proof.
  intros Hab Hbc. apply contains_inside in Hab as (p & q & ->).
  apply contains_inside in Hbc as (r & t & ->). apply contains_inside.
  exists (r +:+ p), (q +:+ t). rewrite !app_assoc_str. reflexivity.
Qed.

Lemma contains_join (sep x : string) (l : list string) :
  In x l -> contains x (join sep l) = true.
Proof.
  intros Hin. apply contains_inside. induction l as [|y l IH]; [destruct Hin|].
  destruct l as [|z l].
  - destruct Hin as [-> | []]. exists EmptyString, EmptyString.
    rewrite app_empty_r. reflexivity.
  - change (join sep (y :: z :: l)) with (y +:+ sep +:+ join sep (z :: l)).
    destruct Hin as [-> | Hin].
    + exists EmptyString, (sep +:+ join sep (z :: l)). reflexivity.
    + destruct (IH Hin) as (a & b & ->). exists (y +:+ sep +:+ a), b.
      rewrite !app_assoc_str. reflexivity.
Qed.

Lemma contains_app_l (sub a b : string) :
  contains sub a = true -> contains sub (a +:+ b) = true.
Proof.
  intros H. apply contains_inside in H as (p & q & ->). apply contains_inside.
  exists p, (q +:+ b). rewrite !app_assoc_str. reflexivity.
Qed.

Lemma contains_app_r (sub a b : string) :
  contains sub b = true -> contains sub (a +:+ b) = true.
Proof.
  intros H. apply contains_inside in H as (p & q & ->). apply contains_inside.
  exists (a +:+ p), q. rewrite !app_assoc_str. reflexivity.
Qed.

(** The two fields of the template are in the text it gives. *)
Lemma template_has_fields (jd_context history tail : string) :
  contains jd_context (CORE_PROMPT_TEMPLATE jd_context history +:+ tail) = true
  /\ contains history (CORE_PROMPT_TEMPLATE jd_context history +:+ tail) = true.
Proof.
  split; apply contains_app_l; unfold CORE_PROMPT_TEMPLATE; apply contains_join.
  - do 5 right; left; reflexivity.
  - do 20 right; left; reflexivity.
Qed.

Lemma contains_suffix (sub a : string) : contains sub (a +:+ sub) = true.
Proof. apply contains_inside. exists a, EmptyString. rewrite app_empty_r. reflexivity. Qed.

(** X22: the prompt shows the model everything the caller passed: each
    retrieved chunk of the job description, whole and unchanged, or the
    notice that there is none; the history text, or the notice that there is
    none; and the role, the level, the focus and the mode, with the defaults
    [Software Engineer] and [Mid-level] for an empty role or level. *)
Theorem prompt_carries_the_context (role level focus mode : string)
    (jd_chunks : list string) (history_text last_user_text : string) :
  let prompt :=
    (generate_system_prompt role level focus mode jd_chunks history_text
       last_user_text).1 in
  Forall (fun c => contains c prompt = true) jd_chunks
  /\ (jd_chunks = [] -> contains "(no JD context available)" prompt = true)
  /\ contains (if nonempty history_text then history_text else "(no prior context)")
       prompt = true
  /\ contains (NL +:+ "ROLE: " +:+ (if nonempty role then role else "Software Engineer")
                 +:+ " (" +:+ (if nonempty level then level else "Mid-level") +:+ ")"
                 +:+ NL +:+ "FOCUS: " +:+ focus +:+ NL +:+ "MODE: " +:+ mode +:+ NL)
       prompt = true.
Proof.
  cbv zeta. unfold generate_system_prompt. cbv zeta. cbn [fst].
  split_and!.
  - apply List.Forall_forall. intros c Hc.
    destruct jd_chunks as [|c0 cs]; [destruct Hc|].
    apply (contains_trans c (join (NL +:+ NL) (c0 :: cs)));
      [apply contains_join; exact Hc | apply template_has_fields].
  - intros ->. apply template_has_fields.
  - apply template_has_fields.
  - unfold str_or. apply contains_inside.
    exists (CORE_PROMPT_TEMPLATE
              match jd_chunks with
              | [] => "(no JD context available)"
              | _ :: _ => join (NL +:+ NL) jd_chunks
              end
              (if nonempty history_text then history_text else "(no prior context)")
            +:+ NL +:+ "HESITATION_FLAG: "
            +:+ str_bool (detect_hesitation
                            (if nonempty last_user_text then last_user_text
                             else EmptyString))),
           EmptyString.
    rewrite app_empty_r, !app_assoc_str. reflexivity.
Qed.

(** X23: the flag returned with the prompt is [detect_hesitation] of the last
    answer and is written into the prompt; the prompt for the first question
    is built with an empty last answer, so it always tells the model
    [HESITATION_FLAG: True], before the candidate has said anything. *)
Theorem first_prompt_reports_hesitation (role level focus mode : string)
    (jd_chunks : list string) (history_text last_user_text : string) :
  (generate_system_prompt role level focus mode jd_chunks history_text last_user_text).2
  = detect_hesitation last_user_text
  /\ contains (NL +:+ "HESITATION_FLAG: "
                 +:+ (if detect_hesitation last_user_text then "True" else "False") +:+ NL)
       (generate_system_prompt role level focus mode jd_chunks history_text
          last_user_text).1 = true
  /\ (first_prompt role level focus mode jd_chunks).2 = true
  /\ contains (NL +:+ "HESITATION_FLAG: True" +:+ NL)
       (first_prompt role level focus mode jd_chunks).1 = true.
Proof.
  assert (Hor : forall s, str_or s EmptyString = s) by (intros []; reflexivity).
  assert (Hflag : forall jd history b tail,
             contains (NL +:+ "HESITATION_FLAG: " +:+ str_bool b +:+ NL)
               (CORE_PROMPT_TEMPLATE jd history +:+ NL +:+ "HESITATION_FLAG: "
                  +:+ str_bool b +:+ NL +:+ tail) = true).
  { intros jd history b tail. apply contains_inside.
    exists (CORE_PROMPT_TEMPLATE jd history), tail.
    rewrite !app_assoc_str. reflexivity. }
  unfold first_prompt, generate_system_prompt. cbv zeta. cbn [fst snd].
  rewrite !Hor. split_and!; [reflexivity | apply Hflag | reflexivity | apply (Hflag _ _ true)].
Qed.

(** ** The chunker, window by window *)

(** The chunks of the loop are the windows [words[j:j + C]] joined by a
    space, for the positions [j] the loop goes through; a word at a position
    that a window reaches is in the window of the first position [i] or in a
    window that begins at least [O] words before it. *)
Lemma chunk_loop_windows (words : list string) (C O : Z) :
  1 <= C - O ->
  forall (fuel : nat) (i : Z) (acc r : list string),
    0 <= i -> chunk_loop fuel words C O i acc = Some r ->
    exists starts,
      r = (acc ++ map (fun j => join " " (py_slice words j (j + C))) starts)%list
      /\ Forall (fun j => i <= j < len words) starts
      /\ (0 <= O ->
          forall p, i <= p < len words -> p < i + C \/ i + O <= p ->
            exists j, In j starts /\ j <= p < j + C /\ (j = i \/ j + O <= p)).
Proof.
  intros HS fuel. induction fuel as [|fuel IH]; intros i acc r Hi Hr; [discriminate|].
  cbn [chunk_loop] in Hr. destruct (i <? len words) eqn:Hlt.
  - apply Z.ltb_lt in Hlt. cbv zeta in Hr.
    apply IH in Hr as (starts & -> & Hall & Hcov); [|lia].
    exists (i :: starts). split_and!.
    + rewrite <- app_assoc. reflexivity.
    + constructor; [lia|]. eapply Forall_impl; [exact Hall|]. cbv beta. intros j Hj. lia.
    + intros HO p Hp Hwin. destruct (Z.lt_ge_cases p (i + C)) as [Hin | Hout].
      * exists i. split_and!; [left; reflexivity | lia | lia | left; reflexivity].
      * destruct (Hcov HO p ltac:(lia) ltac:(lia)) as (j & Hj & Hpj & Hjo).
        exists j. split_and!; [right; exact Hj | lia | lia | right; lia].
  - apply Z.ltb_ge in Hlt. injection Hr as <-. exists []. split_and!.
    + rewrite app_nil_r. reflexivity.
    + constructor.
    + intros _ p Hp. lia.
Qed.

Lemma py_slice_words (words : list string) (i j : Z) :
  Forall is_word_str words -> Forall is_word_str (py_slice words i j).
Proof. intros H. unfold py_slice. cbv zeta. apply Forall_take, Forall_drop, H. Qed.

Lemma py_slice_lookup (words : list string) (j C p : Z) (w : string) :
  0 <= j -> j <= p < j + C -> words !! Z.to_nat p = Some w ->
  In w (py_slice words j (j + C))
  /\ p - j < len (py_slice words j (j + C)).
Proof.
  intros Hj Hp Hw.
  assert (Hn : p < len words).
  { apply lookup_lt_Some in Hw. unfold len. lia. }
  unfold py_slice, clip_index. cbv zeta.
  destruct (j <? 0) eqn:E1; [apply Z.ltb_lt in E1; lia|].
  destruct (j + C <? 0) eqn:E2; [apply Z.ltb_lt in E2; lia|].
  assert (Hlook : take (Z.to_nat (Z.min (j + C) (len words) - Z.min j (len words)))
                    (drop (Z.to_nat (Z.min j (len words))) words)
                  !! Z.to_nat (p - j) = Some w).
  { rewrite lookup_take_lt by lia. rewrite lookup_drop.
    replace (Z.to_nat (Z.min j (len words)) + Z.to_nat (p - j))%nat with (Z.to_nat p)
      by lia.
    exact Hw. }
  split.
  - apply list_elem_of_In. eapply list_elem_of_lookup_2. exact Hlook.
  - apply lookup_lt_Some in Hlook. unfold len at 1. lia.
Qed.

Lemma py_slice_length (words : list string) (j C : Z) :
  0 <= j -> 0 <= C -> len (py_slice words j (j + C)) <= C.
Proof.
  intros Hj HC. unfold py_slice, clip_index, len. cbv zeta.
  destruct (j <? 0) eqn:E1; [apply Z.ltb_lt in E1; lia|].
  destruct (j + C <? 0) eqn:E2; [apply Z.ltb_lt in E2; lia|].
  rewrite length_take. lia.
Qed.

(** The words of a chunk that the filter keeps are the words of its
    window. *)
Lemma window_chunk_words (slice : list string) :
  Forall is_word_str slice -> split (strip (join " " slice)) = slice.
Proof. intros H. rewrite split_strip. apply split_join, H. Qed.

Lemma filter_tiny_keeps (chunks : list string) (slice : list string) :
  Forall is_word_str slice -> In (join " " slice) chunks -> 10 < len slice ->
  In (strip (join " " slice)) (filter_tiny chunks).
Proof.
  intros Hw Hin Hlen. unfold filter_tiny. apply in_map. apply List.filter_In.
  split; [exact Hin|]. rewrite (split_join _ Hw). apply Z.ltb_lt. exact Hlen.
Qed.

(** X24: with an overlap of at least 10 words (the program uses 150 and 30),
    the chunks lose no word of the text: every word of the text is a word of
    some chunk that [_chunk_text] returns.  The windows that the closing
    filter drops, of 10 words or fewer, lie within the overlap of the window
    before them. *)
Theorem _chunk_text_keeps_every_word (fuel : nat) (text : string) (C O : Z)
    (chunks : list string) (w : string) :
  10 <= O -> 1 <= C - O ->
  _chunk_text fuel text C O = Some chunks -> In w (split text) ->
  exists c, In c chunks /\ In w (split c).
Proof.
  intros HO HS Hrun Hw. unfold _chunk_text in Hrun.
  destruct (nonempty text) eqn:Hne; cbn [negb] in Hrun;
    [|destruct text; [destruct Hw | discriminate]].
  cbv zeta in Hrun. rewrite split_strip in Hrun.
  pose proof (split_words text) as Hwords.
  destruct (len (split text) <=? C) eqn:Hshort.
  - injection Hrun as <-. exists (join " " (split text)).
    split; [left; reflexivity|]. rewrite (split_join _ Hwords). exact Hw.
  - apply Z.leb_gt in Hshort.
    destruct (chunk_loop fuel (split text) C O 0 []) as [r|] eqn:Hloop; [|discriminate].
    injection Hrun as <-.
    apply (chunk_loop_windows (split text) C O HS) in Hloop
        as (starts & -> & Hall & Hcov); [|lia].
    specialize (Hcov ltac:(lia)).
    apply list_elem_of_In, list_elem_of_lookup_1 in Hw as (p & Hp).
    assert (Hpn : Z.of_nat p < len (split text)).
    { apply lookup_lt_Some in Hp. unfold len. lia. }
    destruct (Hcov (Z.of_nat p) ltac:(lia) ltac:(lia)) as (j & Hj & Hpj & Hjo).
    assert (Hj0 : 0 <= j).
    { apply (proj1 (List.Forall_forall _ _) Hall) in Hj. lia. }
    destruct (py_slice_lookup (split text) j C (Z.of_nat p) w Hj0 Hpj
                ltac:(rewrite Nat2Z.id; exact Hp)) as (Hin & Hlen).
    pose proof (py_slice_words (split text) j (j + C) Hwords) as Hslice.
    exists (strip (join " " (py_slice (split text) j (j + C)))). split.
    + apply filter_tiny_keeps; [exact Hslice | |].
      * cbn [app]. apply (in_map (fun j => join " " (py_slice (split text) j (j + C)))).
        exact Hj.
      * destruct Hjo as [-> | Hjo]; [|lia].
        destruct (py_slice_lookup (split text) 0 C (C - 1)
                    (default EmptyString (split text !! Z.to_nat (C - 1)))
                    ltac:(lia) ltac:(lia)) as (_ & Hl).
        { destruct (split text !! Z.to_nat (C - 1)) eqn:E; [reflexivity|].
          apply lookup_ge_None in E. unfold len in Hshort. lia. }
        lia.
    + rewrite (window_chunk_words _ Hslice). exact Hin.
Qed.

Lemma _chunk_text_keeps_every_word_witness :
  (10 <= 10 /\ 1 <= 12 - 10
   /\ _chunk_text 27 alphabet_text 12 10
      = Some [ "a b c d e f g h i j k l"; "c d e f g h i j k l m n";
               "e f g h i j k l m n o p"; "g h i j k l m n o p q r";
               "i j k l m n o p q r s t"; "k l m n o p q r s t u v";
               "m n o p q r s t u v w x"; "o p q r s t u v w x y z" ]
   /\ In "z" (split alphabet_text))
  /\ exists c,
       In c [ "a b c d e f g h i j k l"; "c d e f g h i j k l m n";
              "e f g h i j k l m n o p"; "g h i j k l m n o p q r";
              "i j k l m n o p q r s t"; "k l m n o p q r s t u v";
              "m n o p q r s t u v w x"; "o p q r s t u v w x y z" ]
       /\ In "z" (split c).
Proof.
  assert (Hrun : _chunk_text 27 alphabet_text 12 10
                 = Some [ "a b c d e f g h i j k l"; "c d e f g h i j k l m n";
                          "e f g h i j k l m n o p"; "g h i j k l m n o p q r";
                          "i j k l m n o p q r s t"; "k l m n o p q r s t u v";
                          "m n o p q r s t u v w x"; "o p q r s t u v w x y z" ])
    by (vm_compute; reflexivity).
  assert (Hz : In "z" (split alphabet_text)) by (vm_compute; tauto).
  split; [split_and!; [lia | lia | exact Hrun | exact Hz]|].
  exact (_chunk_text_keeps_every_word 27 alphabet_text 12 10 _ "z"
           ltac:(lia) ltac:(lia) Hrun Hz).
Defined.

(** X25: no chunk is larger than asked for: whatever the text and the
    overlap, every chunk that [_chunk_text] returns has at most
    [chunk_size_words] words. *)
Theorem _chunk_text_chunks_fit (fuel : nat) (text : string) (C O : Z)
    (chunks : list string) :
  0 <= C -> _chunk_text fuel text C O = Some chunks ->
  Forall (fun c => word_count c <= C) chunks.
Proof.
  intros HC Hrun. unfold _chunk_text in Hrun.
  destruct (nonempty text); cbn [negb] in Hrun; [|injection Hrun as <-; constructor].
  cbv zeta in Hrun. rewrite split_strip in Hrun.
  pose proof (split_words text) as Hwords.
  destruct (len (split text) <=? C) eqn:Hshort.
  - apply Z.leb_le in Hshort. injection Hrun as <-.
    constructor; [|constructor]. unfold word_count. rewrite (split_join _ Hwords).
    exact Hshort.
  - apply Z.leb_gt in Hshort.
    destruct (chunk_loop fuel (split text) C O 0 []) as [r|] eqn:Hloop; [|discriminate].
    injection Hrun as <-.
    destruct (Z.le_gt_cases 1 (C - O)) as [HS | HS].
    + apply (chunk_loop_windows (split text) C O HS) in Hloop
        as (starts & -> & Hall & _); [|lia].
      cbn [app]. unfold filter_tiny. apply List.Forall_forall. intros c Hc.
      apply in_map_iff in Hc as (c0 & <- & Hc0). apply List.filter_In in Hc0 as [Hc0 _].
      apply in_map_iff in Hc0 as (j & <- & Hj).
      apply (proj1 (List.Forall_forall _ _) Hall) in Hj.
      unfold word_count.
      rewrite (window_chunk_words _ (py_slice_words (split text) j (j + C) Hwords)).
      apply py_slice_length; lia.
    + rewrite (chunk_loop_diverges (split text) C O ltac:(lia) fuel 0 []) in Hloop by lia.
      discriminate.
Qed.

Lemma _chunk_text_chunks_fit_witness :
  (0 <= 12
   /\ _chunk_text 27 alphabet_text 12 2
      = Some ["a b c d e f g h i j k l"; "k l m n o p q r s t u v"])
  /\ Forall (fun c => word_count c <= 12)
       ["a b c d e f g h i j k l"; "k l m n o p q r s t u v"].
Proof.
  assert (Hrun : _chunk_text 27 alphabet_text 12 2
                 = Some ["a b c d e f g h i j k l"; "k l m n o p q r s t u v"])
    by (vm_compute; reflexivity).
  split; [split; [lia | exact Hrun]|].
  exact (_chunk_text_chunks_fit 27 alphabet_text 12 2 _ ltac:(lia) Hrun).
Defined.

(** ** The transcript: [build_transcript] *)

Lemma join_app (sep : string) (l l' : list string) :
  l <> [] -> l' <> [] ->
  join sep (l ++ l') = join sep l +:+ sep +:+ join sep l'.
Proof.
  intros Hl Hl'. induction l as [|x l IH]; [contradiction|].
  destruct l as [|y l].
  - destruct l' as [|z l']; [contradiction|]. reflexivity.
  - change (join sep ((x :: y :: l) ++ l'))
      with (x +:+ sep +:+ join sep ((y :: l) ++ l')).
    rewrite IH by discriminate.
    change (join sep (x :: y :: l)) with (x +:+ sep +:+ join sep (y :: l)).
    rewrite !app_assoc_str. reflexivity.
Qed.

(** X26: the transcript has the line of every turn of the history, speaker
    and trimmed text, and the transcript of a history that has grown begins
    with the transcript of the history before: turns that are appended never
    change what was transcribed earlier. *)
Theorem transcript_shows_every_turn (h more : list turn) (t : turn) :
  In t h ->
  contains ("(" +:+ speaker t +:+ "): " +:+ strip (text t)) (build_transcript h) = true
  /\ startswith (build_transcript h) (build_transcript (h ++ more)) = true
  /\ (more <> [] ->
      build_transcript (h ++ more)
      = build_transcript h +:+ NL +:+ build_transcript more).
Proof.
  intros Hin. unfold build_transcript.
  assert (Hh : map (fun t0 => "(" +:+ speaker t0 +:+ "): " +:+ strip (text t0)) h <> [])
    by (destruct h; [destruct Hin | discriminate]).
  assert (Happ : more <> [] ->
            join NL (map (fun t0 => "(" +:+ speaker t0 +:+ "): " +:+ strip (text t0))
                       (h ++ more))
            = join NL (map (fun t0 => "(" +:+ speaker t0 +:+ "): " +:+ strip (text t0)) h)
              +:+ NL
              +:+ join NL (map (fun t0 => "(" +:+ speaker t0 +:+ "): " +:+ strip (text t0))
                             more)).
  { intros Hmore. rewrite map_app. apply join_app; [exact Hh|].
    destruct more; [contradiction | discriminate]. }
  split_and!.
  - apply contains_join.
    apply (in_map (fun t0 => "(" +:+ speaker t0 +:+ "): " +:+ strip (text t0))). exact Hin.
  - destruct more as [|m more].
    + rewrite app_nil_r. rewrite <- (app_empty_r (join NL _)) at 2. apply startswith_app.
    + rewrite Happ by discriminate. apply startswith_app.
  - exact Happ.
Qed.

Lemma transcript_shows_every_turn_witness :
  In {| speaker := "User"; text := " I built it " |}
     [ {| speaker := "Interviewer"; text := "What did you build?" |};
       {| speaker := "User"; text := " I built it " |} ]
  /\ contains "(User): I built it"
       (build_transcript
          [ {| speaker := "Interviewer"; text := "What did you build?" |};
            {| speaker := "User"; text := " I built it " |} ]) = true
  /\ build_transcript
       ([ {| speaker := "Interviewer"; text := "What did you build?" |};
          {| speaker := "User"; text := " I built it " |} ]
        ++ [ {| speaker := "Interviewer"; text := "How?" |} ])
     = build_transcript
         [ {| speaker := "Interviewer"; text := "What did you build?" |};
           {| speaker := "User"; text := " I built it " |} ]
       +:+ NL +:+ "(Interviewer): How?".
Proof.
  assert (Hin : In {| speaker := "User"; text := " I built it " |}
                  [ {| speaker := "Interviewer"; text := "What did you build?" |};
                    {| speaker := "User"; text := " I built it " |} ])
    by (right; left; reflexivity).
  split; [exact Hin|].
  destruct (transcript_shows_every_turn _ [ {| speaker := "Interviewer"; text := "How?" |} ]
              _ Hin) as (Hc & _ & Happ).
  split; [exact Hc|]. apply Happ. discriminate.
Defined.
